(** * InsightLogs: the analysis-job poller, the logs fetcher and the log-row merge

    A shallow embedding of four pieces of the InsightLogs front end:

    - [Poller]: [src/pages/AiAnalysis.jsx] ([runAnalysisForFile],
      [pollJobStatus] with its inner [doPoll], [cancelPoll], [startAnalysis]);
    - [LogsPage]: [src/pages/logs.jsx] ([dedupeLogs], [fetchLogsFromServer],
      the filter effect, the refresh after a delete);
    - [Dashboard]: [src/pages/dashboard.jsx] ([getTimestampFromLog],
      [stableLogKey], [writeCache], the two cache merges);
    - [Uploads]: [src/pages/uploads.jsx] ([pick], [onDrop],
      [previewFileLocally], [startUpload], [handleStartAnalysis]).

    JavaScript runs each handler to its next [await] without interruption, so
    a handler is a function on the component state, cut at every [await]; the
    part after an [await] runs when the environment settles the request.  The
    environment (timers firing, requests settling, the user) is a list of
    events. *)

From Stdlib Require Import String List Arith Bool Lia ZArith DecimalString.
From Stdlib Require Import Permutation Sorted.
Import ListNotations.
Open Scope string_scope.

(** ** JavaScript values shared by the three components *)

(** A string-valued property that may be absent; [truthy] is JavaScript's
    truthiness of it and [or_else a b] is [a || b]. *)
Definition truthy (o : option string) : bool :=
  match o with
  | Some s => negb (s =? "")
  | None => false
  end.

Definition or_else (a b : option string) : option string :=
  if truthy a then a else b.

(** [v || d] with a string literal [d]. *)
Definition or_default (a : option string) (d : string) : string :=
  match a with
  | Some s => if s =? "" then d else s
  | None => d
  end.

(** [v || null]. *)
Definition or_null (a : option string) : option string :=
  if truthy a then a else None.

Definition nat_to_string (n : nat) : string :=
  NilZero.string_of_uint (Nat.to_uint n).

(** A thrown value: [err.name] and [err.message]. *)
Record js_error := { e_name : string; e_message : string }.

(** [err.message || String(err)]: with an empty message [String(err)] is the
    error's name. *)
Definition err_text (e : js_error) : string :=
  if e_message e =? "" then e_name e else e_message e.

(** The fields the components read from a parsed JSON body. *)
Record json_body := {
  b_status : option string;
  b_state : option string;
  b_error : option string;
  b_message : option string;
  b_detail : option string;
  b_job_id : option string;
  b_job : option string;
  b_payload : string
}.

(** A response after [await res.text()] and the guarded [JSON.parse]:
    [r_body] is [None] when the text is empty or not JSON. *)
Record http_resp := {
  r_code : nat;
  r_statusText : string;
  r_text : string;
  r_body : option json_body
}.

(** [res.ok]. *)
Definition r_ok (r : http_resp) : bool :=
  (200 <=? r_code r)%nat && (r_code r <? 300)%nat.

(** What an awaited fetch gives its continuation. *)
Inductive outcome :=
| Threw (e : js_error)
| Got (r : http_resp).

(** [(body && (body.detail || body.error || body.message)) || text ||
    `${res.status} ${res.statusText}`]. *)
Definition resp_msg (r : http_resp) : string :=
  let from_body :=
    match r_body r with
    | Some b => or_else (or_else (b_detail b) (b_error b)) (b_message b)
    | None => None
    end in
  if truthy from_body then or_default from_body ""
  else if negb (r_text r =? "") then r_text r
  else nat_to_string (r_code r) ++ " " ++ r_statusText r.

(** ** The poller of AiAnalysis.jsx *)
Module Poller.

(** [pendingJob]: [{ jobId, status, message, lastChecked }]. *)
Record pending_job := {
  jobId : option string;
  status : option string;
  message : option string;
  lastChecked : option string
}.

Inductive analysis_val :=
| ABody (b : json_body)
| ASummary (text : string).

(** The requests the component sends. *)
Inductive net_call :=
| NetAnalyze (fileId : string)
| NetStatus (job : string)
| NetResult (job : string).

(** A live interval created by [setInterval(doPoll, intervalMs)], with what
    the [doPoll] closure captured. *)
Record timer := { t_handle : nat; t_job : string; t_max : nat }.

(** A request in flight, with the closure that awaits it. *)
Inductive req :=
| ReqAnalyze (fileId : string)
| ReqStatus (h : nat) (job : string) (max : nat)
| ReqResult (job : string).

Record st := {
  error : option string;
  analysis : option analysis_val;
  loading : bool;
  lastFileId : option string;
  pendingJob : option pending_job;
  mounted : bool;                 (* mountedRef.current *)
  pollRef : option nat;           (* pollRef.current *)
  timers : list timer;            (* the intervals not yet cleared *)
  attempts : nat -> nat;          (* [let attempts] of each pollJobStatus call *)
  next_handle : nat;
  inflight : list (nat * req);
  next_req : nat;
  netlog : list net_call          (* every request sent, oldest first *)
}.

(** The component after mounting; [fileId] is what the mount effect got
    from [/files/last]. *)
Definition init (fileId : option string) : st :=
  {| error := None; analysis := None; loading := false; lastFileId := fileId;
     pendingJob := None; mounted := true; pollRef := None; timers := [];
     attempts := fun _ => 0; next_handle := 1; inflight := []; next_req := 0;
     netlog := [] |}.

Definition setError (e : option string) (s : st) : st :=
  {| error := e; analysis := analysis s; loading := loading s;
     lastFileId := lastFileId s; pendingJob := pendingJob s;
     mounted := mounted s; pollRef := pollRef s; timers := timers s;
     attempts := attempts s; next_handle := next_handle s;
     inflight := inflight s; next_req := next_req s; netlog := netlog s |}.

Definition setAnalysis (a : option analysis_val) (s : st) : st :=
  {| error := error s; analysis := a; loading := loading s;
     lastFileId := lastFileId s; pendingJob := pendingJob s;
     mounted := mounted s; pollRef := pollRef s; timers := timers s;
     attempts := attempts s; next_handle := next_handle s;
     inflight := inflight s; next_req := next_req s; netlog := netlog s |}.

Definition setLoading (b : bool) (s : st) : st :=
  {| error := error s; analysis := analysis s; loading := b;
     lastFileId := lastFileId s; pendingJob := pendingJob s;
     mounted := mounted s; pollRef := pollRef s; timers := timers s;
     attempts := attempts s; next_handle := next_handle s;
     inflight := inflight s; next_req := next_req s; netlog := netlog s |}.

Definition setPendingJob (p : option pending_job) (s : st) : st :=
  {| error := error s; analysis := analysis s; loading := loading s;
     lastFileId := lastFileId s; pendingJob := p;
     mounted := mounted s; pollRef := pollRef s; timers := timers s;
     attempts := attempts s; next_handle := next_handle s;
     inflight := inflight s; next_req := next_req s; netlog := netlog s |}.

Definition setMounted (b : bool) (s : st) : st :=
  {| error := error s; analysis := analysis s; loading := loading s;
     lastFileId := lastFileId s; pendingJob := pendingJob s;
     mounted := b; pollRef := pollRef s; timers := timers s;
     attempts := attempts s; next_handle := next_handle s;
     inflight := inflight s; next_req := next_req s; netlog := netlog s |}.

Definition setPollRef (p : option nat) (s : st) : st :=
  {| error := error s; analysis := analysis s; loading := loading s;
     lastFileId := lastFileId s; pendingJob := pendingJob s;
     mounted := mounted s; pollRef := p; timers := timers s;
     attempts := attempts s; next_handle := next_handle s;
     inflight := inflight s; next_req := next_req s; netlog := netlog s |}.

Definition setTimers (l : list timer) (s : st) : st :=
  {| error := error s; analysis := analysis s; loading := loading s;
     lastFileId := lastFileId s; pendingJob := pendingJob s;
     mounted := mounted s; pollRef := pollRef s; timers := l;
     attempts := attempts s; next_handle := next_handle s;
     inflight := inflight s; next_req := next_req s; netlog := netlog s |}.

Definition setAttempts (h n : nat) (s : st) : st :=
  {| error := error s; analysis := analysis s; loading := loading s;
     lastFileId := lastFileId s; pendingJob := pendingJob s;
     mounted := mounted s; pollRef := pollRef s; timers := timers s;
     attempts := fun k => if (k =? h)%nat then n else attempts s k;
     next_handle := next_handle s;
     inflight := inflight s; next_req := next_req s; netlog := netlog s |}.

Definition setInflight (l : list (nat * req)) (s : st) : st :=
  {| error := error s; analysis := analysis s; loading := loading s;
     lastFileId := lastFileId s; pendingJob := pendingJob s;
     mounted := mounted s; pollRef := pollRef s; timers := timers s;
     attempts := attempts s; next_handle := next_handle s;
     inflight := l; next_req := next_req s; netlog := netlog s |}.

(** [fetch(...)]: the request is logged and waits in [inflight] under a fresh
    id until the environment settles it. *)
Definition send (c : net_call) (k : req) (s : st) : st :=
  {| error := error s; analysis := analysis s; loading := loading s;
     lastFileId := lastFileId s; pendingJob := pendingJob s;
     mounted := mounted s; pollRef := pollRef s; timers := timers s;
     attempts := attempts s; next_handle := next_handle s;
     inflight := inflight s ++ [(next_req s, k)];
     next_req := S (next_req s); netlog := netlog s ++ [c] |}.

(** [setInterval(doPoll, intervalMs)] of the call that captured [job] and
    [max]; the handle is stored by the caller. *)
Definition setInterval (job : string) (max : nat) (s : st) : st :=
  {| error := error s; analysis := analysis s; loading := loading s;
     lastFileId := lastFileId s; pendingJob := pendingJob s;
     mounted := mounted s; pollRef := Some (next_handle s);
     timers := timers s ++ [{| t_handle := next_handle s; t_job := job; t_max := max |}];
     attempts := attempts s; next_handle := S (next_handle s);
     inflight := inflight s; next_req := next_req s; netlog := netlog s |}.

(** [clearInterval(h)]; [clearInterval(null)] does nothing. *)
Definition clearInterval (h : option nat) (s : st) : st :=
  match h with
  | Some n => setTimers (filter (fun t => negb (t_handle t =? n)%nat) (timers s)) s
  | None => s
  end.

(** [if (pollRef.current) { clearInterval(pollRef.current); pollRef.current = null; }]
    and, with the same effect, the unguarded
    [clearInterval(pollRef.current); pollRef.current = null;]
    (interval handles are positive, so a stored handle is truthy). *)
Definition stopPolling (s : st) : st :=
  setPollRef None (clearInterval (pollRef s) s).

Definition lookup_req (rid : nat) (s : st) : option req :=
  match find (fun p => (fst p =? rid)%nat) (inflight s) with
  | Some p => Some (snd p)
  | None => None
  end.

Definition settle (rid : nat) (s : st) : st :=
  setInflight (filter (fun p => negb (fst p =? rid)%nat) (inflight s)) s.

(** *** doPoll *)

(** [(body && (body.status || body.state)) || "unknown"]. *)
Definition status_of (body : option json_body) : string :=
  match body with
  | Some b => or_default (or_else (b_status b) (b_state b)) "unknown"
  | None => "unknown"
  end.

(** [status === "done" || status === "succeeded" || status === "complete"]. *)
Definition is_done (s : string) : bool :=
  (s =? "done") || (s =? "succeeded") || (s =? "complete").

(** [status === "failed" || status === "error"]. *)
Definition is_failed (s : string) : bool :=
  (s =? "failed") || (s =? "error").

Definition timeout_msg : string :=
  "Polling timed out (max attempts). Analysis may still be running on server.".

Definition job_failed_msg : string := "Analysis job failed on server".

(** [doPoll] up to its first [await]: [attempts += 1] and the status fetch. *)
Definition doPoll (h : nat) (job : string) (max : nat) (s : st) : st :=
  send (NetStatus job) (ReqStatus h job max)
       (setAttempts h (S (attempts s h)) s).

(** The [setPendingJob(prev => ...)] of every successful status check. *)
Definition tick_pending (job : string) (st_ : string) (now : string)
    (body : option json_body) (prev : option pending_job) : pending_job :=
  {| jobId := Some job;
     status := Some st_;
     lastChecked := Some now;
     message :=
       or_null
         (or_else
            (or_else (match body with Some b => b_error b | None => None end)
                     (match body with Some b => b_message b | None => None end))
            (match prev with Some p => message p | None => None end)) |}.

(** [doPoll] after the status fetch has settled, up to its next [await] or
    its end. *)
Definition doPoll_status (h : nat) (job : string) (max : nat) (now : string)
    (o : outcome) (s : st) : st :=
  match o with
  | Threw e =>
      let s := setError (Some ("Polling network error: " ++ err_text e)) s in
      let s := stopPolling s in
      if mounted s then setLoading false s else s
  | Got r =>
      if negb (r_ok r) then
        stopPolling (setError (Some ("Polling error: " ++ resp_msg r)) s)
      else
        let status := status_of (r_body r) in
        let s :=
          if mounted s
          then setPendingJob
                 (Some (tick_pending job status now (r_body r) (pendingJob s))) s
          else s in
        if is_done status then
          send (NetResult job) (ReqResult job) s
        else if is_failed status then
          let msg :=
            or_default
              (or_else (match r_body r with Some b => b_error b | None => None end)
                       (match r_body r with Some b => b_message b | None => None end))
              job_failed_msg in
          let s := stopPolling (setError (Some msg) s) in
          if mounted s then setLoading false s else s
        else if (max <=? attempts s h)%nat then
          stopPolling (setError (Some timeout_msg) s)
        else s
  end.

(** [doPoll] after the result fetch has settled: the inner [try], [catch]
    and [finally]. *)
Definition doPoll_result (job : string) (o : outcome) (s : st) : st :=
  let s :=
    match o with
    | Threw e =>
        setError (Some ("Failed to fetch analysis result: " ++ err_text e)) s
    | Got r =>
        if r_ok r then
          match r_body r with
          | Some b => setAnalysis (Some (ABody b)) s
          | None => setAnalysis (Some (ASummary (r_text r))) s
          end
        else
          let from_body :=
            match r_body r with
            | Some b => or_else (b_detail b) (b_error b)
            | None => None
            end in
          setError
            (Some (if truthy from_body then or_default from_body ""
                   else if negb (r_text r =? "") then r_text r
                   else "Result fetch returned " ++ nat_to_string (r_code r))) s
    end in
  let s := stopPolling s in
  let s := if mounted s then setLoading false s else s in
  setPendingJob
    (Some match pendingJob s with
          | Some p => {| jobId := jobId p; status := Some "done";
                         message := message p; lastChecked := lastChecked p |}
          | None => {| jobId := Some job; status := Some "done";
                       message := None; lastChecked := None |}
          end) s.

(** *** pollJobStatus, cancelPoll *)

Definition pollJobStatus (job : option string) (max : nat) (s : st) : st :=
  if negb (truthy job) then setError (Some "No job id to poll") s
  else
    let j := or_default job "" in
    let s := clearInterval (pollRef s) s in
    let h := next_handle s in
    let s := setAttempts h 0 s in
    let s := doPoll h j max s in
    setInterval j max s.

Definition cancelPoll (s : st) : st :=
  match pollRef s with
  | Some _ =>
      let s := stopPolling s in
      let s :=
        setPendingJob
          match pendingJob s with
          | Some p => Some {| jobId := jobId p; status := Some "cancelled";
                              message := message p; lastChecked := lastChecked p |}
          | None => None
          end s in
      setLoading false (setError (Some "Polling cancelled by user.") s)
  | None => s
  end.

(** The cleanup of the mount effect. *)
Definition unmount (s : st) : st :=
  clearInterval (pollRef s) (setMounted false s).

(** *** runAnalysisForFile, startAnalysis *)

(** [runAnalysisForFile] up to its [await fetch]; the 15 s abort timer shows
    as the [AbortError] outcome of the request. *)
Definition runAnalysisForFile (fileId : option string) (s : st) : st :=
  if negb (truthy fileId) then setError (Some "No file id provided") s
  else
    let f := or_default fileId "" in
    let s := setError None s in
    let s := setAnalysis None s in
    let s := setPendingJob None s in
    let s := setLoading true s in
    send (NetAnalyze f) (ReqAnalyze f) s.

Definition analyze_timeout_msg : string :=
  "Request timed out. Analysis will continue on server; check job status if available.".

(** [runAnalysisForFile] after the analyze request has settled; [pollJobStatus]
    is called with its default [maxAttempts = 120]. *)
Definition runAnalysisForFile_settled (now : string) (o : outcome) (s : st) : st :=
  let finally_ (s : st) := if mounted s then setLoading false s else s in
  match o with
  | Threw e =>
      finally_
        (setError
           (Some (if e_name e =? "AbortError" then analyze_timeout_msg
                  else err_text e)) s)
  | Got r =>
      if (r_code r =? 202)%nat then
        let job :=
          or_null (match r_body r with
                   | Some b => or_else (b_job_id b) (b_job b)
                   | None => None
                   end) in
        let s :=
          setPendingJob
            (Some {| jobId := job; status := Some "queued";
                     message :=
                       Some (or_default
                               (match r_body r with
                                | Some b => b_message b
                                | None => None
                                end) "Queued for analysis");
                     lastChecked := Some now |}) s in
        let s := setLoading false s in
        finally_
          (if truthy job then pollJobStatus job 120 s
           else setError (Some "Analysis queued but server returned no job id") s)
      else if r_ok r then
        finally_
          (if mounted s
           then setAnalysis
                  match r_body r with
                  | Some b => Some (ABody b)
                  | None => if r_text r =? "" then None
                            else Some (ASummary (r_text r))
                  end s
           else s)
      else
        finally_ (setError (Some (resp_msg r)) s)
  end.

Definition busy_msg : string :=
  "An analysis is already queued or running for this upload. Please wait or cancel the existing job.".

Definition upload_first_msg : string := "No uploaded file found. Upload first.".

(** [pendingJob && pendingJob.status && pendingJob.status !== "done" &&
    pendingJob.status !== "cancelled"]. *)
Definition busy (p : option pending_job) : bool :=
  match p with
  | Some pj =>
      truthy (status pj)
      && negb (or_default (status pj) "" =? "done")
      && negb (or_default (status pj) "" =? "cancelled")
  | None => false
  end.

(** [startAnalysis] up to the [await] inside [runAnalysisForFile]; what runs
    after it is [runAnalysisForFile_settled], whose [finally] already does the
    [setLoading(false)] of [startAnalysis]'s own [finally]. *)
Definition startAnalysis (s : st) : st :=
  let s := setError None s in
  if negb (truthy (lastFileId s)) then setError (Some upload_first_msg) s
  else if busy (pendingJob s) then setError (Some busy_msg) s
  else runAnalysisForFile (lastFileId s) (setLoading true s).

(** [onClickViewLast]. *)
Definition onClickViewLast (s : st) : st :=
  if truthy (lastFileId s) then runAnalysisForFile (lastFileId s) s
  else setError (Some upload_first_msg) s.

(** *** Events and runs *)

(** An event is a call of one of the handlers, or a move of the
    environment.  [EvStart] is a call of [startAnalysis] and [EvViewLast] a
    call of [onClickViewLast], in whatever state: which calls the rendered
    page can make (the Start button is disabled by [startDisabled], the
    other buttons are rendered on some cards only, and no element calls
    [onClickViewLast]) is [Page.on_click] below. *)
Inductive event :=
| EvStart                                        (* startAnalysis() *)
| EvViewLast                                     (* onClickViewLast() *)
| EvPoll (job : option string) (max : nat)       (* pollJobStatus(job, {maxAttempts}) *)
| EvCancel                                       (* cancelPoll *)
| EvUnmount
| EvTick (h : nat)                               (* interval h fires *)
| EvSettled (rid : nat) (now : string) (o : outcome).  (* request rid settles *)

Definition step (s : st) (e : event) : st :=
  match e with
  | EvStart => startAnalysis s
  | EvViewLast => onClickViewLast s
  | EvPoll job max => pollJobStatus job max s
  | EvCancel => cancelPoll s
  | EvUnmount => unmount s
  | EvTick h =>
      match find (fun t => (t_handle t =? h)%nat) (timers s) with
      | Some t => doPoll (t_handle t) (t_job t) (t_max t) s
      | None => s
      end
  | EvSettled rid now o =>
      match lookup_req rid s with
      | Some (ReqAnalyze _) => runAnalysisForFile_settled now o (settle rid s)
      | Some (ReqStatus h job max) => doPoll_status h job max now o (settle rid s)
      | Some (ReqResult job) => doPoll_result job o (settle rid s)
      | None => s
      end
  end.

Definition run (s : st) (es : list event) : st := fold_left step es s.

(** The events that are not the user starting something: timers, settling
    requests that belong to a poll, cancel and unmount. *)
Definition passive (s : st) (e : event) : bool :=
  match e with
  | EvStart | EvViewLast | EvPoll _ _ => false
  | EvCancel | EvUnmount | EvTick _ => true
  | EvSettled rid _ _ =>
      match lookup_req rid s with
      | Some (ReqAnalyze _) => false
      | _ => true
      end
  end.

Fixpoint all_passive (s : st) (es : list event) : bool :=
  match es with
  | [] => true
  | e :: es' => passive s e && all_passive (step s e) es'
  end.

(** The number of status checks among the requests sent. *)
Definition is_status_call (c : net_call) : bool :=
  match c with
  | NetStatus _ => true
  | _ => false
  end.

Definition status_checks (s : st) : nat :=
  length (filter is_status_call (netlog s)).

(** The schedule in which every status response is handled before the
    interval fires again: the response of request [rid] is delivered, the
    interval [h] fires, and so on with the next request. *)
Fixpoint prompt_rounds (resps : list (string * http_resp)) (h rid : nat)
    (s : st) : st :=
  match resps with
  | [] => s
  | (now, r) :: rest =>
      let s1 := step s (EvSettled rid now (Got r)) in
      let s2 := step s1 (EvTick h) in
      prompt_rounds rest h (S rid) s2
  end.

(** The classification of §4.2 of the specification, in its words: [done]
    with its synonyms [succeeded] and [complete]; [failed] with its synonym
    [error]; everything else is non-terminal. *)
Inductive status_class := ClassDone | ClassFailed | ClassNonTerminal.

Definition spec_class (s : string) : status_class :=
  if existsb (String.eqb s) ["done"; "succeeded"; "complete"] then ClassDone
  else if existsb (String.eqb s) ["failed"; "error"] then ClassFailed
  else ClassNonTerminal.

(** *** Sample data, used where a statement is evaluated *)

Definition body_with_status (x : string) : json_body :=
  {| b_status := Some x; b_state := None; b_error := None; b_message := None;
     b_detail := None; b_job_id := None; b_job := None; b_payload := "" |}.

Definition status_resp (x : string) : http_resp :=
  {| r_code := 200; r_statusText := "OK"; r_text := "{...}";
     r_body := Some (body_with_status x) |}.

Definition server_error : http_resp :=
  {| r_code := 500; r_statusText := "Internal Server Error"; r_text := "";
     r_body := None |}.

Definition accepted (job : string) : http_resp :=
  {| r_code := 202; r_statusText := "Accepted"; r_text := "{...}";
     r_body :=
       Some {| b_status := None; b_state := None; b_error := None;
               b_message := None; b_detail := None; b_job_id := Some job;
               b_job := None; b_payload := "" |} |}.

(** A component that has just started to poll job [j1]. *)
Definition polling_j1 : st :=
  run (init (Some "f1")) [EvPoll (Some "j1") 120].

(** The first status check of [j1] has answered [done]; the result fetch is
    in flight. *)
Definition result_pending_j1 : st :=
  run (init (Some "f1"))
      [EvPoll (Some "j1") 120; EvSettled 0 "t1" (Got (status_resp "done"))].

End Poller.

(** ** Log rows as JavaScript values *)

(** A value of a parsed JSON row, with [undefined] for an absent property.
    Numbers are the integers; a JSON array inside a row is left out. *)
#[warnings="-register-all"]
Inductive jsval :=
| VUndef
| VNull
| VBool (b : bool)
| VNum (z : Z)
| VStr (s : string)
| VObj (fields : list (string * jsval)).

(** [o.k] on an object; on a non-object value the property is [undefined]. *)
Definition field (k : string) (v : jsval) : jsval :=
  match v with
  | VObj fs =>
      match find (fun p => fst p =? k) fs with
      | Some p => snd p
      | None => VUndef
      end
  | _ => VUndef
  end.

(** Truthiness. *)
Definition vtruthy (v : jsval) : bool :=
  match v with
  | VUndef | VNull => false
  | VBool b => b
  | VNum z => negb (z =? 0)%Z
  | VStr s => negb (s =? "")
  | VObj _ => true
  end.

(** [v == null]: [null] or [undefined]. *)
Definition nullish (v : jsval) : bool :=
  match v with
  | VUndef | VNull => true
  | _ => false
  end.

(** [a || b] and [a ?? b]. *)
Definition vor (a b : jsval) : jsval := if vtruthy a then a else b.
Definition vcoalesce (a b : jsval) : jsval := if nullish a then b else a.

Definition Z_to_string (z : Z) : string := NilZero.string_of_int (Z.to_int z).

(** [String(v)], also what a template literal and [toString()] give. *)
Definition to_string (v : jsval) : string :=
  match v with
  | VUndef => "undefined"
  | VNull => "null"
  | VBool true => "true"
  | VBool false => "false"
  | VNum z => Z_to_string z
  | VStr s => s
  | VObj _ => "[object Object]"
  end.

(** SameValueZero, the equality of [Set] and [Map] keys: primitives by
    value, and two parsed objects are never the same object. *)
Definition same_value_zero (a b : jsval) : bool :=
  match a, b with
  | VUndef, VUndef | VNull, VNull => true
  | VBool x, VBool y => Bool.eqb x y
  | VNum x, VNum y => (x =? y)%Z
  | VStr x, VStr y => x =? y
  | _, _ => false
  end.

(** [s.trim()] over ASCII white space. *)
Definition is_space (c : Ascii.ascii) : bool :=
  let n := Ascii.nat_of_ascii c in
  (n =? 32)%nat || ((9 <=? n)%nat && (n <=? 13)%nat).

Fixpoint trim_start (s : string) : string :=
  match s with
  | String c r => if is_space c then trim_start r else s
  | EmptyString => EmptyString
  end.

Fixpoint rev_string (s acc : string) : string :=
  match s with
  | String c r => rev_string r (String c acc)
  | EmptyString => acc
  end.

Definition trim (s : string) : string :=
  rev_string (trim_start (rev_string (trim_start s) "")) "".

(** ** The logs page, logs.jsx *)
Module LogsPage.

(** [dedupeLogs]: the key of a row (an object),
    [r.id ?? `${r.timestamp || ""}::${r.message || r.raw || ""}`]. *)
Definition dedupe_key (r : jsval) : jsval :=
  vcoalesce (field "id" r)
    (VStr (to_string (vor (field "timestamp" r) (VStr ""))
           ++ "::"
           ++ to_string (vor (vor (field "message" r) (field "raw" r)) (VStr "")))).

(** The loop of [dedupeLogs], with [seen] the keys met and [out] the rows
    kept, in reverse. *)
Fixpoint dedupe_loop (arr : list jsval) (seen : list jsval) (out : list jsval)
  : list jsval :=
  match arr with
  | [] => rev out
  | r :: rest =>
      let key := dedupe_key r in
      if existsb (same_value_zero key) seen
      then dedupe_loop rest seen out
      else dedupe_loop rest (key :: seen) (r :: out)
  end.

Definition dedupeLogs (arr : list jsval) : list jsval := dedupe_loop arr [] [].

(** The argument of [fetchLogsFromServer]: [useServerFiltering] and
    [params = { limit, upload_id?, q? }]. *)
Record call := {
  useServerFiltering : bool;
  p_limit : nat;
  p_upload_id : option string;
  p_q : option string
}.

(** The query string built with [URLSearchParams]. *)
Record query := {
  qs_limit : option nat;
  qs_upload_id : option string;
  qs_q : option string
}.

(** Where the continuation of a request waits. *)
Inductive phase :=
| AwaitFetch                    (* await fetch(url, ...) *)
| AwaitText                     (* await resp.text().catch(...), response not ok *)
| AwaitJson.                    (* await resp.json().catch(...) *)

Record pending := {
  thisFetchId : nat;
  withFiltering : bool;
  at_phase : phase
}.

(** The render a delete handler was created in: the values its closure and
    [refreshUploadsAndLogs] see. *)
Record render := {
  rn_supported : bool;
  rn_limit : nat;
  rn_selectedUploadId : string
}.

Record st := {
  logs : list jsval;
  serverFilteringSupported : bool;
  q : string;
  levelFilter : string;
  selectedUploadId : string;
  limit : nat;
  loadingLogs : bool;
  error : option string;
  fetchIdRef : nat;                      (* fetchIdRef.current *)
  inflightController : option nat;       (* the controller made for that fetch id *)
  aborted : list nat;                    (* controllers whose abort() was called *)
  searchTimeout : option call;           (* the live 300 ms timer and its closure *)
  requests : list pending;               (* requests whose continuation waits *)
  sent : list (nat * query);             (* every GET /logs sent, oldest first *)
  deleting : list render                 (* delete handlers waiting on the network *)
}.

Definition with_logs (l : list jsval) (s : st) : st :=
  {| logs := l; serverFilteringSupported := serverFilteringSupported s;
     q := q s; levelFilter := levelFilter s;
     selectedUploadId := selectedUploadId s; limit := limit s;
     loadingLogs := loadingLogs s; error := error s;
     fetchIdRef := fetchIdRef s; inflightController := inflightController s;
     aborted := aborted s; searchTimeout := searchTimeout s;
     requests := requests s; sent := sent s; deleting := deleting s |}.

Definition with_supported (b : bool) (s : st) : st :=
  {| logs := logs s; serverFilteringSupported := b;
     q := q s; levelFilter := levelFilter s;
     selectedUploadId := selectedUploadId s; limit := limit s;
     loadingLogs := loadingLogs s; error := error s;
     fetchIdRef := fetchIdRef s; inflightController := inflightController s;
     aborted := aborted s; searchTimeout := searchTimeout s;
     requests := requests s; sent := sent s; deleting := deleting s |}.

Definition with_filters (q' lvl sel : string) (lim : nat) (s : st) : st :=
  {| logs := logs s; serverFilteringSupported := serverFilteringSupported s;
     q := q'; levelFilter := lvl; selectedUploadId := sel; limit := lim;
     loadingLogs := loadingLogs s; error := error s;
     fetchIdRef := fetchIdRef s; inflightController := inflightController s;
     aborted := aborted s; searchTimeout := searchTimeout s;
     requests := requests s; sent := sent s; deleting := deleting s |}.

Definition with_loading (b : bool) (s : st) : st :=
  {| logs := logs s; serverFilteringSupported := serverFilteringSupported s;
     q := q s; levelFilter := levelFilter s;
     selectedUploadId := selectedUploadId s; limit := limit s;
     loadingLogs := b; error := error s;
     fetchIdRef := fetchIdRef s; inflightController := inflightController s;
     aborted := aborted s; searchTimeout := searchTimeout s;
     requests := requests s; sent := sent s; deleting := deleting s |}.

Definition with_error (e : option string) (s : st) : st :=
  {| logs := logs s; serverFilteringSupported := serverFilteringSupported s;
     q := q s; levelFilter := levelFilter s;
     selectedUploadId := selectedUploadId s; limit := limit s;
     loadingLogs := loadingLogs s; error := e;
     fetchIdRef := fetchIdRef s; inflightController := inflightController s;
     aborted := aborted s; searchTimeout := searchTimeout s;
     requests := requests s; sent := sent s; deleting := deleting s |}.

Definition with_searchTimeout (t : option call) (s : st) : st :=
  {| logs := logs s; serverFilteringSupported := serverFilteringSupported s;
     q := q s; levelFilter := levelFilter s;
     selectedUploadId := selectedUploadId s; limit := limit s;
     loadingLogs := loadingLogs s; error := error s;
     fetchIdRef := fetchIdRef s; inflightController := inflightController s;
     aborted := aborted s; searchTimeout := t;
     requests := requests s; sent := sent s; deleting := deleting s |}.

Definition with_aborted (l : list nat) (s : st) : st :=
  {| logs := logs s; serverFilteringSupported := serverFilteringSupported s;
     q := q s; levelFilter := levelFilter s;
     selectedUploadId := selectedUploadId s; limit := limit s;
     loadingLogs := loadingLogs s; error := error s;
     fetchIdRef := fetchIdRef s; inflightController := inflightController s;
     aborted := l; searchTimeout := searchTimeout s;
     requests := requests s; sent := sent s; deleting := deleting s |}.

Definition with_requests (l : list pending) (s : st) : st :=
  {| logs := logs s; serverFilteringSupported := serverFilteringSupported s;
     q := q s; levelFilter := levelFilter s;
     selectedUploadId := selectedUploadId s; limit := limit s;
     loadingLogs := loadingLogs s; error := error s;
     fetchIdRef := fetchIdRef s; inflightController := inflightController s;
     aborted := aborted s; searchTimeout := searchTimeout s;
     requests := l; sent := sent s; deleting := deleting s |}.

Definition with_deleting (l : list render) (s : st) : st :=
  {| logs := logs s; serverFilteringSupported := serverFilteringSupported s;
     q := q s; levelFilter := levelFilter s;
     selectedUploadId := selectedUploadId s; limit := limit s;
     loadingLogs := loadingLogs s; error := error s;
     fetchIdRef := fetchIdRef s; inflightController := inflightController s;
     aborted := aborted s; searchTimeout := searchTimeout s;
     requests := requests s; sent := sent s; deleting := l |}.

(** [if (inflightController.current) inflightController.current.abort()]. *)
Definition abort_inflight (s : st) : st :=
  match inflightController s with
  | Some c => with_aborted (aborted s ++ [c]) s
  | None => s
  end.

(** The query of a call: [limit] when truthy, and the two filters only with
    [useServerFiltering]. *)
Definition query_of (c : call) : query :=
  {| qs_limit := if (p_limit c =? 0)%nat then None else Some (p_limit c);
     qs_upload_id :=
       if useServerFiltering c then or_null (p_upload_id c) else None;
     qs_q := if useServerFiltering c then or_null (p_q c) else None |}.

(** [fetchLogsFromServer] up to its [await fetch]. *)
Definition fetchLogsFromServer (c : call) (s : st) : st :=
  let id := S (fetchIdRef s) in
  let s := abort_inflight s in
  {| logs := logs s; serverFilteringSupported := serverFilteringSupported s;
     q := q s; levelFilter := levelFilter s;
     selectedUploadId := selectedUploadId s; limit := limit s;
     loadingLogs := true; error := None;
     fetchIdRef := id; inflightController := Some id;
     aborted := aborted s; searchTimeout := searchTimeout s;
     requests := requests s ++ [{| thisFetchId := id;
                                   withFiltering := useServerFiltering c;
                                   at_phase := AwaitFetch |}];
     sent := sent s ++ [(id, query_of c)]; deleting := deleting s |}.

(** The filter effect: the cleanup of its previous run, then its body with
    the state of the new render. *)
Definition filter_effect (s : st) : st :=
  let s := with_searchTimeout None s in          (* clearTimeout(searchTimeout.current) *)
  let s := abort_inflight s in
  let c := {| useServerFiltering := serverFilteringSupported s;
              p_limit := limit s;
              p_upload_id :=
                if selectedUploadId s =? "" then None
                else Some (selectedUploadId s);
              p_q := if trim (q s) =? "" then None else Some (trim (q s)) |} in
  if q s =? "" then fetchLogsFromServer c s
  else with_searchTimeout (Some c) s.

(** The component after its first render: the effect has run once. *)
Definition mounted_page : st :=
  filter_effect
    {| logs := []; serverFilteringSupported := true; q := ""; levelFilter := "";
       selectedUploadId := ""; limit := 500; loadingLogs := false;
       error := None; fetchIdRef := 0; inflightController := None;
       aborted := []; searchTimeout := None; requests := []; sent := [];
       deleting := [] |}.

(** [finally { if (thisFetchId === fetchIdRef.current) setLoadingLogs(false) }]. *)
Definition finally_ (id : nat) (s : st) : st :=
  if (id =? fetchIdRef s)%nat then with_loading false s else s.

(** The [catch] of [fetchLogsFromServer]. *)
Definition catch_ (e : js_error) (s : st) : st :=
  if e_name e =? "AbortError" then s
  else with_error (Some "Failed to load logs") s.

(** What [await fetch] gives: a thrown error, or a response of which the
    status code is read. *)
Inductive fetched :=
| FThrew (e : js_error)
| FStatus (code : nat).

Definition set_phase (id : nat) (ph : phase) (s : st) : st :=
  with_requests
    (map (fun p => if (thisFetchId p =? id)%nat
                   then {| thisFetchId := id; withFiltering := withFiltering p;
                           at_phase := ph |}
                   else p) (requests s)) s.

Definition drop_request (id : nat) (s : st) : st :=
  with_requests (filter (fun p => negb (thisFetchId p =? id)%nat) (requests s)) s.

(** [setServerFilteringSupported(false)], and the re-render it causes: the
    flag is a dependency of the filter effect, which runs again when the flag
    has changed. *)
Definition downgrade (s : st) : st :=
  if serverFilteringSupported s
  then filter_effect (with_supported false s)
  else s.

(** The continuation of request [p] after [await fetch]. *)
Definition on_fetched (p : pending) (f : fetched) (s : st) : st :=
  let id := thisFetchId p in
  match f with
  | FThrew e => drop_request id (finally_ id (catch_ e s))
  | FStatus code =>
      if existsb (Nat.eqb code) [404; 400; 422] && withFiltering p then
        (* two [setLoadingLogs(false)] under the same test, then the re-render *)
        downgrade (drop_request id (finally_ id (finally_ id s)))
      else if negb ((200 <=? code)%nat && (code <? 300)%nat) then
        set_phase id AwaitText s
      else set_phase id AwaitJson s
  end.

(** After [await resp.text().catch(() => "")]: the [throw], caught below. *)
Definition on_text (p : pending) (s : st) : st :=
  let id := thisFetchId p in
  drop_request id
    (finally_ id (catch_ {| e_name := "Error"; e_message := "" |} s)).

(** After [await resp.json().catch(() => null)]; [body] is the parsed array,
    or [None] when the body is not an array. *)
Definition on_json (p : pending) (body : option (list jsval)) (s : st) : st :=
  let id := thisFetchId p in
  let incoming := match body with Some l => l | None => [] end in
  if negb (id =? fetchIdRef s)%nat then drop_request id (finally_ id s)
  else drop_request id (finally_ id (with_logs (dedupeLogs incoming) s)).

(** [handleDeleteUpload] after the confirmation, up to its first [await]:
    the optimistic update, and the selected upload reset when it is the
    deleted one (a dependency of the filter effect). *)
Definition handleDeleteUpload (uploadId : jsval) (s : st) : st :=
  let here := {| rn_supported := serverFilteringSupported s;
                 rn_limit := limit s;
                 rn_selectedUploadId := selectedUploadId s |} in
  let s :=
    with_logs
      (filter (fun x => negb (to_string (field "upload_id" x)
                              =? to_string uploadId)) (logs s)) s in
  let s := with_deleting (deleting s ++ [here]) s in
  if (selectedUploadId s =? to_string uploadId)
     && negb (selectedUploadId s =? "")
  then filter_effect (with_filters (q s) (levelFilter s) "" (limit s) s)
  else s.

(** [refreshUploadsAndLogs] at its call of [fetchLogsFromServer], in the
    handler created by render [r]. *)
Definition refresh_logs (r : render) (s : st) : st :=
  fetchLogsFromServer
    {| useServerFiltering := rn_supported r;
       p_limit := rn_limit r;
       p_upload_id :=
         if rn_selectedUploadId r =? "" then None
         else Some (rn_selectedUploadId r);
       p_q := None |} s.

Inductive event :=
| EvSetQ (v : string)
| EvSetLevel (v : string)
| EvSetUpload (v : string)
| EvSetLimit (n : nat)
| EvDebounce                                   (* the 300 ms timer fires *)
| EvFetched (id : nat) (f : fetched)
| EvText (id : nat)
| EvJson (id : nat) (body : option (list jsval))
| EvDelete (uploadId : jsval)                  (* a confirmed delete click *)
| EvDeleteSettled (k : nat) (threw : bool).    (* the DELETE of the k-th waiting
                                                  handler has settled, and with
                                                  it the uploads refresh *)

Definition find_request (id : nat) (ph : phase) (s : st) : option pending :=
  find (fun p => (thisFetchId p =? id)%nat
                 && match at_phase p, ph with
                    | AwaitFetch, AwaitFetch | AwaitText, AwaitText
                    | AwaitJson, AwaitJson => true
                    | _, _ => false
                    end) (requests s).

Definition step (s : st) (e : event) : st :=
  match e with
  | EvSetQ v =>
      if v =? q s then s
      else filter_effect (with_filters v (levelFilter s) (selectedUploadId s) (limit s) s)
  | EvSetLevel v =>
      with_filters (q s) v (selectedUploadId s) (limit s) s
  | EvSetUpload v =>
      if v =? selectedUploadId s then s
      else filter_effect (with_filters (q s) (levelFilter s) v (limit s) s)
  | EvSetLimit n =>
      if (n =? limit s)%nat then s
      else filter_effect (with_filters (q s) (levelFilter s) (selectedUploadId s) n s)
  | EvDebounce =>
      match searchTimeout s with
      | Some c => fetchLogsFromServer c (with_searchTimeout None s)
      | None => s
      end
  | EvFetched id f =>
      match find_request id AwaitFetch s with
      | Some p => on_fetched p f s
      | None => s
      end
  | EvText id =>
      match find_request id AwaitText s with
      | Some p => on_text p s
      | None => s
      end
  | EvJson id body =>
      match find_request id AwaitJson s with
      | Some p => on_json p body s
      | None => s
      end
  | EvDelete uploadId => handleDeleteUpload uploadId s
  | EvDeleteSettled k threw =>
      match nth_error (deleting s) k with
      | Some r =>
          let s := with_deleting (firstn k (deleting s) ++ skipn (S k) (deleting s)) s in
          if threw then s else refresh_logs r s
      | None => s
      end
  end.

Definition run (s : st) (es : list event) : st := fold_left step es s.

(** *** Sample data, used where a statement is evaluated *)

(** The first request has its response and waits for the body; then upload
    [u1] is selected, which sends the second request. *)
Definition two_requests : st :=
  run mounted_page [EvFetched 1 (FStatus 200); EvSetUpload "u1"].

(** Upload [u1] is selected, a delete of upload [u2] is confirmed while the
    filtered request is in flight, and that request is answered 422. *)
Definition downgraded_while_deleting : st :=
  run mounted_page
      [EvSetUpload "u1"; EvDelete (VStr "u2"); EvFetched 2 (FStatus 422)].

End LogsPage.

(** ** The dashboard, dashboard.jsx *)
Module Dashboard.

Section Merge.
(** [new Date(s).getTime()] for a string [s], [None] when the date is
    invalid; the parser is the engine's. *)
Variable date_parse : string -> option Z.
(** [JSON.stringify]. *)
Variable stringify : jsval -> string.

(** [new Date(x).getTime()] for a number: the date is valid up to
    8.64e15 ms either side of the epoch. *)
Definition date_of_number (x : Z) : option Z :=
  if (Z.abs x <=? 8640000000000000)%Z then Some x else None.

(** [/^\d+$/.test(s)] and [Number(s)] for such a string. *)
Definition is_digit (c : Ascii.ascii) : bool :=
  let n := Ascii.nat_of_ascii c in (48 <=? n)%nat && (n <=? 57)%nat.

Fixpoint all_digits (s : string) : bool :=
  match s with
  | String c r => is_digit c && all_digits r
  | EmptyString => true
  end.

Definition is_digits (s : string) : bool :=
  negb (s =? "") && all_digits s.

Fixpoint digits_value (s : string) (acc : Z) : Z :=
  match s with
  | String c r =>
      digits_value r (10 * acc + Z.of_nat (Ascii.nat_of_ascii c - 48))%Z
  | EmptyString => acc
  end.

(** The body of the loop of [getTimestampFromLog] for one candidate:
    [Some t] when it returns a date, [None] when the loop goes on. *)
Definition time_of_candidate (c : jsval) : option Z :=
  match c with
  | VNum z =>
      if (z >? 1000000000000)%Z then date_of_number z
      else if (z >? 1000000000)%Z then date_of_number (z * 1000)
      else date_of_number z
  | VStr c =>
      let s := trim c in
      let from_digits :=
        if is_digits s then
          let n := digits_value s 0 in
          if (String.length s =? 10)%nat then date_of_number (n * 1000)
          else date_of_number n
        else None in
      match from_digits with
      | Some t => Some t
      | None => date_parse s
      end
  | _ => None
  end.

Definition candidates (log : jsval) : list jsval :=
  ([field "timestamp" log; field "created_at" log; field "ts" log;
    field "time" log; field "_time" log; field "date" log; field "when" log]
   ++ (if vtruthy (field "meta" log)
       then [field "time" (field "meta" log);
             field "timestamp" (field "meta" log);
             field "_time" (field "meta" log);
             field "ts" (field "meta" log)]
       else [])
   ++ (if vtruthy (field "payload" log)
       then [field "timestamp" (field "payload" log);
             field "time" (field "payload" log)]
       else []))%list.

Fixpoint first_time (cs : list jsval) : option Z :=
  match cs with
  | [] => None
  | c :: rest =>
      match time_of_candidate c with
      | Some t => Some t
      | None => first_time rest
      end
  end.

(** [getTimestampFromLog(log)], as the date's [getTime()]. *)
Definition getTimestampFromLog (log : jsval) : option Z :=
  if negb (vtruthy log) then None else first_time (candidates log).

(** [getTimestampFromLog(a)?.getTime() || 0], the key the merges sort by. *)
Definition sort_time (a : jsval) : Z :=
  match getTimestampFromLog a with
  | Some t => t
  | None => 0%Z
  end.

(** [stableLogKey(l)]; [None] is [null]. *)
Definition stableLogKey (l : jsval) : option string :=
  if negb (vtruthy l) then None
  else if vtruthy (field "id" l) then Some (to_string (field "id" l))
  else if vtruthy (field "_id" l) then Some (to_string (field "_id" l))
  else if vtruthy (field "uuid" l) then Some (to_string (field "uuid" l))
  else
    let msg :=
      substring 0 240
        (to_string (vor (vor (vor (field "message" l) (field "msg" l))
                             (field "m" l)) (VStr ""))) in
    match getTimestampFromLog l with
    | Some t => Some (Z_to_string t ++ "::" ++ msg)
    | None => Some (substring 0 500 (stringify l))
    end.

(** A [Map] from keys to rows, in insertion order; [map_set] is
    [map.set(k, v)]: an existing key keeps its place. *)
Definition key_eqb (a b : option string) : bool :=
  match a, b with
  | Some x, Some y => x =? y
  | None, None => true
  | _, _ => false
  end.

Fixpoint map_set (k : option string) (v : jsval)
    (m : list (option string * jsval)) : list (option string * jsval) :=
  match m with
  | [] => [(k, v)]
  | (k', v') :: rest =>
      if key_eqb k k' then (k, v) :: rest
      else (k', v') :: map_set k v rest
  end.

(** [Array.prototype.sort] with the comparator [ta - tb]: the sort is
    stable, so its result is the stable sort by [sort_time], computed here
    by insertion after the rows that are not later. *)
Fixpoint insert_row (x : jsval) (l : list jsval) : list jsval :=
  match l with
  | [] => [x]
  | y :: rest =>
      if (sort_time x <? sort_time y)%Z then x :: y :: rest
      else y :: insert_row x rest
  end.

Definition sort_rows (l : list jsval) : list jsval :=
  fold_left (fun acc x => insert_row x acc) l [].

(** [for (const e of rows) { const k = stableLogKey(e); if (k) map.set(k, e); }] *)
Definition set_truthy (m : list (option string * jsval)) (rows : list jsval)
  : list (option string * jsval) :=
  fold_left
    (fun m e => if truthy (stableLogKey e) then map_set (stableLogKey e) e m
                else m) rows m.

(** [for (const c of rows) m.set(stableLogKey(c), c);] *)
Definition set_all (m : list (option string * jsval)) (rows : list jsval)
  : list (option string * jsval) :=
  fold_left (fun m c => map_set (stableLogKey c) c m) rows m.

(** The merge of [initialLoadAndStartPolling]. *)
Definition merge_initial (existing combined : list jsval) : list jsval :=
  sort_rows (map snd (set_truthy (set_truthy [] existing) combined)).

(** The merge of each 30 s poll. *)
Definition merge_poll (cur newest : list jsval) : list jsval :=
  sort_rows (map snd (set_all (set_all [] cur) newest)).

(** The value [writeCache(arr)] hands to [localStorage.setItem]:
    [arr.slice(-5000)]; when the write succeeds [readCache()] gives it
    back. *)
Definition writeCache (arr : list jsval) : list jsval :=
  skipn (length arr - 5000) arr.

(** One poll whose cache write succeeds: the new cache and the new [logs]
    state. *)
Definition poll (cache newest : list jsval) : list jsval * list jsval :=
  let merged2 := merge_poll cache newest in
  (writeCache merged2, merged2).

(** [writeCache(arr)] with its [try] and [catch]: [stored] tells whether
    [localStorage.setItem] returns; when it throws (the quota is exceeded,
    or storage is not available) the error is only logged and the cache
    stays [old]. *)
Definition writeCache_stored (stored : bool) (old arr : list jsval)
  : list jsval :=
  if stored then writeCache arr else old.

(** One poll, whether or not its cache write succeeds: the cache
    afterwards and the new [logs] state. *)
Definition poll_stored (stored : bool) (cache newest : list jsval)
  : list jsval * list jsval :=
  let merged2 := merge_poll cache newest in
  (writeCache_stored stored cache merged2, merged2).
End Merge.

(** *** Sample rows, used where a statement is evaluated *)

(** Two rows with the same id 1. *)
Definition row_1a : jsval := VObj [("id", VNum 1); ("message", VStr "a")].
Definition row_1b : jsval := VObj [("id", VNum 1); ("message", VStr "b")].

(** Two rows with the same id 0, one event time, two messages. *)
Definition row_0a : jsval :=
  VObj [("id", VNum 0); ("timestamp", VNum 1000); ("message", VStr "a")].
Definition row_0b : jsval :=
  VObj [("id", VNum 0); ("timestamp", VNum 1000); ("message", VStr "b")].

(** Two rows without id, with equal timestamps and equal (empty) messages,
    and different raw lines. *)
Definition row_raw_a : jsval :=
  VObj [("timestamp", VStr "t"); ("message", VStr ""); ("raw", VStr "a")].
Definition row_raw_b : jsval :=
  VObj [("timestamp", VStr "t"); ("message", VStr ""); ("raw", VStr "b")].

(** A row without any timestamp, and a row 5 ms before the epoch. *)
Definition row_untimed : jsval :=
  VObj [("id", VNum 8); ("message", VStr "no timestamp")].
Definition row_before_epoch : jsval :=
  VObj [("id", VNum 7); ("timestamp", VNum (-5))].

(** An engine that parses no date string, and a serializer that prints
    every value the same; the sample rows use neither. *)
Definition no_date_string (_ : string) : option Z := None.
Definition flat_json (_ : jsval) : string := "{}".

End Dashboard.

(** ** The uploads page, uploads.jsx *)
Module Uploads.

(** A file of the picker: its name, its size and the text
    [FileReader.readAsText] gives for it. *)
Record picked := { f_name : string; f_size : nat; f_text : string }.

Definition LF : Ascii.ascii := Ascii.ascii_of_nat 10.
Definition CR : Ascii.ascii := Ascii.ascii_of_nat 13.

(** The character [c] goes in front of the first line. *)
Definition cons_first (c : Ascii.ascii) (ls : list string) : list string :=
  match ls with
  | l :: rest => String c l :: rest
  | [] => [String c ""]
  end.

(** [text.split(/\r\n|\n/)]: the text is cut at every line feed, and a
    carriage return right before a line feed belongs to the separator. *)
Fixpoint split_lines (t : string) : list string :=
  match t with
  | EmptyString => [""]
  | String c r =>
      if Ascii.eqb c LF then "" :: split_lines r
      else
        match r with
        | String c2 r' =>
            if Ascii.eqb c CR && Ascii.eqb c2 LF then "" :: split_lines r'
            else cons_first c (split_lines r)
        | EmptyString => [String c ""]
        end
  end.

Record preview_of := { pv_name : string; pv_size : nat; pv_lines : list string }.

(** The [onload] of [previewFileLocally(file)], with [maxLines = 200]. *)
Definition previewFileLocally (f : picked) : preview_of :=
  {| pv_name := f_name f; pv_size := f_size f;
     pv_lines := firstn 200 (split_lines (f_text f)) |}.

Record ids := { upload_id : jsval; job_id : jsval }.

Definition no_ids : ids := {| upload_id := VNull; job_id := VNull |}.

Record st := {
  file : option picked;
  drag : bool;
  status : string;
  progress : nat;
  uploading : bool;
  preview : option preview_of;
  serverIds : ids;
  startErr : string;
  xhrs : list picked;          (* requests in flight, each with the file its
                                  handlers captured *)
  posted : list picked;        (* every POST /upload sent, oldest first *)
  readers : list picked;       (* FileReaders whose onload has not fired *)
  err_timers : nat;            (* pending [setTimeout(() => setStartErr(""))] *)
  navigated : list string      (* the calls of [navigate] *)
}.

Definition init : st :=
  {| file := None; drag := false; status := ""; progress := 0;
     uploading := false; preview := None; serverIds := no_ids;
     startErr := ""; xhrs := []; posted := []; readers := [];
     err_timers := 0; navigated := [] |}.

Definition setDrag (b : bool) (s : st) : st :=
  {| file := file s; drag := b; status := status s; progress := progress s;
     uploading := uploading s; preview := preview s;
     serverIds := serverIds s; startErr := startErr s; xhrs := xhrs s;
     posted := posted s; readers := readers s; err_timers := err_timers s;
     navigated := navigated s |}.

Definition setStatus (x : string) (s : st) : st :=
  {| file := file s; drag := drag s; status := x; progress := progress s;
     uploading := uploading s; preview := preview s;
     serverIds := serverIds s; startErr := startErr s; xhrs := xhrs s;
     posted := posted s; readers := readers s; err_timers := err_timers s;
     navigated := navigated s |}.

Definition setProgress (n : nat) (s : st) : st :=
  {| file := file s; drag := drag s; status := status s; progress := n;
     uploading := uploading s; preview := preview s;
     serverIds := serverIds s; startErr := startErr s; xhrs := xhrs s;
     posted := posted s; readers := readers s; err_timers := err_timers s;
     navigated := navigated s |}.

Definition setUploading (b : bool) (s : st) : st :=
  {| file := file s; drag := drag s; status := status s;
     progress := progress s; uploading := b; preview := preview s;
     serverIds := serverIds s; startErr := startErr s; xhrs := xhrs s;
     posted := posted s; readers := readers s; err_timers := err_timers s;
     navigated := navigated s |}.

Definition setPreview (p : option preview_of) (s : st) : st :=
  {| file := file s; drag := drag s; status := status s;
     progress := progress s; uploading := uploading s; preview := p;
     serverIds := serverIds s; startErr := startErr s; xhrs := xhrs s;
     posted := posted s; readers := readers s; err_timers := err_timers s;
     navigated := navigated s |}.

Definition setServerIds (i : ids) (s : st) : st :=
  {| file := file s; drag := drag s; status := status s;
     progress := progress s; uploading := uploading s; preview := preview s;
     serverIds := i; startErr := startErr s; xhrs := xhrs s;
     posted := posted s; readers := readers s; err_timers := err_timers s;
     navigated := navigated s |}.

Definition setXhrs (l : list picked) (s : st) : st :=
  {| file := file s; drag := drag s; status := status s;
     progress := progress s; uploading := uploading s; preview := preview s;
     serverIds := serverIds s; startErr := startErr s; xhrs := l;
     posted := posted s; readers := readers s; err_timers := err_timers s;
     navigated := navigated s |}.

Definition setReaders (l : list picked) (s : st) : st :=
  {| file := file s; drag := drag s; status := status s;
     progress := progress s; uploading := uploading s; preview := preview s;
     serverIds := serverIds s; startErr := startErr s; xhrs := xhrs s;
     posted := posted s; readers := l; err_timers := err_timers s;
     navigated := navigated s |}.

(** [setStartErr(msg); setTimeout(() => setStartErr(""), ...)]. *)
Definition flashStartErr (msg : string) (s : st) : st :=
  {| file := file s; drag := drag s; status := status s;
     progress := progress s; uploading := uploading s; preview := preview s;
     serverIds := serverIds s; startErr := msg; xhrs := xhrs s;
     posted := posted s; readers := readers s;
     err_timers := S (err_timers s); navigated := navigated s |}.

(** [pick(f)]; [f] may be [undefined]. *)
Definition pick (f : option picked) (s : st) : st :=
  {| file := f; drag := drag s; status := ""; progress := 0;
     uploading := uploading s; preview := None; serverIds := no_ids;
     startErr := startErr s; xhrs := xhrs s; posted := posted s;
     readers := readers s; err_timers := err_timers s;
     navigated := navigated s |}.

(** [onDrop]. *)
Definition onDrop (f : option picked) (s : st) : st :=
  let s := setDrag false s in
  match f with
  | Some _ => pick f s
  | None => s
  end.

(** [startUpload] up to its [await]: the request is sent with the file of
    the render the click was made in. *)
Definition startUpload (s : st) : st :=
  match file s with
  | None => flashStartErr "Please choose a file first" s
  | Some f =>
      {| file := file s; drag := drag s; status := "Uploading...";
         progress := 0; uploading := true; preview := preview s;
         serverIds := serverIds s; startErr := startErr s;
         xhrs := xhrs s ++ [f]; posted := posted s ++ [f];
         readers := readers s; err_timers := err_timers s;
         navigated := navigated s |}
  end.

(** [xhr.upload.onprogress]; [pct] is the engine's
    [Math.round((e.loaded / e.total) * 100)]. *)
Definition onprogress (computable : bool) (pct : nat) (s : st) : st :=
  if computable
  then setStatus ("Uploading... " ++ nat_to_string pct ++ "%")
         (setProgress pct s)
  else s.

(** [xhr.onload] of the request made for [f], and what follows the
    settled promise.  [parsed] is [JSON.parse(xhr.responseText || "{}")],
    [None] when it throws.  When the parsed body is [null] the reads of
    [json.upload_id] throw inside the handler: the promise is never
    settled, so neither [catch] nor [finally] runs. *)
Definition onload (f : picked) (code : nat) (parsed : option jsval) (s : st)
  : st :=
  if (200 <=? code)%nat && (code <? 300)%nat then
    let json := match parsed with Some j => j | None => VObj [] end in
    let s := setProgress 100 s in
    let s := setStatus "Upload complete" s in
    let s := setReaders (readers s ++ [f]) s in
    match json with
    | VNull | VUndef => s
    | _ =>
        let s :=
          setServerIds
            {| upload_id :=
                 vor (vor (field "upload_id" json) (field "id" json)) VNull;
               job_id := vor (field "job_id" json) VNull |} s in
        setUploading false s
    end
  else
    setUploading false (setStatus "Error: Upload failed" s).

(** [xhr.onerror]. *)
Definition onerror (s : st) : st :=
  setUploading false (setStatus "Error: Network error" s).

(** [handleStartAnalysis]. *)
Definition handleStartAnalysis (s : st) : st :=
  if vtruthy (vor (upload_id (serverIds s)) (job_id (serverIds s)))
  then {| file := file s; drag := drag s; status := status s;
          progress := progress s; uploading := uploading s;
          preview := preview s; serverIds := serverIds s;
          startErr := startErr s; xhrs := xhrs s; posted := posted s;
          readers := readers s; err_timers := err_timers s;
          navigated := navigated s ++ ["/app/ai-analysis"] |}
  else flashStartErr "Please upload a file first" s.

Definition remove_at {A : Type} (k : nat) (l : list A) : list A :=
  (firstn k l ++ skipn (S k) l)%list.

Inductive event :=
| EvChoose (f : option picked)        (* the file input changes *)
| EvDrop (f : option picked)
| EvDragOver
| EvDragLeave
| EvStartUpload                       (* the Start Upload button *)
| EvProgress (k : nat) (computable : bool) (pct : nat)
| EvLoad (k : nat) (code : nat) (parsed : option jsval)
| EvError (k : nat)
| EvRead (k : nat)                    (* a FileReader has loaded *)
| EvStartAnalyzing                    (* the Start Analyzing button *)
| EvErrTimer.                         (* a timer clearing [startErr] fires *)

(** The file input and the Start Upload button are disabled while
    uploading, the button also without a file; the drop zone is not. *)
Definition step (s : st) (e : event) : st :=
  match e with
  | EvChoose f => if uploading s then s else pick f s
  | EvDrop f => onDrop f s
  | EvDragOver => setDrag true s
  | EvDragLeave => setDrag false s
  | EvStartUpload =>
      if uploading s || negb (match file s with Some _ => true | None => false end)
      then s else startUpload s
  | EvProgress k computable pct =>
      match nth_error (xhrs s) k with
      | Some _ => onprogress computable pct s
      | None => s
      end
  | EvLoad k code parsed =>
      match nth_error (xhrs s) k with
      | Some f => onload f code parsed (setXhrs (remove_at k (xhrs s)) s)
      | None => s
      end
  | EvError k =>
      match nth_error (xhrs s) k with
      | Some _ => onerror (setXhrs (remove_at k (xhrs s)) s)
      | None => s
      end
  | EvRead k =>
      match nth_error (readers s) k with
      | Some f =>
          setPreview (Some (previewFileLocally f))
            (setReaders (remove_at k (readers s)) s)
      | None => s
      end
  | EvStartAnalyzing => handleStartAnalysis s
  | EvErrTimer =>
      match err_timers s with
      | S n =>
          {| file := file s; drag := drag s; status := status s;
             progress := progress s; uploading := uploading s;
             preview := preview s; serverIds := serverIds s;
             startErr := ""; xhrs := xhrs s; posted := posted s;
             readers := readers s; err_timers := n;
             navigated := navigated s |}
      | O => s
      end
  end.

Definition run (s : st) (es : list event) : st := fold_left step es s.

(** *** Sample data, used where a statement is evaluated *)

Definition two_lines : picked :=
  {| f_name := "app.log"; f_size := 5;
     f_text := "a" ++ String CR (String LF ("b" ++ String LF "")) |}.

Definition other_file : picked :=
  {| f_name := "other.log"; f_size := 1; f_text := "x" |}.

End Uploads.

(** ** Facts about the poller *)
Module PollerFacts.
Import Poller.

(** At most one interval is live, [pollRef.current] holds its handle, which
    is older than the next handle; request ids in flight are below the next
    id. *)
Definition Inv (s : st) : Prop :=
  match timers s with
  | [] => True
  | [t] => pollRef s = Some (t_handle t) /\ t_handle t < next_handle s
  | _ => False
  end
  /\ Forall (fun p => fst p < next_req s) (inflight s).

Definition reachable (s : st) : Prop :=
  exists fid es, run (init fid) es = s.

Lemma filter_Forall_lt (n m : nat) (l : list (nat * req)) (f : nat * req -> bool) :
  Forall (fun p => fst p < n) l -> n <= m ->
  Forall (fun p => fst p < m) (filter f l).
Proof.
  intros H Hle. induction H as [|p l Hp _ IH]; simpl; [constructor|].
  destruct (f p); [constructor; [lia|assumption]|assumption].
Qed.

Lemma send_Forall_lt (n : nat) (k : req) (l : list (nat * req)) :
  Forall (fun p => fst p < n) l ->
  Forall (fun p => fst p < S n) (l ++ [(n, k)]).
Proof.
  intros H. apply Forall_app. split.
  - eapply Forall_impl; [|exact H]. simpl. intros. lia.
  - constructor; [simpl; lia|constructor].
Qed.

(** Under [Inv], clearing the interval in [pollRef.current] leaves no
    interval at all. *)
Lemma clear_current (s : st) :
  Inv s -> timers (clearInterval (pollRef s) s) = [].
Proof.
  intros [Ht _]. destruct s as [e a l f p m pr ts at_ nh inf nr nl].
  simpl in *. destruct ts as [|t [|t' ts]]; simpl in *.
  - destruct pr; reflexivity.
  - destruct Ht as [-> _]. simpl. rewrite Nat.eqb_refl. reflexivity.
  - contradiction.
Qed.

Lemma stopPolling_timers (s : st) :
  Inv s -> timers (stopPolling s) = [] /\ pollRef (stopPolling s) = None.
Proof.
  intros H. pose proof (clear_current s H) as Hc.
  unfold stopPolling. destruct (pollRef s); simpl in *; auto.
Qed.

Definition status_calls (s : st) : list net_call :=
  filter is_status_call (netlog s).

(** How the part of a handler that starts no poll may change the intervals,
    the requests in flight and the status checks sent: the intervals stay or
    are all stopped, requests get fresh ids, no status check is sent. *)
Definition tame (s s' : st) : Prop :=
  ((timers s' = timers s /\ pollRef s' = pollRef s
    /\ next_handle s' = next_handle s)
   \/ timers s' = [])
  /\ Forall (fun p => fst p < next_req s') (inflight s')
  /\ status_calls s' = status_calls s.

Lemma tame_Inv (s s' : st) : Inv s -> tame s s' -> Inv s'.
Proof.
  intros [Ht Hi] [[(E1 & E2 & E3)|E1] [Hf _]]; split; auto.
  - rewrite E1, E2, E3. exact Ht.
  - rewrite E1. exact I.
Qed.

Lemma tame_refl (s : st) : Inv s -> tame s s.
Proof. intros [_ Hi]. repeat split; auto. Qed.

Section TameSteps.
Variables s s1 : st.
Hypothesis HI : Inv s.
Hypothesis H : tame s s1.

Lemma tame_setError e : tame s (setError e s1).
Proof. exact H. Qed.

Lemma tame_setAnalysis a : tame s (setAnalysis a s1).
Proof. exact H. Qed.

Lemma tame_setLoading b : tame s (setLoading b s1).
Proof. exact H. Qed.

Lemma tame_setPendingJob p : tame s (setPendingJob p s1).
Proof. exact H. Qed.

Lemma tame_settle rid : tame s (settle rid s1).
Proof.
  destruct H as [A [B C]]. repeat split; auto.
  simpl. eapply filter_Forall_lt; [exact B|lia].
Qed.

Lemma tame_stopPolling : tame s (stopPolling s1).
Proof.
  destruct (stopPolling_timers s1 (tame_Inv s s1 HI H)) as [S1 S2].
  destruct H as [A [B C]]. split; [right; exact S1|]. split.
  - unfold stopPolling. destruct (pollRef s1); exact B.
  - unfold stopPolling. destruct (pollRef s1); exact C.
Qed.

Lemma tame_send c k : is_status_call c = false -> tame s (send c k s1).
Proof.
  intros Hc. destruct H as [A [B C]]. repeat split; auto.
  - simpl. apply send_Forall_lt. exact B.
  - unfold status_calls in *. simpl. rewrite filter_app. simpl.
    rewrite Hc, app_nil_r. exact C.
Qed.

Lemma tame_if_mounted (f : st -> st) :
  tame s (f s1) -> tame s (if mounted s1 then f s1 else s1).
Proof. intros Hf. destruct (mounted s1); assumption. Qed.
End TameSteps.

Create HintDb tame.

#[local] Hint Resolve tame_refl tame_setError tame_setAnalysis tame_setLoading
  tame_setPendingJob tame_settle tame_stopPolling tame_send tame_if_mounted
  : tame.

Lemma doPoll_status_tame h job max now o (s s1 : st) :
  Inv s -> tame s s1 -> tame s (doPoll_status h job max now o s1).
Proof.
  intros HI H. unfold doPoll_status.
  destruct o as [e|r].
  - apply tame_if_mounted; auto with tame.
  - destruct (negb (r_ok r)); [auto with tame|].
    assert (H1 : tame s (if mounted s1
                         then setPendingJob
                                (Some (tick_pending job (status_of (r_body r)) now
                                         (r_body r) (pendingJob s1))) s1
                         else s1))
      by (destruct (mounted s1); auto with tame).
    destruct (is_done _); [auto with tame|].
    destruct (is_failed _); [apply tame_if_mounted; auto with tame|].
    match goal with |- context [if ?b then _ else _] => destruct b end;
      auto with tame.
Qed.

Lemma doPoll_result_tame job o (s s1 : st) :
  Inv s -> tame s s1 -> tame s (doPoll_result job o s1).
Proof.
  intros HI H. unfold doPoll_result.
  apply tame_setPendingJob. apply tame_if_mounted; auto.
  - apply tame_stopPolling; auto.
    destruct o as [e|r]; auto with tame.
    destruct (r_ok r); [destruct (r_body r)|]; auto with tame.
  - apply tame_setLoading. apply tame_stopPolling; auto.
    destruct o as [e|r]; auto with tame.
    destruct (r_ok r); [destruct (r_body r)|]; auto with tame.
Qed.

Lemma cancelPoll_tame (s : st) : Inv s -> tame s (cancelPoll s).
Proof.
  intros HI. unfold cancelPoll. destruct (pollRef s) eqn:E; auto 10 with tame.
Qed.

Lemma unmount_tame (s : st) : Inv s -> tame s (unmount s).
Proof.
  intros HI. pose proof (clear_current s HI) as Hc.
  destruct HI as [Ht Hi]. unfold unmount, tame.
  destruct (pollRef s) eqn:E; simpl in *; repeat split; auto.
Qed.

(** What a call of [pollJobStatus] with a job id leaves behind: the one
    interval of the new loop, and its first status check already sent. *)
Lemma pollJobStatus_started (job : option string) (max : nat) (s : st) :
  Inv s -> truthy job = true ->
  let s0 := pollJobStatus job max s in
  let j := or_default job "" in
  timers s0 = [{| t_handle := next_handle s; t_job := j; t_max := max |}]
  /\ pollRef s0 = Some (next_handle s)
  /\ netlog s0 = (netlog s ++ [NetStatus j])%list
  /\ inflight s0 = (inflight s ++ [(next_req s, ReqStatus (next_handle s) j max)])%list
  /\ next_req s0 = S (next_req s)
  /\ attempts s0 (next_handle s) = 1
  /\ error s0 = error s /\ pendingJob s0 = pendingJob s
  /\ mounted s0 = mounted s.
Proof.
  intros HI Hj. pose proof (clear_current s HI) as Hc.
  unfold pollJobStatus. rewrite Hj. simpl.
  destruct (pollRef s); simpl in *; rewrite ?Hc; simpl;
    rewrite ?Nat.eqb_refl; repeat split; auto;
    destruct HI as [Ht _]; destruct (timers s); auto; discriminate.
Qed.

Lemma pollJobStatus_Inv (job : option string) (max : nat) (s : st) :
  Inv s -> Inv (pollJobStatus job max s).
Proof.
  intros HI. destruct (truthy job) eqn:Hj.
  - destruct (pollJobStatus_started job max s HI Hj)
      as (T & P & _ & F & N & _).
    split.
    + rewrite T, P. unfold pollJobStatus. rewrite Hj. simpl.
      split; [reflexivity|].
      destruct (pollRef s); simpl; lia.
    + rewrite F, N. apply send_Forall_lt. apply HI.
  - unfold pollJobStatus. rewrite Hj. exact HI.
Qed.

Lemma runAnalysisForFile_tame (f : option string) (s s1 : st) :
  Inv s -> tame s s1 -> tame s (runAnalysisForFile f s1).
Proof.
  intros HI H. unfold runAnalysisForFile.
  destruct (negb (truthy f)); auto 10 with tame.
Qed.

Lemma runAnalysisForFile_settled_Inv now o (s : st) :
  Inv s -> Inv (runAnalysisForFile_settled now o s).
Proof.
  intros HI. unfold runAnalysisForFile_settled.
  assert (F : forall s1, Inv s1 -> Inv (if mounted s1 then setLoading false s1 else s1))
    by (intros s1 H1; destruct (mounted s1); exact H1).
  destruct o as [e|r]; [apply F; exact HI|].
  destruct (r_code r =? 202)%nat.
  - apply F. match goal with |- context [if ?b then _ else _] => destruct b end.
    + apply pollJobStatus_Inv. exact HI.
    + exact HI.
  - destruct (r_ok r); apply F; [destruct (mounted s)|]; exact HI.
Qed.

Lemma step_Inv (s : st) (e : event) : Inv s -> Inv (step s e).
Proof.
  intros HI. destruct e as [| |job max| | |h|rid now o]; simpl.
  - unfold startAnalysis.
    destruct (negb _); [exact HI|]. destruct (busy _); [exact HI|].
    eapply tame_Inv; [exact HI|].
    apply runAnalysisForFile_tame; auto with tame.
  - unfold onClickViewLast. destruct (truthy _); [|exact HI].
    eapply tame_Inv; [exact HI|]. apply runAnalysisForFile_tame; auto with tame.
  - apply pollJobStatus_Inv; exact HI.
  - eapply tame_Inv; [exact HI|apply cancelPoll_tame; exact HI].
  - eapply tame_Inv; [exact HI|apply unmount_tame; exact HI].
  - destruct (find _ _); [|exact HI]. destruct HI as [Ht Hi]. split; [exact Ht|].
    simpl. apply send_Forall_lt. exact Hi.
  - destruct (lookup_req rid s) as [[f|h job max|job]|]; [| | |exact HI].
    + apply runAnalysisForFile_settled_Inv.
      eapply tame_Inv; [exact HI|auto with tame].
    + eapply tame_Inv; [exact HI|]. apply doPoll_status_tame; auto with tame.
    + eapply tame_Inv; [exact HI|]. apply doPoll_result_tame; auto with tame.
Qed.

Lemma run_Inv (es : list event) (s : st) : Inv s -> Inv (run s es).
Proof.
  revert s. induction es as [|e es IH]; intros s HI; [exact HI|].
  simpl. apply IH. apply step_Inv. exact HI.
Qed.

Lemma reachable_Inv (s : st) : reachable s -> Inv s.
Proof.
  intros (fid & es & <-). apply run_Inv. split; [exact I|constructor].
Qed.

(** A passive event other than a tick is tame; a tick of a live interval
    sends one status check for that interval's job and changes nothing
    else about the intervals. *)
Lemma passive_step (s : st) (e : event) :
  Inv s -> passive s e = true ->
  tame s (step s e)
  \/ exists t, In t (timers s)
        /\ timers (step s e) = timers s
        /\ status_calls (step s e) = (status_calls s ++ [NetStatus (t_job t)])%list.
Proof.
  intros HI Hp. destruct e as [| |job max| | |h|rid now o]; simpl in *;
    try discriminate.
  - left. apply cancelPoll_tame; exact HI.
  - left. apply unmount_tame; exact HI.
  - destruct (find _ _) as [t|] eqn:F; [|left; auto with tame].
    right. exists t. apply find_some in F. destruct F as [Hin _].
    repeat split; auto.
    unfold status_calls. simpl. rewrite filter_app. reflexivity.
  - left. destruct (lookup_req rid s) as [[f|h job max|job]|];
      [discriminate| | |auto with tame].
    + apply doPoll_status_tame; auto with tame.
    + apply doPoll_result_tame; auto with tame.
Qed.

(** Along passive events the live intervals belong to the same job [J], and
    every status check sent is for [J]; with no live interval none is sent. *)
Lemma passive_run (J : string) (es : list event) (s : st) :
  Inv s -> Forall (fun t => t_job t = J) (timers s) ->
  all_passive s es = true ->
  exists k, status_calls (run s es) = (status_calls s ++ repeat (NetStatus J) k)%list
       /\ (timers s = [] -> k = 0 /\ timers (run s es) = []).
Proof.
  revert s. induction es as [|e es IH]; intros s HI HJ Hp.
  - exists 0. simpl. rewrite app_nil_r. auto.
  - simpl in Hp. apply andb_prop in Hp. destruct Hp as [Hp1 Hp2].
    pose proof (step_Inv s e HI) as HI'.
    destruct (passive_step s e HI Hp1) as [[A [B C]]|(t & Hin & Ht & Hc)].
    + assert (HJ' : Forall (fun t => t_job t = J) (timers (step s e))).
      { destruct A as [[A _]|A]; rewrite A; [exact HJ|constructor]. }
      destruct (IH (step s e) HI' HJ' Hp2) as (k & Hk & Hz).
      exists k. simpl. rewrite Hk, C. split; [reflexivity|].
      intros Hnil. apply Hz. destruct A as [[A _]|A]; congruence.
    + assert (HJ' : Forall (fun t => t_job t = J) (timers (step s e)))
        by (rewrite Ht; exact HJ).
      destruct (IH (step s e) HI' HJ' Hp2) as (k & Hk & Hz).
      exists (S k). simpl. rewrite Hk, Hc.
      rewrite Forall_forall in HJ. rewrite (HJ t Hin), <- app_assoc.
      split; [reflexivity|].
      intros Hnil. rewrite Hnil in Hin. destruct Hin.
Qed.

(** *** The specified properties of the poller *)

Lemma spec_class_code (x : string) :
  spec_class x =
  if is_done x then ClassDone
  else if is_failed x then ClassFailed else ClassNonTerminal.
Proof.
  unfold spec_class, is_done, is_failed. simpl.
  rewrite !orb_false_r, orb_assoc. reflexivity.
Qed.

Lemma lookup_req_fresh (n : nat) (s : st) :
  Forall (fun p => fst p < next_req s) (inflight s) ->
  next_req s <= n -> lookup_req n s = None.
Proof.
  unfold lookup_req. intros H Hn.
  destruct (find _ _) as [p|] eqn:F; [|reflexivity].
  apply find_some in F. destruct F as [Hin Heq].
  rewrite Forall_forall in H. apply H in Hin.
  apply Nat.eqb_eq in Heq. lia.
Qed.

Lemma find_app_none {A : Type} (f : A -> bool) (l l' : list A) :
  find f l = None -> find f (l ++ l') = find f l'.
Proof.
  induction l as [|a l IH]; simpl; [reflexivity|].
  destruct (f a); [discriminate|exact IH].
Qed.

Lemma lookup_req_sent (c : net_call) (k : req) (s : st) :
  Forall (fun p => fst p < next_req s) (inflight s) ->
  lookup_req (next_req s) (send c k s) = Some k.
Proof.
  intros H. pose proof (lookup_req_fresh (next_req s) s H (le_n _)) as Hn.
  unfold lookup_req in *. simpl.
  destruct (find _ (inflight s)) eqn:F; [discriminate|].
  rewrite (find_app_none _ _ _ F). simpl. rewrite Nat.eqb_refl. reflexivity.
Qed.

Lemma stopPolling_frame (s : st) :
  netlog (stopPolling s) = netlog s /\ error (stopPolling s) = error s
  /\ mounted (stopPolling s) = mounted s
  /\ pendingJob (stopPolling s) = pendingJob s
  /\ analysis (stopPolling s) = analysis s.
Proof. unfold stopPolling. destruct (pollRef s); repeat split. Qed.

(** What the handler of a settled result fetch leaves: no interval, and
    [pollRef.current] null, whatever the outcome. *)
Lemma doPoll_result_stops (job : string) (o : outcome) (s : st) :
  Inv s ->
  timers (doPoll_result job o s) = [] /\ pollRef (doPoll_result job o s) = None.
Proof.
  intros HI. unfold doPoll_result.
  set (s1 := match o with Threw _ => _ | Got _ => _ end).
  assert (H1 : Inv s1).
  { subst s1. destruct o as [e|r]; [exact HI|].
    destruct (r_ok r); [destruct (r_body r)|]; exact HI. }
  destruct (stopPolling_timers s1 H1) as [T P].
  destruct (mounted (stopPolling s1)); simpl; auto.
Qed.

(** The status of a 2xx status response, read from the fields of its
    body: [status] when it is not empty, else [state] when that is not
    empty, else the word [unknown]. *)
Lemma status_of_fields (r : http_resp) (x : string) :
  match r_body r with
  | Some b =>
      (b_status b = Some x /\ x <> "")
      \/ (truthy (b_status b) = false /\ b_state b = Some x /\ x <> "")
      \/ (truthy (b_status b) = false /\ truthy (b_state b) = false
          /\ x = "unknown")
  | None => x = "unknown"
  end ->
  status_of (r_body r) = x.
Proof.
  unfold status_of. destruct (r_body r) as [b|]; [|congruence].
  intros [[E N]|[(F & E & N)|(F & G & ->)]].
  - unfold or_else. rewrite E. simpl. apply String.eqb_neq in N.
    rewrite N. simpl. rewrite N. reflexivity.
  - unfold or_else. rewrite F, E. simpl. apply String.eqb_neq in N.
    rewrite N. reflexivity.
  - unfold or_else. rewrite F. destruct (b_state b) as [y|]; [|reflexivity].
    simpl in *. destruct (y =? ""); [reflexivity|discriminate].
Qed.




(** A status check that fails at the transport or HTTP level. *)
Definition tick_failed (o : outcome) : bool :=
  match o with
  | Threw _ => true
  | Got r => negb (r_ok r)
  end.

(** C10.  When a status check fails (the fetch throws, or the response is
    not 2xx), the handler leaves no interval, nulls [pollRef.current] and
    sets the error message; after that no sequence of timer, response,
    cancel or unmount events sends another status check. *)
Theorem C10_failed_tick_stops_polling (s : st) (rid h : nat) (job : string)
    (max : nat) (now : string) (o : outcome) :
  reachable s ->
  lookup_req rid s = Some (ReqStatus h job max) ->
  tick_failed o = true ->
  let s' := step s (EvSettled rid now o) in
  timers s' = [] /\ pollRef s' = None
  /\ error s' = Some match o with
                     | Threw e => "Polling network error: " ++ err_text e
                     | Got r => "Polling error: " ++ resp_msg r
                     end
  /\ netlog s' = netlog s
  /\ forall es, all_passive s' es = true ->
       status_calls (run s' es) = status_calls s'.
Proof.
  intros Hr Hl Hf s'. apply reachable_Inv in Hr.
  assert (HI' : Inv s') by (apply step_Inv; exact Hr).
  assert (HS : Inv (settle rid s)) by (eapply tame_Inv; [exact Hr|auto with tame]).
  assert (H4 : timers s' = [] /\ pollRef s' = None
               /\ error s' = Some match o with
                                  | Threw e => "Polling network error: " ++ err_text e
                                  | Got r => "Polling error: " ++ resp_msg r
                                  end
               /\ netlog s' = netlog s).
  { subst s'. unfold step. rewrite Hl. unfold doPoll_status.
    destruct o as [e|r]; simpl in Hf.
    - match goal with |- context [stopPolling ?x] =>
        destruct (stopPolling_timers x HS) as [T P];
        destruct (stopPolling_frame x) as (F1 & F2 & _) end.
      match goal with |- context [if ?b then _ else _] => destruct b end;
        unfold setLoading; cbn [netlog timers pollRef error];
        rewrite ?F1, ?F2; auto.
    - rewrite Hf.
      match goal with |- context [stopPolling ?x] =>
        destruct (stopPolling_timers x HS) as [T P];
        destruct (stopPolling_frame x) as (F1 & F2 & _) end.
      rewrite ?F1, ?F2; auto. }
  destruct H4 as (T & P & E & N). repeat split; auto.
  intros es Hp.
  destruct (passive_run "" es s' HI') as (k & Hk & Hz); auto.
  - rewrite T. constructor.
  - destruct (Hz T) as [-> _]. rewrite Hk. simpl. apply app_nil_r.
Qed.

(** An instance of C10: a 500 from the status endpoint while job [j1] is
    polled. *)
Lemma C10_witness :
  timers (step polling_j1 (EvSettled 0 "t1" (Got server_error))) = []
  /\ status_calls (run (step polling_j1 (EvSettled 0 "t1" (Got server_error)))
                       [EvTick 1; EvTick 1])
     = [NetStatus "j1"].
Proof.
  destruct (C10_failed_tick_stops_polling polling_j1 0 1 "j1" 120 "t1"
              (Got server_error)
              (ex_intro _ (Some "f1")
                 (ex_intro _ [EvPoll (Some "j1") 120] eq_refl))
              eq_refl eq_refl) as (T & _ & _ & _ & Q).
  split; [exact T|exact (Q [EvTick 1; EvTick 1] eq_refl)].
Defined.



(** *** The attempt budget *)

(** A 2xx status response whose status is neither [done] nor [failed] nor
    one of their synonyms. *)
Definition non_terminal (p : string * http_resp) : Prop :=
  r_ok (snd p) = true
  /\ spec_class (status_of (r_body (snd p))) = ClassNonTerminal.

Lemma doPoll_status_nonterminal h job max now r (s : st) :
  non_terminal (now, r) ->
  doPoll_status h job max now (Got r) s =
  let s1 := if mounted s
            then setPendingJob
                   (Some (tick_pending job (status_of (r_body r)) now
                            (r_body r) (pendingJob s))) s
            else s in
  if (max <=? attempts s h)%nat
  then stopPolling (setError (Some timeout_msg) s1)
  else s1.
Proof.
  intros [Hok Hc]. simpl in Hok, Hc. rewrite spec_class_code in Hc.
  unfold doPoll_status. rewrite Hok. simpl negb. cbv iota.
  destruct (is_done _); [discriminate|].
  destruct (is_failed _); [discriminate|].
  destruct (mounted s); reflexivity.
Qed.

Section Budget.
Variables (h : nat) (job : string) (n c0 : nat) (mnt : bool).

(** [k] checks sent, the last one (request [rid]) not yet answered. *)
Definition waiting (k rid : nat) (s : st) : Prop :=
  timers s = [{| t_handle := h; t_job := job; t_max := n |}]
  /\ pollRef s = Some h
  /\ attempts s h = k
  /\ lookup_req rid s = Some (ReqStatus h job n)
  /\ next_req s = S rid
  /\ Forall (fun p => fst p < next_req s) (inflight s)
  /\ length (status_calls s) = c0 + k
  /\ mounted s = mnt.

(** Polling has ended in the timeout after [k] checks. *)
Definition timed_out (k : nat) (s : st) : Prop :=
  timers s = [] /\ pollRef s = None
  /\ error s = Some timeout_msg
  /\ length (status_calls s) = c0 + k
  /\ Forall (fun p => fst p < next_req s) (inflight s)
  /\ (mnt = true ->
      exists p x, pendingJob s = Some p /\ status p = Some x
                  /\ spec_class x = ClassNonTerminal).

Lemma round_again k rid s now r :
  waiting k rid s -> k < n -> non_terminal (now, r) ->
  waiting (S k) (S rid)
    (step (step s (EvSettled rid now (Got r))) (EvTick h)).
Proof.
  intros (T & P & A & L & N & F & C & M) Hk Hg.
  unfold step at 2. rewrite L.
  rewrite (doPoll_status_nonterminal _ _ _ _ _ _ Hg).
  cbv zeta. change (attempts (settle rid s) h) with (attempts s h).
  rewrite A. apply Nat.leb_gt in Hk. rewrite Hk.
  change (mounted (settle rid s)) with (mounted s).
  assert (F' : Forall (fun p => fst p < S rid) (inflight (settle rid s))).
  { simpl. eapply filter_Forall_lt; [exact F|lia]. }
  destruct (mounted s) eqn:Hm;
    unfold step; cbn [timers setPendingJob settle setInflight];
    rewrite T; cbn [find t_handle]; rewrite Nat.eqb_refl;
    cbn [t_handle t_job t_max];
    (split; [exact T|]); (split; [exact P|]);
    (split; [simpl; rewrite Nat.eqb_refl, A; reflexivity|]);
    (split; [
       match goal with |- lookup_req _ (doPoll _ _ _ ?x) = _ =>
         unfold doPoll;
         pose proof (lookup_req_sent (NetStatus job) (ReqStatus h job n)
                       (setAttempts h (S (attempts x h)) x)) as Q
       end;
       cbn [next_req setAttempts setPendingJob settle setInflight inflight] in Q;
       rewrite N in Q; apply Q; exact F' |]);
    (split; [simpl; rewrite N; reflexivity|]);
    (split; [simpl; rewrite N; apply send_Forall_lt; exact F'|]);
    (split; [|simpl; rewrite Hm; exact M]);
    unfold status_calls in *; simpl; rewrite filter_app, length_app, C;
    simpl; lia.
Qed.

Lemma round_last k rid s now r :
  waiting k rid s -> n <= k -> non_terminal (now, r) ->
  let s1 := step s (EvSettled rid now (Got r)) in
  timed_out k s1 /\ step s1 (EvTick h) = s1 /\ next_req s1 = S rid.
Proof.
  intros (T & P & A & L & N & F & C & M) Hk Hg s1.
  set (x := setError (Some timeout_msg)
              (if mounted s
               then setPendingJob
                      (Some (tick_pending job (status_of (r_body r)) now
                               (r_body r) (pendingJob s))) (settle rid s)
               else settle rid s)).
  assert (E : s1 = stopPolling x).
  { subst s1 x. unfold step. rewrite L.
    rewrite (doPoll_status_nonterminal _ _ _ _ _ _ Hg).
    cbv zeta. change (attempts (settle rid s) h) with (attempts s h).
    rewrite A. apply Nat.leb_le in Hk. rewrite Hk. reflexivity. }
  clearbody s1. subst s1.
  assert (X : timers x = timers s /\ pollRef x = pollRef s
              /\ inflight x = inflight (settle rid s)
              /\ next_req x = next_req s /\ netlog x = netlog s
              /\ error x = Some timeout_msg
              /\ (mounted s = true ->
                  pendingJob x
                  = Some (tick_pending job (status_of (r_body r)) now
                            (r_body r) (pendingJob s)))).
  { subst x. destruct (mounted s); repeat split; auto; discriminate. }
  destruct X as (X1 & X2 & X3 & X4 & X5 & X6 & X7). clearbody x.
  destruct (stopPolling_frame x) as (F1 & F2 & F3 & F4 & _).
  assert (T' : timers (stopPolling x) = []).
  { unfold stopPolling. rewrite X2, P. simpl. rewrite X1, T. simpl.
    rewrite Nat.eqb_refl. reflexivity. }
  assert (I' : inflight (stopPolling x) = inflight x
               /\ next_req (stopPolling x) = next_req x).
  { unfold stopPolling. destruct (pollRef x); simpl; auto. }
  destruct I' as [I' N']. rewrite X3 in I'. rewrite X4 in N'.
  split; [|split].
  - split; [exact T'|]. split; [reflexivity|].
    split; [rewrite F2; exact X6|].
    split; [unfold status_calls in *; rewrite F1, X5; exact C|].
    split.
    + rewrite I', N', N. simpl. eapply filter_Forall_lt; [exact F|lia].
    + intros Hmnt. rewrite F4, X7 by congruence.
      eexists _, _. split; [reflexivity|]. split; [reflexivity|]. apply Hg.
  - unfold step. rewrite T'. reflexivity.
  - rewrite N'. exact N.
Qed.

Lemma rounds_idle resps rid s :
  timers s = [] ->
  Forall (fun p => fst p < next_req s) (inflight s) ->
  next_req s <= rid ->
  prompt_rounds resps h rid s = s.
Proof.
  intros T F. revert rid. induction resps as [|[now r] rest IH]; intros rid Hr.
  - reflexivity.
  - cbn [prompt_rounds]. unfold step at 2.
    rewrite (lookup_req_fresh rid s F Hr).
    unfold step. rewrite T. cbn [find]. apply IH. lia.
Qed.

Lemma rounds_time_out resps :
  Forall non_terminal resps ->
  forall k rid s,
    waiting k rid s -> 1 <= k -> k <= Nat.max 1 n ->
    Nat.max 1 n - k < length resps ->
    timed_out (Nat.max 1 n) (prompt_rounds resps h rid s).
Proof.
  induction 1 as [|[now r] rest Hg _ IH]; intros k rid s W H1 H2 H3.
  - cbn [length] in H3. lia.
  - cbn [prompt_rounds].
    destruct (Nat.lt_ge_cases k n) as [Hlt|Hge].
    + apply (IH (S k)).
      * apply round_again; assumption.
      * lia.
      * lia.
      * cbn [length] in H3. lia.
    + destruct (round_last k rid s now r W Hge Hg) as (D & E & N).
      rewrite E. rewrite rounds_idle.
      * replace (Nat.max 1 n) with k by lia. exact D.
      * apply D.
      * apply D.
      * rewrite N. lia.
Qed.
End Budget.

(** C3, with the budget as the code applies it.  When every status
    response is non-terminal and each is handled before the interval fires
    again, a poll with [maxAttempts = n] sends exactly [max 1 n] status
    checks: the first one is sent before the
    budget is looked at.  It then ends with the polling-timeout message and
    not with a failure (the tracked status stays the last non-terminal one),
    with no interval left, and later timer, response, cancel or unmount
    events send no further check. *)
Theorem C3_attempt_budget (s : st) (job : string) (n : nat)
    (resps : list (string * http_resp)) :
  reachable s ->
  job <> "" ->
  Forall non_terminal resps ->
  Nat.max 1 n <= length resps ->
  let s0 := pollJobStatus (Some job) n s in
  let s' := prompt_rounds resps (next_handle s) (next_req s) s0 in
  status_checks s' = status_checks s + Nat.max 1 n
  /\ timers s' = [] /\ pollRef s' = None
  /\ error s' = Some timeout_msg
  /\ timeout_msg <> job_failed_msg
  /\ (mounted s = true ->
      exists p x, pendingJob s' = Some p /\ status p = Some x
                  /\ spec_class x = ClassNonTerminal)
  /\ forall es, all_passive s' es = true ->
       status_calls (run s' es) = status_calls s'.
Proof.
  intros Hr Hj Hg Hlen s0 s'. apply reachable_Inv in Hr.
  assert (Ht : truthy (Some job) = true).
  { simpl. apply String.eqb_neq in Hj. rewrite Hj. reflexivity. }
  assert (Hd : or_default (Some job) "" = job).
  { simpl. apply String.eqb_neq in Hj. rewrite Hj. reflexivity. }
  destruct (pollJobStatus_started (Some job) n s Hr Ht)
    as (T & P & N & F & R & A & _ & _ & M).
  fold s0 in T, P, N, F, R, A, M. rewrite Hd in T, N, F.
  pose proof (pollJobStatus_Inv (Some job) n s Hr) as I0. fold s0 in I0.
  assert (W : waiting (next_handle s) job n (status_checks s) (mounted s)
                1 (next_req s) s0).
  { repeat split; auto.
    - unfold lookup_req. rewrite F.
      pose proof (lookup_req_fresh (next_req s) s (proj2 Hr) (le_n _)) as Q.
      unfold lookup_req in Q.
      destruct (find _ (inflight s)) eqn:E; [discriminate|].
      rewrite (find_app_none _ _ _ E). simpl. rewrite Nat.eqb_refl.
      reflexivity.
    - apply I0.
    - unfold status_calls, status_checks. rewrite N, filter_app, length_app.
      reflexivity. }
  assert (D : timed_out (status_checks s) (mounted s) (Nat.max 1 n) s').
  { apply (rounds_time_out _ _ _ _ _ resps Hg 1 _ _ W); lia. }
  destruct D as (D1 & D2 & D3 & D4 & D5 & D6).
  repeat split; auto.
  - discriminate.
  - intros es Hp.
    destruct (passive_run "" es s') as (k & Hk & Hz); auto.
    + split; [rewrite D1; exact I|exact D5].
    + rewrite D1. constructor.
    + destruct (Hz D1) as [-> _]. rewrite Hk. simpl. apply app_nil_r.
Qed.

(** An instance of C3: [maxAttempts = 3] and a status endpoint that always
    answers [queued]; a fifth tick is offered and sends nothing. *)
Lemma C3_witness :
  status_checks
    (prompt_rounds
       [("t1", status_resp "queued"); ("t2", status_resp "queued");
        ("t3", status_resp "queued"); ("t4", status_resp "queued")]
       1 0 (pollJobStatus (Some "j1") 3 (init (Some "f1"))))
  = 3
  /\ error
       (prompt_rounds
          [("t1", status_resp "queued"); ("t2", status_resp "queued");
           ("t3", status_resp "queued"); ("t4", status_resp "queued")]
          1 0 (pollJobStatus (Some "j1") 3 (init (Some "f1"))))
     = Some timeout_msg.
Proof.
  destruct (C3_attempt_budget (init (Some "f1")) "j1" 3
              [("t1", status_resp "queued"); ("t2", status_resp "queued");
               ("t3", status_resp "queued"); ("t4", status_resp "queued")])
    as (C & _ & _ & E & _).
  - exists (Some "f1"), []. reflexivity.
  - discriminate.
  - repeat constructor.
  - simpl. lia.
  - split; [exact C|exact E].
Defined.

(** C3 as stated fails for [maxAttempts = 0]: the first status check is
    sent before the budget is compared, so one check is sent, not zero.
    The budget is compared only when a response is handled: with
    [maxAttempts = 3] and no response handled yet, three ticks after the
    first check make four checks. *)
Lemma C3_counterexample :
  status_checks
    (prompt_rounds [("t1", status_resp "queued")] 1 0
       (pollJobStatus (Some "j1") 0 (init (Some "f1"))))
  = 1
  /\ error
       (prompt_rounds [("t1", status_resp "queued")] 1 0
          (pollJobStatus (Some "j1") 0 (init (Some "f1"))))
     = Some timeout_msg
  /\ status_checks
       (run (init (Some "f1"))
            [EvPoll (Some "j1") 3; EvTick 1; EvTick 1; EvTick 1])
     = 4.
Proof. repeat split; reflexivity. Qed.

(** *** The end of a poll that saw [done] *)



(** *** The start guard *)

(** The guard of [startAnalysis] lets a start through exactly when no job is
    tracked, or the tracked status is empty, [done] or [cancelled]. *)
Lemma busy_spec (p : option pending_job) :
  busy p = true <->
  exists pj x, p = Some pj /\ status pj = Some x
               /\ x <> "" /\ x <> "done" /\ x <> "cancelled".
Proof.
  unfold busy. split.
  - destruct p as [pj|]; [|discriminate]. destruct (status pj) as [x|] eqn:E.
    + simpl. destruct (String.eqb_spec x ""); [discriminate|]. simpl.
      destruct (String.eqb_spec x "done"); [discriminate|].
      destruct (String.eqb_spec x "cancelled"); [discriminate|].
      intros _. exists pj, x. auto.
    + discriminate.
  - intros (pj & x & -> & E & H1 & H2 & H3). rewrite E. simpl.
    apply String.eqb_neq in H1, H2, H3. rewrite H1. simpl.
    rewrite H2, H3. reflexivity.
Qed.

(** C4, evaluated where the code departs from it.  The first status check
    of job [j1] answers [done]; the interval is cleared only in the
    [finally] after the awaited result fetch, so while that fetch is pending
    the interval fires and a second status check is sent. *)
Theorem C4_tick_while_result_pending :
  let s := run (init (Some "f1"))
               [EvPoll (Some "j1") 120;
                EvSettled 0 "t1" (Got (status_resp "done"))] in
  lookup_req 1 s = Some (ReqResult "j1")
  /\ netlog s = [NetStatus "j1"; NetResult "j1"]
  /\ netlog (step s (EvTick 1))
     = [NetStatus "j1"; NetResult "j1"; NetStatus "j1"].
Proof. vm_compute. repeat split; reflexivity. Qed.

End PollerFacts.

(** ** Facts about the logs page *)
Module LogsFacts.
Import LogsPage.

Lemma abort_inflight_frame (s : st) :
  logs (abort_inflight s) = logs s
  /\ fetchIdRef (abort_inflight s) = fetchIdRef s
  /\ serverFilteringSupported (abort_inflight s) = serverFilteringSupported s
  /\ sent (abort_inflight s) = sent s
  /\ searchTimeout (abort_inflight s) = searchTimeout s
  /\ (forall c, inflightController s = Some c -> In c (aborted (abort_inflight s))).
Proof.
  unfold abort_inflight. destruct (inflightController s) as [c|]; simpl.
  - repeat split; auto. intros c' [= <-]. apply in_or_app. right. left. reflexivity.
  - repeat split; auto. discriminate.
Qed.

(** A call of [fetchLogsFromServer] takes the next token, makes it the
    latest, sends the request under it, aborts the controller of the request
    before, and leaves the rows alone. *)
Lemma fetchLogsFromServer_token (c : call) (s : st) :
  fetchIdRef (fetchLogsFromServer c s) = S (fetchIdRef s)
  /\ sent (fetchLogsFromServer c s)
     = (sent s ++ [(S (fetchIdRef s), query_of c)])%list
  /\ (forall ctl, inflightController s = Some ctl ->
        In ctl (aborted (fetchLogsFromServer c s)))
  /\ logs (fetchLogsFromServer c s) = logs s
  /\ serverFilteringSupported (fetchLogsFromServer c s)
     = serverFilteringSupported s.
Proof.
  destruct (abort_inflight_frame s) as (L & F & S' & Q & _ & A).
  unfold fetchLogsFromServer. simpl. rewrite L, Q, S'. repeat split; auto.
Qed.

Lemma filter_effect_frame (s : st) :
  logs (filter_effect s) = logs s
  /\ fetchIdRef s <= fetchIdRef (filter_effect s)
  /\ serverFilteringSupported (filter_effect s) = serverFilteringSupported s.
Proof.
  unfold filter_effect.
  set (s1 := abort_inflight (with_searchTimeout None s)).
  destruct (abort_inflight_frame (with_searchTimeout None s))
    as (L & F & S' & _). fold s1 in L, F, S'. simpl in L, F, S'.
  destruct (q s1 =? "").
  - match goal with |- context [fetchLogsFromServer ?c s1] =>
      destruct (fetchLogsFromServer_token c s1) as (T & _ & _ & L' & S'') end.
    rewrite T, L', S'', L, F, S'. repeat split; auto.
  - simpl. rewrite L, F, S'. repeat split; auto.
Qed.

Lemma finally_frame (id : nat) (s : st) :
  logs (finally_ id s) = logs s /\ fetchIdRef (finally_ id s) = fetchIdRef s.
Proof. unfold finally_. destruct (id =? fetchIdRef s)%nat; split; reflexivity. Qed.

Lemma catch_frame (e : js_error) (s : st) :
  logs (catch_ e s) = logs s /\ fetchIdRef (catch_ e s) = fetchIdRef s.
Proof. unfold catch_. destruct (e_name e =? "AbortError"); split; reflexivity. Qed.

Lemma downgrade_frame (s : st) :
  logs (downgrade s) = logs s /\ fetchIdRef s <= fetchIdRef (downgrade s).
Proof.
  unfold downgrade. destruct (serverFilteringSupported s); [|auto].
  destruct (filter_effect_frame (with_supported false s)) as (L & F & _).
  split; assumption.
Qed.

Lemma on_fetched_frame (p : pending) (f : fetched) (s : st) :
  logs (on_fetched p f s) = logs s
  /\ fetchIdRef s <= fetchIdRef (on_fetched p f s).
Proof.
  unfold on_fetched. destruct f as [e|code].
  - simpl. destruct (finally_frame (thisFetchId p) (catch_ e s)) as [L F].
    destruct (catch_frame e s) as [L' F']. rewrite L, F, L', F'. auto.
  - destruct (_ && withFiltering p).
    + match goal with |- context [downgrade ?x] =>
        destruct (downgrade_frame x) as [L F] end.
      simpl in L, F.
      destruct (finally_frame (thisFetchId p) (finally_ (thisFetchId p) s))
        as [L1 F1].
      destruct (finally_frame (thisFetchId p) s) as [L2 F2].
      rewrite L1, L2 in L. rewrite F1, F2 in F. auto.
    + destruct (negb _); simpl; auto.
Qed.

Ltac by_effect :=
  match goal with
  | |- context [filter_effect ?x] =>
      exact (proj1 (proj2 (filter_effect_frame x)))
  end.

Lemma step_token_monotone (s : st) (e : event) :
  fetchIdRef s <= fetchIdRef (step s e).
Proof.
  destruct e as [v|v|v|n| |id f|id|id body|u|k threw]; simpl.
  - destruct (v =? q s); [auto|].
    by_effect.
  - auto.
  - destruct (v =? selectedUploadId s); [auto|].
    by_effect.
  - destruct (n =? limit s)%nat; [auto|].
    by_effect.
  - destruct (searchTimeout s) as [c|]; [|auto].
    rewrite (proj1 (fetchLogsFromServer_token c _)). simpl. auto.
  - destruct (find_request _ _ _); [|auto]. apply on_fetched_frame.
  - destruct (find_request _ _ _); [|auto]. unfold on_text. simpl.
    match goal with |- context [finally_ ?i ?x] =>
      rewrite (proj2 (finally_frame i x)) end.
    rewrite (proj2 (catch_frame _ _)). auto.
  - destruct (find_request _ _ _); [|auto]. unfold on_json.
    destruct (negb _); simpl;
      match goal with |- context [finally_ ?i ?x] =>
        rewrite (proj2 (finally_frame i x)) end; auto.
  - unfold handleDeleteUpload.
    match goal with |- context [if ?b then _ else _] => destruct b end.
    + by_effect.
    + auto.
  - destruct (nth_error _ _); [|auto]. destruct threw; [auto|].
    unfold refresh_logs.
    rewrite (proj1 (fetchLogsFromServer_token _ _)). simpl. auto.
Qed.



(** *** The downgrade *)

(** A 400, 404 or 422 answer to a request sent with server filtering turns
    [serverFilteringSupported] off. *)
Lemma rejection_downgrades (s : st) (id code : nat) (p : pending) :
  find_request id AwaitFetch s = Some p ->
  withFiltering p = true ->
  In code [404; 400; 422] ->
  serverFilteringSupported (step s (EvFetched id (FStatus code))) = false.
Proof.
  intros F W Hc.
  assert (E : existsb (Nat.eqb code) [404; 400; 422] = true).
  { apply existsb_exists. exists code. split; [exact Hc|apply Nat.eqb_refl]. }
  unfold step. rewrite F. unfold on_fetched. rewrite W, E.
  simpl andb. cbv iota. unfold downgrade.
  match goal with |- context [if ?b then _ else _] => destruct b eqn:B end.
  - match goal with |- context [filter_effect ?x] =>
      rewrite (proj2 (proj2 (filter_effect_frame x))) end.
    reflexivity.
  - exact B.
Qed.

(** Nothing turns [serverFilteringSupported] on again. *)
Lemma downgrade_permanent (s : st) (e : event) :
  serverFilteringSupported s = false ->
  serverFilteringSupported (step s e) = false.
Proof.
  intros H.
  assert (FE : forall x, serverFilteringSupported x = false ->
                 serverFilteringSupported (filter_effect x) = false).
  { intros x Hx. rewrite (proj2 (proj2 (filter_effect_frame x))). exact Hx. }
  assert (FL : forall c x, serverFilteringSupported x = false ->
                 serverFilteringSupported (fetchLogsFromServer c x) = false).
  { intros c x Hx.
    destruct (fetchLogsFromServer_token c x) as (_ & _ & _ & _ & E).
    rewrite E. exact Hx. }
  assert (FI : forall i x, serverFilteringSupported (finally_ i x)
                           = serverFilteringSupported x).
  { intros i x. unfold finally_. destruct (i =? fetchIdRef x)%nat; reflexivity. }
  assert (CA : forall er x, serverFilteringSupported (catch_ er x)
                            = serverFilteringSupported x).
  { intros er x. unfold catch_. destruct (e_name er =? "AbortError"); reflexivity. }
  destruct e as [v|v|v|n| |id f|id|id body|u|k threw]; simpl.
  - destruct (v =? q s); [exact H|]. apply FE. exact H.
  - exact H.
  - destruct (v =? selectedUploadId s); [exact H|]. apply FE. exact H.
  - destruct (n =? limit s)%nat; [exact H|]. apply FE. exact H.
  - destruct (searchTimeout s); [|exact H]. apply FL. exact H.
  - destruct (find_request _ _ _) as [p|]; [|exact H].
    unfold on_fetched. destruct f as [er|code].
    + simpl. rewrite FI, CA. exact H.
    + destruct (_ && withFiltering p).
      * unfold downgrade.
        match goal with |- context [if ?b then _ else _] => destruct b eqn:B end;
          [apply FE; reflexivity|exact B].
      * destruct (negb _); exact H.
  - destruct (find_request _ _ _) as [p|]; [|exact H].
    unfold on_text. simpl. rewrite FI, CA. exact H.
  - destruct (find_request _ _ _) as [p|]; [|exact H].
    unfold on_json. destruct (negb _); simpl; rewrite FI; exact H.
  - unfold handleDeleteUpload.
    match goal with |- context [if ?b then _ else _] => destruct b end;
      [apply FE|]; exact H.
  - destruct (nth_error _ _); [|exact H]. destruct threw; [exact H|].
    apply FL. exact H.
Qed.

Lemma rejection_downgrades_witness :
  serverFilteringSupported (step mounted_page (EvFetched 1 (FStatus 422)))
  = false.
Proof.
  apply (rejection_downgrades mounted_page 1 422
           {| thisFetchId := 1; withFiltering := true; at_phase := AwaitFetch |}).
  - reflexivity.
  - reflexivity.
  - simpl. auto.
Defined.

Lemma downgrade_permanent_witness :
  serverFilteringSupported
    (step (step mounted_page (EvFetched 1 (FStatus 422))) (EvSetUpload "u1"))
  = false.
Proof.
  apply downgrade_permanent. vm_compute. reflexivity.
Defined.

(** A request without the two filters. *)
Definition unfiltered (x : nat * query) : Prop :=
  qs_upload_id (snd x) = None /\ qs_q (snd x) = None.

(** No closure of the page still holds [serverFilteringSupported = true]:
    not the pending debounce timer, not a delete handler that waits. *)
Definition no_stale_closure (s : st) : Prop :=
  (forall c, searchTimeout s = Some c -> useServerFiltering c = false)
  /\ Forall (fun r => rn_supported r = false) (deleting s).

Lemma fetch_unfiltered (c : call) (s : st) :
  useServerFiltering c = false ->
  sent (fetchLogsFromServer c s)
  = (sent s ++ [(S (fetchIdRef s), query_of c)])%list
  /\ unfiltered (S (fetchIdRef s), query_of c)
  /\ searchTimeout (fetchLogsFromServer c s) = searchTimeout s
  /\ deleting (fetchLogsFromServer c s) = deleting s.
Proof.
  intros H. destruct (fetchLogsFromServer_token c s) as (_ & Q & _).
  split; [exact Q|]. split.
  - unfold unfiltered, query_of. simpl. rewrite H. auto.
  - unfold fetchLogsFromServer, abort_inflight.
    destruct (inflightController s); simpl; auto.
Qed.

Lemma filter_effect_unfiltered (s : st) :
  serverFilteringSupported s = false ->
  (exists new, sent (filter_effect s) = (sent s ++ new)%list
               /\ Forall unfiltered new)
  /\ (forall c, searchTimeout (filter_effect s) = Some c ->
        useServerFiltering c = false)
  /\ deleting (filter_effect s) = deleting s.
Proof.
  intros H. unfold filter_effect.
  set (s1 := abort_inflight (with_searchTimeout None s)).
  assert (A : serverFilteringSupported s1 = false /\ sent s1 = sent s
              /\ searchTimeout s1 = None /\ deleting s1 = deleting s).
  { subst s1. unfold abort_inflight. simpl.
    destruct (inflightController s); simpl; auto. }
  destruct A as (A1 & A2 & A3 & A4).
  destruct (q s1 =? "").
  - match goal with |- context [fetchLogsFromServer ?c s1] =>
      destruct (fetch_unfiltered c s1 A1) as (Q & U & T & D) end.
    rewrite Q, T, D, A2, A3, A4. split; [|split; [discriminate|reflexivity]].
    eexists. split; [reflexivity|]. constructor; [exact U|constructor].
  - simpl. rewrite A1, A2, A4. split; [|split; [|reflexivity]].
    + exists []. rewrite app_nil_r. split; [reflexivity|constructor].
    + intros c [= <-]. reflexivity.
Qed.

Lemma Forall_remove_nth {A : Type} (P : A -> Prop) (k : nat) (l : list A) :
  Forall P l -> Forall P (firstn k l ++ skipn (S k) l).
Proof.
  intros H. apply Forall_app. split.
  - rewrite Forall_forall in *. intros x Hx. apply H.
    rewrite <- (firstn_skipn k l). apply in_or_app. left. exact Hx.
  - rewrite Forall_forall in *. intros x Hx. apply H.
    rewrite <- (firstn_skipn (S k) l). apply in_or_app. right. exact Hx.
Qed.

(** Once server filtering is off and no closure made before that is left,
    every request a later event sends omits [upload_id] and [q], and no
    such closure comes back. *)
Lemma downgraded_step (s : st) (e : event) :
  serverFilteringSupported s = false ->
  no_stale_closure s ->
  (exists new, sent (step s e) = (sent s ++ new)%list /\ Forall unfiltered new)
  /\ no_stale_closure (step s e).
Proof.
  intros H [ST DL].
  assert (NIL : forall x, sent x = sent s ->
                  exists new, sent x = (sent s ++ new)%list /\ Forall unfiltered new).
  { intros x E. exists []. rewrite app_nil_r. split; [exact E|constructor]. }
  assert (FI : forall i x, sent (finally_ i x) = sent x
                 /\ searchTimeout (finally_ i x) = searchTimeout x
                 /\ deleting (finally_ i x) = deleting x).
  { intros i x. unfold finally_. destruct (i =? fetchIdRef x)%nat; auto. }
  assert (CA : forall er x, sent (catch_ er x) = sent x
                 /\ searchTimeout (catch_ er x) = searchTimeout x
                 /\ deleting (catch_ er x) = deleting x).
  { intros er x. unfold catch_. destruct (e_name er =? "AbortError"); auto. }
  assert (EF : forall x, serverFilteringSupported x = false ->
                 sent x = sent s -> deleting x = deleting s ->
                 (exists new, sent (filter_effect x) = (sent s ++ new)%list
                              /\ Forall unfiltered new)
                 /\ no_stale_closure (filter_effect x)).
  { intros x Hx Es Ed. destruct (filter_effect_unfiltered x Hx) as (N & T & D).
    rewrite Es in N. split; [exact N|]. split; [exact T|].
    rewrite D, Ed. exact DL. }
  destruct e as [v|v|v|n| |id f|id|id body|u|k threw]; simpl.
  - destruct (v =? q s); [split; [apply NIL; reflexivity|split; assumption]|].
    apply EF; auto.
  - split; [apply NIL; reflexivity|split; assumption].
  - destruct (v =? selectedUploadId s);
      [split; [apply NIL; reflexivity|split; assumption]|].
    apply EF; auto.
  - destruct (n =? limit s)%nat;
      [split; [apply NIL; reflexivity|split; assumption]|].
    apply EF; auto.
  - destruct (searchTimeout s) as [c|] eqn:E;
      [|split; [apply NIL; reflexivity|split; [rewrite E; discriminate|assumption]]].
    destruct (fetch_unfiltered c (with_searchTimeout None s) (ST c eq_refl))
      as (Q & U & T & D).
    split.
    + eexists. split; [exact Q|]. constructor; [exact U|constructor].
    + split; [rewrite T; discriminate|rewrite D; exact DL].
  - destruct (find_request _ _ _) as [p|];
      [|split; [apply NIL; reflexivity|split; assumption]].
    unfold on_fetched. destruct f as [er|code].
    + simpl.
      destruct (FI (thisFetchId p) (catch_ er s)) as (F1 & F2 & F3).
      destruct (CA er s) as (C1 & C2 & C3).
      split; [apply NIL; congruence|].
      split; simpl; [rewrite F2, C2; exact ST|rewrite F3, C3; exact DL].
    + destruct (_ && withFiltering p).
      * unfold downgrade. simpl.
        destruct (FI (thisFetchId p) (finally_ (thisFetchId p) s))
          as (F1 & F2 & F3).
        destruct (FI (thisFetchId p) s) as (G1 & G2 & G3).
        assert (B : serverFilteringSupported
                      (finally_ (thisFetchId p) (finally_ (thisFetchId p) s))
                    = false).
        { unfold finally_. repeat destruct (_ =? _)%nat; exact H. }
        rewrite B.
        split; [apply NIL; simpl; congruence|].
        split; simpl; [rewrite F2, G2; exact ST|rewrite F3, G3; exact DL].
      * destruct (negb _);
          (split; [apply NIL; reflexivity|split; assumption]).
  - destruct (find_request _ _ _) as [p|];
      [|split; [apply NIL; reflexivity|split; assumption]].
    unfold on_text. simpl.
    match goal with |- context [finally_ ?i ?x] =>
      destruct (FI i x) as (F1 & F2 & F3) end.
    match goal with |- context [catch_ ?er s] =>
      destruct (CA er s) as (C1 & C2 & C3) end.
    split; [apply NIL; congruence|].
    split; simpl; [rewrite F2, C2; exact ST|rewrite F3, C3; exact DL].
  - destruct (find_request _ _ _) as [p|];
      [|split; [apply NIL; reflexivity|split; assumption]].
    unfold on_json. destruct (negb _); simpl;
      match goal with |- context [finally_ ?i ?x] =>
        destruct (FI i x) as (F1 & F2 & F3) end;
      (split; [apply NIL; rewrite F1; reflexivity|]);
      (split; simpl; [rewrite F2; exact ST|rewrite F3; exact DL]).
  - unfold handleDeleteUpload.
    assert (DL' : Forall (fun r => rn_supported r = false)
                    (deleting s ++ [{| rn_supported := serverFilteringSupported s;
                                       rn_limit := limit s;
                                       rn_selectedUploadId := selectedUploadId s |}])).
    { apply Forall_app. split; [exact DL|]. constructor; [exact H|constructor]. }
    match goal with |- context [if ?b then _ else _] => destruct b end.
    + match goal with |- context [filter_effect ?x] =>
        destruct (filter_effect_unfiltered x H) as (N & T & D) end.
      split; [exact N|]. split; [exact T|]. rewrite D. exact DL'.
    + split; [apply NIL; reflexivity|]. split; [exact ST|exact DL'].
  - destruct (nth_error (deleting s) k) as [r|] eqn:E;
      [|split; [apply NIL; reflexivity|split; assumption]].
    assert (Hr : rn_supported r = false).
    { rewrite Forall_forall in DL. apply DL. eapply nth_error_In. exact E. }
    pose proof (Forall_remove_nth _ k _ DL) as DL'.
    destruct threw.
    + split; [apply NIL; reflexivity|]. split; [exact ST|exact DL'].
    + unfold refresh_logs.
      match goal with |- context [fetchLogsFromServer ?c ?x] =>
        destruct (fetch_unfiltered c x Hr) as (Q & U & T & D) end.
      split.
      * eexists. split; [exact Q|]. constructor; [exact U|constructor].
      * split; [rewrite T; exact ST|rewrite D; exact DL'].
Qed.

Lemma downgraded_step_witness :
  exists new,
    sent (step (step mounted_page (EvFetched 1 (FStatus 422))) (EvSetUpload "u1"))
    = (sent (step mounted_page (EvFetched 1 (FStatus 422))) ++ new)%list
    /\ Forall unfiltered new.
Proof.
  apply (downgraded_step (step mounted_page (EvFetched 1 (FStatus 422)))
           (EvSetUpload "u1")).
  - vm_compute. reflexivity.
  - split; [vm_compute; discriminate|vm_compute; constructor].
Defined.

(** C6, evaluated where the code departs from it.  The delete handler was
    created while server filtering was still on; the 422 turns it off and
    the filter effect refetches without filters (request 3); when the
    delete settles, [refreshUploadsAndLogs] of that older render calls
    [fetchLogsFromServer] with the [serverFilteringSupported] it captured,
    and request 4 carries [upload_id] again. *)
Theorem C6_refresh_after_downgrade_sends_filter :
  serverFilteringSupported downgraded_while_deleting = false
  /\ sent downgraded_while_deleting
     = [(1, {| qs_limit := Some 500; qs_upload_id := None; qs_q := None |});
        (2, {| qs_limit := Some 500; qs_upload_id := Some "u1"; qs_q := None |});
        (3, {| qs_limit := Some 500; qs_upload_id := None; qs_q := None |})]
  /\ sent (step downgraded_while_deleting (EvDeleteSettled 0 false))
     = (sent downgraded_while_deleting
        ++ [(4, {| qs_limit := Some 500; qs_upload_id := Some "u1";
                   qs_q := None |})])%list.
Proof. vm_compute. repeat split; reflexivity. Qed.

End LogsFacts.

(** ** Facts about dedupeLogs *)
Module DedupeFacts.
Import LogsPage.

(** A value that [Set] compares by value. *)
Definition primitive (v : jsval) : bool :=
  match v with
  | VObj _ => false
  | _ => true
  end.

Lemma same_value_zero_spec (a b : jsval) :
  same_value_zero a b = true <-> a = b /\ primitive a = true.
Proof.
  split.
  - destruct a as [| |x|x|x|x], b as [| |y|y|y|y]; simpl; intros H;
      try discriminate; split; try reflexivity;
      first [apply (proj1 (Bool.eqb_true_iff _ _)) in H
            |apply (proj1 (Z.eqb_eq _ _)) in H
            |apply (proj1 (String.eqb_eq _ _)) in H]; congruence.
  - intros [-> Hp]. destruct b as [| |y|y|y|y]; simpl in *;
      try discriminate; auto using Z.eqb_refl, String.eqb_refl.
    destruct y; reflexivity.
Qed.

(** The number of rows of [l] whose key is [k]. *)
Definition rows_with_key (k : jsval) (l : list jsval) : nat :=
  length (filter (fun x => same_value_zero (dedupe_key x) k) l).

Lemma rows_with_key_none (k : jsval) (l : list jsval) :
  ~ In k (map dedupe_key l) -> rows_with_key k l = 0.
Proof.
  unfold rows_with_key. induction l as [|x l IH]; simpl; [reflexivity|].
  intros Hn. destruct (same_value_zero (dedupe_key x) k) eqn:E.
  - apply same_value_zero_spec in E. destruct E as [E _]. tauto.
  - apply IH. tauto.
Qed.

Lemma rows_with_key_some (k : jsval) (l : list jsval) :
  primitive k = true -> In k (map dedupe_key l) -> 1 <= rows_with_key k l.
Proof.
  unfold rows_with_key. intros Hp. induction l as [|x l IH]; simpl; [intros []|].
  intros [E|Hin].
  - assert (H : same_value_zero (dedupe_key x) k = true)
      by (apply same_value_zero_spec; subst; auto).
    rewrite H. simpl. lia.
  - destruct (same_value_zero (dedupe_key x) k); simpl; [lia|auto].
Qed.

Lemma seen_spec (k : jsval) (l : list jsval) :
  existsb (same_value_zero k) (map dedupe_key l) = true
  <-> primitive k = true /\ In k (map dedupe_key l).
Proof.
  rewrite existsb_exists. split.
  - intros (y & Hin & E). apply same_value_zero_spec in E.
    destruct E as [-> Hp]. auto.
  - intros [Hp Hin]. exists k. split; [exact Hin|].
    apply same_value_zero_spec. auto.
Qed.

(** The loop keeps one row for every value-compared key it meets. *)
Lemma dedupe_loop_one (arr : list jsval) :
  forall out,
    (forall k, primitive k = true -> rows_with_key k out <= 1) ->
    forall k, primitive k = true ->
      In k (map dedupe_key out) \/ In k (map dedupe_key arr) ->
      rows_with_key k (dedupe_loop arr (map dedupe_key out) out) = 1.
Proof.
  induction arr as [|r arr IH]; intros out Hout k Hp Hin; simpl.
  - destruct Hin as [Hin|[]].
    unfold rows_with_key. rewrite filter_rev, length_rev.
    pose proof (rows_with_key_some k out Hp Hin).
    pose proof (Hout k Hp). unfold rows_with_key in *. lia.
  - destruct (existsb _ _) eqn:E.
    + apply seen_spec in E. destruct E as [_ E].
      apply IH; auto. destruct Hin as [Hin|[<-|Hin]]; auto.
    + apply (IH (r :: out)); auto.
      * intros k' Hp'. unfold rows_with_key. simpl.
        destruct (same_value_zero (dedupe_key r) k') eqn:E'.
        -- apply same_value_zero_spec in E'. destruct E' as [<- _].
           assert (Hn : ~ In (dedupe_key r) (map dedupe_key out)).
           { intros Hin'. rewrite (proj2 (seen_spec _ _)) in E; auto.
             discriminate. }
           pose proof (rows_with_key_none _ _ Hn) as Z.
           unfold rows_with_key in Z. simpl. rewrite Z. lia.
        -- apply Hout. exact Hp'.
      * simpl. destruct Hin as [Hin|[<-|Hin]]; auto.
Qed.

Lemma dedupeLogs_one (arr : list jsval) (r : jsval) :
  In r arr -> primitive (dedupe_key r) = true ->
  rows_with_key (dedupe_key r) (dedupeLogs arr) = 1.
Proof.
  intros Hin Hp. unfold dedupeLogs.
  apply (dedupe_loop_one arr []); auto.
  right. apply in_map. exact Hin.
Qed.

(** The key of a row with an id is the id. *)
Lemma dedupe_key_id (r : jsval) :
  nullish (field "id" r) = false -> dedupe_key r = field "id" r.
Proof. unfold dedupe_key, vcoalesce. intros ->. reflexivity. Qed.

(** Two rows without an id have the same key when their timestamps are
    equal and their messages are equal and not empty. *)
Lemma dedupe_key_composite (r1 r2 : jsval) :
  nullish (field "id" r1) = true -> nullish (field "id" r2) = true ->
  field "timestamp" r1 = field "timestamp" r2 ->
  field "message" r1 = field "message" r2 ->
  vtruthy (field "message" r1) = true ->
  dedupe_key r1 = dedupe_key r2 /\ primitive (dedupe_key r1) = true.
Proof.
  unfold dedupe_key, vcoalesce, vor. intros -> -> -> E T.
  rewrite <- E, T. split; reflexivity.
Qed.

End DedupeFacts.

(** ** Facts about the dashboard merge and the two deduplications *)
Module MergeFacts.
Import Dashboard.

Section WithDate.
Variable date_parse : string -> option Z.
Variable stringify : jsval -> string.

Abbreviation key := (stableLogKey date_parse stringify).
Abbreviation stime := (sort_time date_parse).
Abbreviation earlier := (fun a b => (stime a <= stime b)%Z).

(** *** Sorting *)

Lemma insert_row_perm (x : jsval) (l : list jsval) :
  Permutation (insert_row date_parse x l) (x :: l).
Proof.
  induction l as [|y l IH]; simpl; [reflexivity|].
  destruct (stime x <? stime y)%Z; [reflexivity|].
  rewrite IH. apply perm_swap.
Qed.

Lemma insert_row_sorted (x : jsval) (l : list jsval) :
  StronglySorted earlier l ->
  StronglySorted earlier (insert_row date_parse x l).
Proof.
  induction 1 as [|y l Hs IH Hy]; simpl.
  - constructor; constructor.
  - destruct (stime x <? stime y)%Z eqn:E.
    + apply Z.ltb_lt in E. constructor.
      * constructor; assumption.
      * constructor; [lia|].
        eapply Forall_impl; [|exact Hy]. simpl. intros. lia.
    + apply Z.ltb_ge in E. constructor; [exact IH|].
      eapply Permutation_Forall.
      * symmetry. apply insert_row_perm.
      * constructor; assumption.
Qed.

Lemma sort_rows_from (l acc : list jsval) :
  StronglySorted earlier acc ->
  Permutation (fold_left (fun a x => insert_row date_parse x a) l acc)
              (acc ++ l)
  /\ StronglySorted earlier
       (fold_left (fun a x => insert_row date_parse x a) l acc).
Proof.
  revert acc. induction l as [|x l IH]; intros acc Hs; simpl.
  - rewrite app_nil_r. split; [reflexivity|exact Hs].
  - destruct (IH (insert_row date_parse x acc) (insert_row_sorted x acc Hs))
      as [P S]. split; [|exact S].
    rewrite P, insert_row_perm. apply Permutation_middle.
Qed.

Lemma sort_rows_perm (l : list jsval) :
  Permutation (sort_rows date_parse l) l.
Proof. apply (sort_rows_from l []). constructor. Qed.

Lemma sort_rows_sorted (l : list jsval) :
  StronglySorted earlier (sort_rows date_parse l).
Proof. apply (sort_rows_from l []). constructor. Qed.

(** *** The map *)

Lemma key_eqb_spec (a b : option string) : reflect (a = b) (key_eqb a b).
Proof.
  destruct a as [x|], b as [y|]; simpl; try (constructor; congruence).
  destruct (String.eqb_spec x y); constructor; congruence.
Qed.

(** The keys of a map are distinct, and each row sits under its own key. *)
Definition keyed (m : list (option string * jsval)) : Prop :=
  NoDup (map fst m) /\ forall k v, In (k, v) m -> key v = k.

Lemma map_set_keys (k : option string) (v : jsval) m :
  forall k', In k' (map fst (map_set k v m)) <-> k' = k \/ In k' (map fst m).
Proof.
  induction m as [|[k0 v0] m IH]; intros k'; simpl.
  - intuition congruence.
  - destruct (key_eqb_spec k k0) as [->|Hne]; simpl.
    + intuition congruence.
    + rewrite IH. intuition congruence.
Qed.

(** Where an entry of the map comes from after [map.set(k, v)]: it is
    the new row under [k], or an old entry under another key. *)
Lemma map_set_lookup (k : option string) (v : jsval) m k' v' :
  NoDup (map fst m) ->
  In (k', v') (map_set k v m) ->
  (k' = k /\ v' = v) \/ (k' <> k /\ In (k', v') m).
Proof.
  induction m as [|[k0 v0] m IH]; simpl; intros Hn Hin.
  - destruct Hin as [[= <- <-]|[]]. auto.
  - inversion Hn as [|? ? Hnotin Hn']; subst.
    destruct (key_eqb_spec k k0) as [->|Hne]; simpl in Hin.
    + destruct Hin as [[= <- <-]|Hin]; [auto|].
      right. split; [|auto].
      intros ->. apply Hnotin. apply (in_map fst) in Hin. exact Hin.
    + destruct Hin as [[= <- <-]|Hin]; [right; split; [congruence|auto]|].
      destruct (IH Hn' Hin) as [?|[? ?]]; auto.
Qed.

Lemma map_set_keyed (v : jsval) m :
  keyed m -> keyed (map_set (key v) v m).
Proof.
  intros [Hn Hk]. split.
  - clear Hk. induction m as [|[k0 v0] m IH]; simpl.
    + constructor; [intros []|constructor].
    + simpl in Hn. inversion Hn as [|? ? Hnotin Hn']; subst.
      destruct (key_eqb_spec (key v) k0) as [->|Hne]; simpl.
      * constructor; assumption.
      * constructor; [|apply IH; exact Hn'].
        rewrite map_set_keys. intros [E|E]; [congruence|contradiction].
  - intros k' v' Hin.
    destruct (map_set_lookup _ _ _ _ _ Hn Hin) as [[-> ->]|[_ H]]; auto.
Qed.

(** *** The two loops over rows *)

Lemma set_all_spec (rows : list jsval) :
  forall m, keyed m ->
    keyed (set_all date_parse stringify m rows)
    /\ (forall k, In k (map fst (set_all date_parse stringify m rows))
                  <-> In k (map fst m) \/ In k (map key rows))
    /\ (forall k v, In (k, v) (set_all date_parse stringify m rows) ->
          In v rows \/ (In (k, v) m /\ ~ In k (map key rows))).
Proof.
  induction rows as [|x rows IH]; intros m Hm; simpl.
  - split; [exact Hm|]. split; [intros k; tauto|].
    intros k v H. right. auto.
  - destruct (IH _ (map_set_keyed x m Hm)) as (K & D & E).
    split; [exact K|]. split.
    + intros k. unfold set_all in D. rewrite D, map_set_keys.
      intuition congruence.
    + intros k v H. destruct (E k v H) as [Hin|[Hin Hn]]; [auto|].
      destruct (map_set_lookup _ _ _ _ _ (proj1 Hm) Hin) as [[-> ->]|[Hne Hold]].
      * auto.
      * right. split; [exact Hold|]. intros [Heq|Hrest]; congruence.
Qed.

Lemma set_truthy_filter (rows : list jsval) :
  forall m,
    set_truthy date_parse stringify m rows
    = set_all date_parse stringify m
        (filter (fun e => truthy (key e)) rows).
Proof.
  induction rows as [|x rows IH]; intros m; simpl; [reflexivity|].
  unfold set_truthy in *. simpl.
  destruct (truthy (key x)); simpl; apply IH.
Qed.

Lemma keyed_nil : keyed [].
Proof. split; [constructor|intros k v []]. Qed.

Lemma keyed_values m : keyed m -> map key (map snd m) = map fst m.
Proof.
  intros [_ Hk]. induction m as [|[k v] m IH]; simpl; [reflexivity|].
  rewrite (Hk k v (or_introl eq_refl)). f_equal.
  apply IH. intros k' v' H. apply Hk. right. exact H.
Qed.

(** What sorting the values of a map built by two loops gives: distinct
    keys, every key of either list, each row from the second list unless
    its key occurs only in the first, in ascending [sort_time]. *)
Lemma merged_spec (a b : list jsval) :
  let merged :=
    sort_rows date_parse
      (map snd (set_all date_parse stringify
                  (set_all date_parse stringify [] a) b)) in
  NoDup (map key merged)
  /\ (forall x, In x (a ++ b) -> exists y, In y merged /\ key y = key x)
  /\ (forall y, In y merged ->
        In y b \/ (In y a /\ ~ In (key y) (map key b)))
  /\ StronglySorted earlier merged.
Proof.
  intros merged.
  destruct (set_all_spec a [] keyed_nil) as (K1 & D1 & E1).
  destruct (set_all_spec b _ K1) as (K2 & D2 & E2).
  set (M := set_all date_parse stringify
              (set_all date_parse stringify [] a) b) in *.
  assert (P : Permutation merged (map snd M)) by apply sort_rows_perm.
  split; [|split; [|split]].
  - eapply Permutation_NoDup.
    + symmetry. apply Permutation_map. exact P.
    + rewrite (keyed_values M K2). apply K2.
  - intros x Hx.
    assert (Hk : In (key x) (map fst M)).
    { apply D2. apply in_app_or in Hx. destruct Hx as [Hx|Hx].
      - left. apply D1. right. apply in_map. exact Hx.
      - right. apply in_map. exact Hx. }
    apply in_map_iff in Hk. destruct Hk as ([k v] & Hkv & Hin).
    simpl in Hkv. subst k. exists v. split.
    + eapply Permutation_in; [symmetry; exact P|].
      apply (in_map snd) in Hin. exact Hin.
    + apply K2. exact Hin.
  - intros y Hy.
    assert (Hin : In y (map snd M)) by (eapply Permutation_in; eassumption).
    apply in_map_iff in Hin. destruct Hin as ([k v] & Hv & Hin).
    simpl in Hv. subst v.
    assert (Hk : key y = k) by (apply K2; exact Hin). subst k.
    destruct (E2 _ _ Hin) as [Hb|[Hold Hn]]; [auto|].
    right. split; [|exact Hn].
    destruct (E1 _ _ Hold) as [Ha|[[] _]]. exact Ha.
  - apply sort_rows_sorted.
Qed.

(** Among rows with distinct keys, exactly one has a given row's key. *)
Lemma one_per_key (l : list jsval) (x : jsval) :
  NoDup (map key l) -> In x l ->
  length (filter (fun y => key_eqb (key y) (key x)) l) = 1.
Proof.
  induction l as [|y l IH]; simpl; [intros _ []|].
  intros Hn Hin. inversion Hn as [|? ? Hnotin Hn']; subst.
  destruct (key_eqb_spec (key y) (key x)) as [E|E].
  - simpl. f_equal.
    assert (Hnone : forall z, In z l -> key_eqb (key z) (key x) = false).
    { intros z Hz. destruct (key_eqb_spec (key z) (key x)) as [E'|]; auto.
      exfalso. apply Hnotin. rewrite E, <- E'. apply in_map. exact Hz. }
    clear -Hnone. induction l as [|z l IH]; simpl; [reflexivity|].
    rewrite (Hnone z (or_introl eq_refl)). apply IH.
    intros w Hw. apply Hnone. right. exact Hw.
  - destruct Hin as [->|Hin]; [congruence|]. apply IH; assumption.
Qed.

(** *** The keys of the dashboard *)

Lemma stableLogKey_id (r : jsval) :
  vtruthy (field "id" r) = true ->
  key r = Some (to_string (field "id" r)).
Proof.
  intros H. unfold stableLogKey. rewrite H.
  destruct r; simpl in *; try discriminate. reflexivity.
Qed.

Lemma stableLogKey_composite (r : jsval) (t : Z) :
  vtruthy (field "id" r) = false ->
  vtruthy (field "_id" r) = false ->
  vtruthy (field "uuid" r) = false ->
  getTimestampFromLog date_parse r = Some t ->
  vtruthy (field "message" r) = true ->
  key r = Some (Z_to_string t ++ "::"
                ++ substring 0 240 (to_string (field "message" r))).
Proof.
  intros H1 H2 H3 Ht Hm. unfold stableLogKey. rewrite H1, H2, H3, Ht.
  unfold vor. repeat (rewrite Hm; cbv beta iota).
  assert (Hr : vtruthy r = true).
  { unfold getTimestampFromLog in Ht.
    destruct (vtruthy r); [reflexivity|discriminate]. }
  rewrite Hr. reflexivity.
Qed.

Lemma merge_poll_one (cur newest : list jsval) (r : jsval) :
  In r (cur ++ newest) ->
  length (filter (fun y => key_eqb (key y) (key r))
            (merge_poll date_parse stringify cur newest)) = 1.
Proof.
  intros Hin.
  destruct (merged_spec cur newest) as (N & C & _).
  destruct (C r Hin) as (y & Hy & <-).
  apply one_per_key; assumption.
Qed.

End WithDate.

(** C8, with the keys as the code builds them.  On the logs page
    [dedupeLogs] keeps exactly one row per key, the key being the row's
    [id] when that is not null or undefined and otherwise the text
    [timestamp::message]: two rows with the same id
    (a number, a string or a boolean) leave one row under that id, and two
    rows without id, with equal timestamps and equal non-empty messages,
    leave one row.  The dashboard merge keeps exactly one row per
    [stableLogKey]: two rows with the same truthy id leave one row, and two
    rows without a truthy [id], [_id] or [uuid], with the same parsed event
    time and equal non-empty messages, leave one row. *)
Theorem C8_one_row_per_key (date_parse : string -> option Z)
    (stringify : jsval -> string) :
  (forall arr r1 r2, In r1 arr -> In r2 arr ->
     (nullish (field "id" r1) = false ->
      DedupeFacts.primitive (field "id" r1) = true ->
      field "id" r2 = field "id" r1 ->
      LogsPage.dedupe_key r2 = LogsPage.dedupe_key r1
      /\ DedupeFacts.rows_with_key (field "id" r1) (LogsPage.dedupeLogs arr) = 1)
     /\ (nullish (field "id" r1) = true ->
         nullish (field "id" r2) = true ->
         field "timestamp" r1 = field "timestamp" r2 ->
         field "message" r1 = field "message" r2 ->
         vtruthy (field "message" r1) = true ->
         LogsPage.dedupe_key r2 = LogsPage.dedupe_key r1
         /\ DedupeFacts.rows_with_key (LogsPage.dedupe_key r1)
              (LogsPage.dedupeLogs arr) = 1))
  /\ (forall cur newest r1 r2,
        In r1 (cur ++ newest) -> In r2 (cur ++ newest) ->
        let key := stableLogKey date_parse stringify in
        let merged := merge_poll date_parse stringify cur newest in
        (vtruthy (field "id" r1) = true ->
         field "id" r2 = field "id" r1 ->
         key r2 = key r1
         /\ length (filter (fun y => key_eqb (key y) (key r1)) merged) = 1)
        /\ (forall t,
              vtruthy (field "id" r1) = false ->
              vtruthy (field "_id" r1) = false ->
              vtruthy (field "uuid" r1) = false ->
              vtruthy (field "id" r2) = false ->
              vtruthy (field "_id" r2) = false ->
              vtruthy (field "uuid" r2) = false ->
              getTimestampFromLog date_parse r1 = Some t ->
              getTimestampFromLog date_parse r2 = Some t ->
              field "message" r1 = field "message" r2 ->
              vtruthy (field "message" r1) = true ->
              key r2 = key r1
              /\ length (filter (fun y => key_eqb (key y) (key r1)) merged) = 1)).
Proof.
  split.
  - intros arr r1 r2 H1 H2. split.
    + intros Hn Hp E.
      assert (K1 := DedupeFacts.dedupe_key_id r1 Hn).
      assert (K2 : LogsPage.dedupe_key r2 = field "id" r2)
        by (apply DedupeFacts.dedupe_key_id; rewrite E; exact Hn).
      split; [congruence|].
      rewrite <- K1. apply DedupeFacts.dedupeLogs_one; [exact H1|].
      rewrite K1. exact Hp.
    + intros N1 N2 Et Em Tm.
      destruct (DedupeFacts.dedupe_key_composite r1 r2 N1 N2 Et Em Tm)
        as [E P].
      split; [symmetry; exact E|].
      apply DedupeFacts.dedupeLogs_one; assumption.
  - intros cur newest r1 r2 H1 H2 key merged. split.
    + intros T E. split.
      * unfold key. rewrite !stableLogKey_id by (rewrite ?E; exact T).
        rewrite E. reflexivity.
      * apply merge_poll_one. exact H1.
    + intros t A1 A2 A3 B1 B2 B3 T1 T2 Em Tm. split.
      * unfold key.
        rewrite (stableLogKey_composite _ _ r1 t), (stableLogKey_composite _ _ r2 t);
          auto; rewrite <- ?Em; auto.
      * apply merge_poll_one. exact H1.
Qed.

(** An instance of C8: two rows with id 1, on the logs page and in the
    dashboard merge. *)
Lemma C8_witness :
  DedupeFacts.rows_with_key (VNum 1) (LogsPage.dedupeLogs [row_1a; row_1b]) = 1
  /\ length
       (filter
          (fun y => key_eqb (stableLogKey no_date_string flat_json y)
                            (stableLogKey no_date_string flat_json row_1a))
          (merge_poll no_date_string flat_json [row_1a] [row_1b])) = 1.
Proof.
  destruct (C8_one_row_per_key no_date_string flat_json) as [L D].
  split.
  - exact (proj2 (proj1 (L [row_1a; row_1b] row_1a row_1b
                           (or_introl eq_refl) (or_intror (or_introl eq_refl)))
                    eq_refl eq_refl eq_refl)).
  - exact (proj2 (proj1 (D [row_1a] [row_1b] row_1a row_1b
                           (or_introl eq_refl) (or_intror (or_introl eq_refl)))
                    eq_refl eq_refl)).
Defined.

(** C8 as stated fails in the dashboard merge for the id 0, which
    [stableLogKey] does not take for an id, whatever the date parser and
    the serializer: two rows with id 0 are both kept.  It fails on the logs
    page for two rows without id whose timestamps are equal and whose
    messages are equal and empty: the key falls back to the raw line, and
    both rows are kept. *)
Lemma C8_counterexample :
  field "id" row_0a = field "id" row_0b
  /\ (fun dp sj => merge_poll dp sj [] [row_0a; row_0b])
     = (fun _ _ => [row_0a; row_0b])
  /\ field "timestamp" row_raw_a = field "timestamp" row_raw_b
  /\ field "message" row_raw_a = field "message" row_raw_b
  /\ LogsPage.dedupeLogs [row_raw_a; row_raw_b] = [row_raw_a; row_raw_b].
Proof. repeat split; vm_compute; reflexivity. Qed.

(** C9, with the order as the code computes it.  A poll merges the cache
    with the fetched rows: the merged rows have distinct keys, every key of
    the cache and of the fetch is present, a row comes from the fetch
    unless its key is only in the
    cache, and the rows are in ascending order of their event time, where a
    row without a parsable timestamp counts as time 0, the epoch; the cache
    written back is a final segment of the merged rows.  The initial merge
    does the same for the rows whose key is not empty. *)
Theorem C9_merge_sorted (date_parse : string -> option Z)
    (stringify : jsval -> string) (cur newest existing combined : list jsval) :
  let key := stableLogKey date_parse stringify in
  let merged := merge_poll date_parse stringify cur newest in
  let merged0 := merge_initial date_parse stringify existing combined in
  NoDup (map key merged)
  /\ (forall x, In x (cur ++ newest) -> exists y, In y merged /\ key y = key x)
  /\ (forall y, In y merged ->
        In y newest \/ (In y cur /\ ~ In (key y) (map key newest)))
  /\ StronglySorted
       (fun a b => (sort_time date_parse a <= sort_time date_parse b)%Z) merged
  /\ (forall a, getTimestampFromLog date_parse a = None ->
        sort_time date_parse a = 0%Z)
  /\ (exists dropped, merged = (dropped ++ writeCache merged)%list)
  /\ NoDup (map key merged0)
  /\ (forall x, In x (existing ++ combined) -> truthy (key x) = true ->
        exists y, In y merged0 /\ key y = key x)
  /\ (forall y, In y merged0 -> In y (existing ++ combined))
  /\ StronglySorted
       (fun a b => (sort_time date_parse a <= sort_time date_parse b)%Z) merged0.
Proof.
  intros key merged merged0.
  destruct (merged_spec date_parse stringify cur newest) as (N & C & O & S).
  assert (E0 : merged0
               = sort_rows date_parse
                   (map snd (set_all date_parse stringify
                               (set_all date_parse stringify []
                                  (filter (fun e => truthy (key e)) existing))
                               (filter (fun e => truthy (key e)) combined)))).
  { unfold merged0, merge_initial. rewrite !set_truthy_filter. reflexivity. }
  destruct (merged_spec date_parse stringify
              (filter (fun e => truthy (key e)) existing)
              (filter (fun e => truthy (key e)) combined))
    as (N0 & C0 & O0 & S0).
  rewrite <- E0 in N0, C0, O0, S0.
  repeat split; auto.
  - intros a Ha. unfold sort_time. rewrite Ha. reflexivity.
  - exists (firstn (length merged - 5000) merged). unfold writeCache.
    symmetry. apply firstn_skipn.
  - intros x Hx Hk. apply C0. apply in_or_app.
    apply in_app_or in Hx. destruct Hx as [Hx|Hx]; [left|right];
      apply filter_In; auto.
  - intros y Hy. apply in_or_app.
    destruct (O0 y Hy) as [H|[H _]]; apply filter_In in H; tauto.
Qed.

(** An instance of C9: the cached row with id 1 is replaced by the fetched
    one, and the key stays single. *)
Lemma C9_witness :
  NoDup (map (stableLogKey no_date_string flat_json)
           (merge_poll no_date_string flat_json [row_1a; row_untimed] [row_1b])).
Proof.
  exact (proj1 (C9_merge_sorted no_date_string flat_json
                  [row_1a; row_untimed] [row_1b] [] [])).
Defined.

(** C9 as stated fails for a row dated before the epoch: whatever the date
    parser and the serializer, the row without a timestamp is sorted after
    it, not earliest. *)
Lemma C9_counterexample :
  (fun dp => getTimestampFromLog dp row_untimed) = (fun _ => None)
  /\ (fun dp sj => merge_poll dp sj [row_untimed] [row_before_epoch])
     = (fun _ _ => [row_before_epoch; row_untimed]).
Proof. split; vm_compute; reflexivity. Qed.

End MergeFacts.

(** ** More about the analysis trigger and the poller *)
Module PollerMore.
Import Poller PollerFacts.

#[local] Hint Resolve tame_refl tame_setError tame_setAnalysis tame_setLoading
  tame_setPendingJob tame_settle tame_stopPolling tame_send tame_if_mounted
  : tame.

Lemma truthy_some (x : string) : x <> "" -> truthy (Some x) = true.
Proof. intros H. simpl. apply String.eqb_neq in H. rewrite H. reflexivity. Qed.

Lemma or_default_some (x d : string) : x <> "" -> or_default (Some x) d = x.
Proof. intros H. simpl. apply String.eqb_neq in H. rewrite H. reflexivity. Qed.

Lemma truthy_or_default (o : option string) (d : string) :
  truthy o = true -> o = Some (or_default o d).
Proof.
  destruct o as [x|]; simpl; [|discriminate].
  destruct (x =? ""); [discriminate|reflexivity].
Qed.

(** The job id read from a 202 body: [(body && (body.job_id || body.job)) || null]. *)
Definition queued_job (r : http_resp) : option string :=
  or_null match r_body r with
          | Some b => or_else (b_job_id b) (b_job b)
          | None => None
          end.

(** A 202 without a job id: the job is tracked as queued with no id, the
    error says so, and no poll starts (no status check, no interval).  The
    tracked status is still a busy one, so the start guard refuses from
    then on although nothing is being polled. *)
Lemma queued_without_job_id (s : st) (rid : nat) (f now : string)
    (r : http_resp) :
  lookup_req rid s = Some (ReqAnalyze f) ->
  r_code r = 202 ->
  queued_job r = None ->
  let s' := step s (EvSettled rid now (Got r)) in
  error s' = Some "Analysis queued but server returned no job id"
  /\ (exists p, pendingJob s' = Some p /\ jobId p = None
                /\ status p = Some "queued")
  /\ netlog s' = netlog s
  /\ timers s' = timers s /\ pollRef s' = pollRef s
  /\ loading s' = false
  /\ busy (pendingJob s') = true.
Proof.
  intros Hl Hc Hj s'. subst s'. unfold step. rewrite Hl.
  unfold runAnalysisForFile_settled. rewrite Hc.
  change (202 =? 202)%nat with true. cbv iota.
  fold (queued_job r). rewrite Hj. simpl truthy. cbv iota.
  destruct (mounted _); cbn; repeat split; eauto.
Qed.

Lemma queued_without_job_id_witness :
  netlog (run (init (Some "f1"))
              [EvStart;
               EvSettled 0 "t0"
                 (Got {| r_code := 202; r_statusText := "Accepted";
                         r_text := ""; r_body := None |})])
  = [NetAnalyze "f1"].
Proof.
  destruct (queued_without_job_id (step (init (Some "f1")) EvStart) 0 "f1" "t0"
              {| r_code := 202; r_statusText := "Accepted";
                 r_text := ""; r_body := None |})
    as (_ & _ & N & _).
  - vm_compute. reflexivity.
  - reflexivity.
  - reflexivity.
  - exact N.
Defined.

(** What Start leaves when it is let through: the old result, error and
    tracked job are reset, the analyze request is in flight under the next
    request id, and the intervals are as they were. *)
Lemma startAnalysis_sent (s : st) (f : string) :
  Inv s ->
  lastFileId s = Some f -> f <> "" ->
  busy (pendingJob s) = false ->
  let s1 := step s EvStart in
  lookup_req (next_req s) s1 = Some (ReqAnalyze f)
  /\ netlog s1 = (netlog s ++ [NetAnalyze f])%list
  /\ error s1 = None /\ analysis s1 = None /\ pendingJob s1 = None
  /\ loading s1 = true
  /\ timers s1 = timers s /\ pollRef s1 = pollRef s
  /\ mounted s1 = mounted s /\ next_handle s1 = next_handle s
  /\ next_req s1 = S (next_req s)
  /\ lastFileId s1 = Some f
  /\ Inv s1.
Proof.
  intros HI Hf Hne Hb s1.
  assert (HI1 : Inv s1) by (apply step_Inv; exact HI).
  subst s1. unfold step, startAnalysis in *. simpl lastFileId in *.
  simpl pendingJob in *. rewrite Hf in *. rewrite (truthy_some f Hne) in *.
  simpl negb in *. cbv iota in *. rewrite Hb in *.
  unfold runAnalysisForFile in *. rewrite (truthy_some f Hne) in *.
  simpl negb in *. cbv iota in *. rewrite (or_default_some f "" Hne) in *.
  split.
  { match goal with |- lookup_req _ (send _ _ ?x) = _ =>
      exact (lookup_req_sent (NetAnalyze f) (ReqAnalyze f) x (proj2 HI)) end. }
  repeat (split; [reflexivity|]). split; [exact Hf|exact HI1].
Qed.

(** An immediate result.  When the analyze request is answered 2xx other
    than 202, the body (or, without a JSON body, the text as summary) is the
    analysis; no job is tracked, no status check is sent and no interval is
    started; the loading flag is cleared. *)
Lemma immediate_result (s : st) (f now : string) (r : http_resp) :
  reachable s ->
  lastFileId s = Some f -> f <> "" ->
  busy (pendingJob s) = false ->
  mounted s = true ->
  r_ok r = true -> r_code r <> 202 ->
  let s2 := step (step s EvStart) (EvSettled (next_req s) now (Got r)) in
  analysis s2
  = match r_body r with
    | Some b => Some (ABody b)
    | None => if r_text r =? "" then None else Some (ASummary (r_text r))
    end
  /\ pendingJob s2 = None /\ error s2 = None /\ loading s2 = false
  /\ netlog s2 = (netlog s ++ [NetAnalyze f])%list
  /\ timers s2 = timers s.
Proof.
  intros Hr Hf Hne Hb Hm Hok Hc s2. apply reachable_Inv in Hr.
  destruct (startAnalysis_sent s f Hr Hf Hne Hb)
    as (L & N & E & A & P & _ & T & _ & M & _).
  rewrite Hm in M. subst s2.
  set (s1 := step s EvStart) in *. clearbody s1.
  unfold step. rewrite L. unfold runAnalysisForFile_settled.
  apply Nat.eqb_neq in Hc. rewrite Hc, Hok.
  cbn [mounted settle setInflight setAnalysis]. rewrite ?M. cbv iota.
  cbn [mounted settle setInflight setAnalysis]. rewrite ?M. cbv iota.
  cbn [analysis pendingJob error loading netlog timers setLoading setAnalysis
       settle setInflight].
  rewrite N, E, P, T. repeat split; reflexivity.
Qed.

Lemma immediate_result_witness :
  analysis
    (step (step (init (Some "f1")) EvStart)
          (EvSettled 0 "t0"
             (Got {| r_code := 200; r_statusText := "OK"; r_text := "fine";
                     r_body := None |})))
  = Some (ASummary "fine").
Proof.
  destruct (immediate_result (init (Some "f1")) "f1" "t0"
              {| r_code := 200; r_statusText := "OK"; r_text := "fine";
                 r_body := None |}) as (A & _).
  - exists (Some "f1"), []. reflexivity.
  - reflexivity.
  - discriminate.
  - reflexivity.
  - reflexivity.
  - reflexivity.
  - discriminate.
  - exact A.
Defined.

(** A failed trigger.  A response that is neither 2xx nor 202 sets the
    error to the server's message: the body's [detail], [error] or
    [message] (the first that is not empty), else the text, else the status
    line; the message is never empty, no job is tracked and the loading flag
    is cleared. *)
Lemma failed_trigger (s : st) (f now : string) (r : http_resp) :
  reachable s ->
  lastFileId s = Some f -> f <> "" ->
  busy (pendingJob s) = false ->
  mounted s = true ->
  r_ok r = false ->
  let s2 := step (step s EvStart) (EvSettled (next_req s) now (Got r)) in
  error s2 = Some (resp_msg r)
  /\ resp_msg r <> ""
  /\ (forall b d, r_body r = Some b -> b_detail b = Some d -> d <> "" ->
        resp_msg r = d)
  /\ pendingJob s2 = None /\ analysis s2 = None /\ loading s2 = false
  /\ netlog s2 = (netlog s ++ [NetAnalyze f])%list.
Proof.
  intros Hr Hf Hne Hb Hm Hok s2. apply reachable_Inv in Hr.
  destruct (startAnalysis_sent s f Hr Hf Hne Hb)
    as (L & N & E & A & P & _ & T & _ & M & _).
  rewrite Hm in M.
  assert (Hc : (r_code r =? 202)%nat = false).
  { apply Nat.eqb_neq. intros C. unfold r_ok in Hok. rewrite C in Hok.
    discriminate. }
  assert (E2 : s2 = setLoading false
                      (setError (Some (resp_msg r)) (settle (next_req s) (step s EvStart)))).
  { subst s2. set (s1 := step s EvStart) in *. clearbody s1.
    unfold step. rewrite L. unfold runAnalysisForFile_settled.
    rewrite Hc, Hok. cbn [mounted setError settle setInflight]. rewrite ?M.
    reflexivity. }
  rewrite E2. clear E2 s2.
  set (s1 := step s EvStart) in *. clearbody s1.
  cbn [analysis pendingJob error loading netlog timers setLoading setError
       settle setInflight].
  split; [reflexivity|]. split; [|split; [|rewrite N, A, P; repeat split; reflexivity]].
  - unfold resp_msg.
    destruct (truthy _) eqn:T1.
    + destruct (match r_body r with Some _ => _ | None => _ end) as [x|];
        simpl in *; [|discriminate].
      destruct (String.eqb_spec x ""); [discriminate|assumption].
    + destruct (String.eqb_spec (r_text r) "") as [E0|E0]; simpl; [|exact E0].
      destruct (nat_to_string (r_code r)); discriminate.
  - intros b d Hbody Hd Hdne. unfold resp_msg. rewrite Hbody.
    unfold or_else at 2. rewrite Hd, (truthy_some d Hdne).
    unfold or_else. rewrite (truthy_some d Hdne).
    rewrite (truthy_some d Hdne). apply or_default_some. exact Hdne.
Qed.

Lemma failed_trigger_witness :
  error
    (step (step (init (Some "f1")) EvStart)
          (EvSettled 0 "t0" (Got server_error)))
  = Some "500 Internal Server Error".
Proof.
  destruct (failed_trigger (init (Some "f1")) "f1" "t0" server_error)
    as (E & _).
  - exists (Some "f1"), []. reflexivity.
  - reflexivity.
  - discriminate.
  - reflexivity.
  - reflexivity.
  - reflexivity.
  - exact E.
Defined.

(** *** A trigger answered 202 *)

Lemma reachable_step (s : st) (e : event) :
  reachable s -> reachable (step s e).
Proof.
  intros (fid & es & <-). exists fid, (es ++ [e])%list.
  unfold run. rewrite fold_left_app. reflexivity.
Qed.

Lemma queued_job_some (r : http_resp) (j : string) :
  queued_job r = Some j ->
  truthy (queued_job r) = true /\ or_default (queued_job r) "" = j /\ j <> "".
Proof.
  unfold queued_job, or_null.
  destruct (match r_body r with Some _ => _ | None => _ end) as [x|];
    [|discriminate].
  destruct (truthy (Some x)) eqn:T; [|discriminate].
  intros H. injection H as ->. split; [exact T|]. simpl in T.
  destruct (String.eqb_spec j ""); [discriminate|].
  split; [|assumption]. apply or_default_some. assumption.
Qed.

Lemma pollJobStatus_frame (job : option string) (max : nat) (s : st) :
  loading (pollJobStatus job max s) = loading s
  /\ analysis (pollJobStatus job max s) = analysis s
  /\ lastFileId (pollJobStatus job max s) = lastFileId s.
Proof.
  unfold pollJobStatus. destruct (negb (truthy job)); [repeat split|].
  destruct (pollRef s); repeat split.
Qed.

(** The state in which a 202 with a job id leaves the component, whether
    or not it is still mounted. *)
Lemma accepted_state (s : st) (rid : nat) (f now j : string) (r : http_resp) :
  Inv s ->
  lookup_req rid s = Some (ReqAnalyze f) ->
  r_code r = 202 -> queued_job r = Some j ->
  let s' := step s (EvSettled rid now (Got r)) in
  timers s' = [{| t_handle := next_handle s; t_job := j; t_max := 120 |}]
  /\ pollRef s' = Some (next_handle s)
  /\ netlog s' = (netlog s ++ [NetStatus j])%list
  /\ lookup_req (next_req s) s' = Some (ReqStatus (next_handle s) j 120)
  /\ next_req s' = S (next_req s)
  /\ attempts s' (next_handle s) = 1
  /\ pendingJob s'
     = Some {| jobId := Some j; status := Some "queued";
               message :=
                 Some (or_default
                         (match r_body r with
                          | Some b => b_message b
                          | None => None
                          end) "Queued for analysis");
               lastChecked := Some now |}
  /\ loading s' = false /\ error s' = error s /\ analysis s' = analysis s
  /\ mounted s' = mounted s /\ lastFileId s' = lastFileId s
  /\ Inv s'.
Proof.
  intros HI Hl Hc Hj s'.
  assert (HI' : Inv s') by (apply step_Inv; exact HI).
  destruct (queued_job_some r j Hj) as (Ht & Hd & Hne).
  set (s0 := setLoading false
               (setPendingJob
                  (Some {| jobId := queued_job r; status := Some "queued";
                           message :=
                             Some (or_default
                                     (match r_body r with
                                      | Some b => b_message b
                                      | None => None
                                      end) "Queued for analysis");
                           lastChecked := Some now |}) (settle rid s))).
  assert (H0 : Inv s0).
  { eapply tame_Inv; [exact HI|]. subst s0. auto with tame. }
  assert (E : s' = (let x := pollJobStatus (queued_job r) 120 s0 in
                    if mounted x then setLoading false x else x)).
  { subst s' s0. unfold step. rewrite Hl. unfold runAnalysisForFile_settled.
    rewrite Hc. change (202 =? 202)%nat with true. cbv iota.
    fold (queued_job r). rewrite Ht. reflexivity. }
  destruct (pollJobStatus_started (queued_job r) 120 s0 H0 Ht)
    as (T & P & N & F & R & A & Er & Pj & M).
  destruct (pollJobStatus_frame (queued_job r) 120 s0) as (Lo & An & Lf).
  rewrite Hd in T, N, F.
  assert (L : lookup_req (next_req s) (pollJobStatus (queued_job r) 120 s0)
              = Some (ReqStatus (next_handle s) j 120)).
  { unfold lookup_req. rewrite F.
    pose proof (lookup_req_fresh (next_req s) s0 (proj2 H0) (le_n _)) as Q.
    unfold lookup_req in Q.
    destruct (find _ (inflight s0)) eqn:E0; [discriminate|].
    rewrite (find_app_none _ _ _ E0). simpl. rewrite Nat.eqb_refl.
    reflexivity. }
  clearbody s'. subst s'. cbv zeta. cbv zeta in HI'.
  set (x := pollJobStatus (queued_job r) 120 s0) in *.
  change (next_handle s0) with (next_handle s) in *.
  change (next_req s0) with (next_req s) in *.
  change (netlog s0) with (netlog s) in *.
  change (error s0) with (error s) in *.
  change (analysis s0) with (analysis s) in *.
  change (mounted s0) with (mounted s) in *.
  change (lastFileId s0) with (lastFileId s) in *.
  change (loading s0) with false in *.
  assert (Pj' : pendingJob x
                = Some {| jobId := Some j; status := Some "queued";
                          message :=
                            Some (or_default
                                    (match r_body r with
                                     | Some b => b_message b
                                     | None => None
                                     end) "Queued for analysis");
                          lastChecked := Some now |}).
  { rewrite Pj. subst s0. cbn [pendingJob setLoading setPendingJob].
    rewrite Hj. reflexivity. }
  clearbody x.
  destruct (mounted x) eqn:Mx;
    cbn [timers pollRef netlog next_req attempts pendingJob loading error
         analysis mounted lastFileId setLoading];
    (repeat (split; [first [assumption | reflexivity | congruence]|]));
    exact HI'.
Qed.

(** A 202 with a job id: the job is tracked as queued, the loading flag is
    cleared, and a poll with the default budget of 120 attempts starts; its
    one interval is live and its first status check is in flight. *)
Lemma accepted_starts_poll (s : st) (rid : nat) (f now j : string)
    (r : http_resp) :
  reachable s ->
  lookup_req rid s = Some (ReqAnalyze f) ->
  r_code r = 202 -> queued_job r = Some j ->
  let s' := step s (EvSettled rid now (Got r)) in
  timers s' = [{| t_handle := next_handle s; t_job := j; t_max := 120 |}]
  /\ pollRef s' = Some (next_handle s)
  /\ netlog s' = (netlog s ++ [NetStatus j])%list
  /\ lookup_req (next_req s) s' = Some (ReqStatus (next_handle s) j 120)
  /\ (exists p, pendingJob s' = Some p /\ jobId p = Some j
                /\ status p = Some "queued")
  /\ busy (pendingJob s') = true
  /\ loading s' = false /\ error s' = error s.
Proof.
  intros Hr Hl Hc Hj s'. apply reachable_Inv in Hr.
  destruct (accepted_state s rid f now j r Hr Hl Hc Hj)
    as (T & P & N & L & _ & _ & Pj & Lo & Er & _).
  fold s' in T, P, N, L, Pj, Lo, Er.
  repeat (split; [assumption|]).
  split; [eexists; split; [exact Pj|split; reflexivity]|].
  split; [rewrite Pj; reflexivity|]. split; assumption.
Qed.

Lemma accepted_starts_poll_witness :
  netlog (run (init (Some "f1"))
              [EvStart; EvSettled 0 "t0" (Got (accepted "j1"))])
  = [NetAnalyze "f1"; NetStatus "j1"].
Proof.
  destruct (accepted_starts_poll (step (init (Some "f1")) EvStart) 0 "f1" "t0"
              "j1" (accepted "j1")) as (_ & _ & N & _).
  - exists (Some "f1"), [EvStart]. reflexivity.
  - vm_compute. reflexivity.
  - reflexivity.
  - reflexivity.
  - exact N.
Defined.

(** *** Unmounting *)

(** The cleanup of the mount effect clears the interval: however timers,
    poll responses and cancel follow, no interval is live and no status
    check is sent any more. *)
Lemma unmount_stops_polling (s : st) (es : list event) :
  reachable s ->
  let s' := step s EvUnmount in
  all_passive s' es = true ->
  mounted s' = false
  /\ timers (run s' es) = []
  /\ status_calls (run s' es) = status_calls s.
Proof.
  intros Hr s' Hp. apply reachable_Inv in Hr.
  assert (HI : Inv s') by (apply step_Inv; exact Hr).
  assert (T : timers s' = []).
  { subst s'. simpl. apply (clear_current (setMounted false s) Hr). }
  assert (N : status_calls s' = status_calls s).
  { subst s'. unfold step, unmount, status_calls.
    destruct (pollRef _); reflexivity. }
  split; [subst s'; unfold step, unmount; destruct (pollRef _); reflexivity|].
  destruct (passive_run "" es s' HI) as (k & Hk & Hz); auto.
  - rewrite T. constructor.
  - destruct (Hz T) as [-> Tz]. split; [exact Tz|].
    rewrite Hk, N. simpl. apply app_nil_r.
Qed.

Lemma unmount_stops_polling_witness :
  timers (run (step polling_j1 EvUnmount) [EvTick 1; EvTick 1]) = [].
Proof.
  destruct (unmount_stops_polling polling_j1 [EvTick 1; EvTick 1])
    as (_ & T & _).
  - exists (Some "f1"), [EvPoll (Some "j1") 120]. reflexivity.
  - vm_compute. reflexivity.
  - exact T.
Defined.

(** The cleanup does not reach an analyze request in flight.  When its 202
    arrives after the unmount, [pollJobStatus] runs all the same: an
    interval is started on the unmounted component and status checks are
    sent, the first at once and one more each time the interval fires. *)
Lemma late_accept_after_unmount (s : st) (rid : nat) (f now j : string)
    (r : http_resp) :
  reachable s ->
  lookup_req rid s = Some (ReqAnalyze f) ->
  r_code r = 202 -> queued_job r = Some j ->
  let s' := step (step s EvUnmount) (EvSettled rid now (Got r)) in
  mounted s' = false
  /\ timers s' = [{| t_handle := next_handle s; t_job := j; t_max := 120 |}]
  /\ netlog s' = (netlog s ++ [NetStatus j])%list
  /\ netlog (step s' (EvTick (next_handle s)))
     = (netlog s ++ [NetStatus j; NetStatus j])%list.
Proof.
  intros Hr Hl Hc Hj s'. apply reachable_Inv in Hr.
  assert (HI : Inv (step s EvUnmount)) by (apply step_Inv; exact Hr).
  assert (U : mounted (step s EvUnmount) = false
              /\ next_handle (step s EvUnmount) = next_handle s
              /\ next_req (step s EvUnmount) = next_req s
              /\ netlog (step s EvUnmount) = netlog s
              /\ lookup_req rid (step s EvUnmount) = lookup_req rid s).
  { unfold step, unmount, lookup_req. destruct (pollRef _); repeat split. }
  destruct U as (U1 & U2 & U3 & U4 & U5). rewrite Hl in U5.
  destruct (accepted_state (step s EvUnmount) rid f now j r HI U5 Hc Hj)
    as (T & _ & N & _ & _ & _ & _ & _ & _ & _ & M & _).
  fold s' in T, N, M. rewrite U2 in T. rewrite U4 in N. rewrite U1 in M.
  repeat (split; [assumption|]).
  unfold step at 1. rewrite T. cbn [find t_handle]. rewrite Nat.eqb_refl.
  cbn [t_handle t_job t_max]. unfold doPoll.
  cbn [netlog send setAttempts]. rewrite N, <- app_assoc. reflexivity.
Qed.

Lemma late_accept_after_unmount_witness :
  timers (run (init (Some "f1"))
              [EvStart; EvUnmount; EvSettled 0 "t0" (Got (accepted "j1"))])
  = [{| t_handle := 1; t_job := "j1"; t_max := 120 |}].
Proof.
  destruct (late_accept_after_unmount (step (init (Some "f1")) EvStart) 0
              "f1" "t0" "j1" (accepted "j1")) as (_ & T & _).
  - exists (Some "f1"), [EvStart]. reflexivity.
  - vm_compute. reflexivity.
  - reflexivity.
  - reflexivity.
  - exact T.
Defined.

(** *** Cancelling *)

Definition cancelled (p : option pending_job) : option pending_job :=
  match p with
  | Some p => Some {| jobId := jobId p; status := Some "cancelled";
                      message := message p; lastChecked := lastChecked p |}
  | None => None
  end.

Lemma cancel_state (s : st) (h : nat) :
  Inv s -> pollRef s = Some h ->
  step s EvCancel
  = setLoading false
      (setError (Some "Polling cancelled by user.")
         (setPendingJob (cancelled (pendingJob s)) (stopPolling s)))
  /\ timers (stopPolling s) = [] /\ pollRef (stopPolling s) = None.
Proof.
  intros HI P. destruct (stopPolling_timers s HI) as [T Q].
  split; [|split; assumption].
  unfold step, cancelPoll. rewrite P.
  destruct (stopPolling_frame s) as (_ & _ & _ & F & _). rewrite F.
  reflexivity.
Qed.

(** Cancel while a poll is live: the interval is cleared, the tracked job
    is marked cancelled, the error says so and the loading flag is cleared;
    nothing is sent.  A second cancel does nothing, no later timer,
    response, cancel or unmount event sends a status check, and the start
    guard lets the next Start through. *)
Lemma cancel_stops_polling (s : st) (h : nat) :
  reachable s -> pollRef s = Some h ->
  let s' := step s EvCancel in
  timers s' = [] /\ pollRef s' = None
  /\ error s' = Some "Polling cancelled by user." /\ loading s' = false
  /\ pendingJob s' = cancelled (pendingJob s)
  /\ netlog s' = netlog s
  /\ step s' EvCancel = s'
  /\ (forall es, all_passive s' es = true ->
        status_calls (run s' es) = status_calls s')
  /\ (forall f, lastFileId s = Some f -> f <> "" ->
        netlog (step s' EvStart) = (netlog s ++ [NetAnalyze f])%list).
Proof.
  intros Hr P s'. apply reachable_Inv in Hr.
  assert (HI : Inv s') by (apply step_Inv; exact Hr).
  destruct (cancel_state s h Hr P) as (E & T & Q). fold s' in E.
  destruct (stopPolling_frame s) as (F1 & _).
  assert (L : lastFileId (stopPolling s) = lastFileId s)
    by (unfold stopPolling; destruct (pollRef s); reflexivity).
  clearbody s'. subst s'.
  cbn [timers pollRef error loading pendingJob netlog setLoading setError
       setPendingJob].
  do 6 (split; [first [assumption | reflexivity]|]).
  split; [|split].
  - unfold step, cancelPoll. cbn [pollRef setLoading setError setPendingJob].
    rewrite Q. reflexivity.
  - intros es Hp.
    match goal with |- status_calls (run ?x es) = _ =>
      destruct (passive_run "" es x HI) as (k & Hk & Hz); auto;
        [cbn [timers setLoading setError setPendingJob]; rewrite T;
         constructor|];
      destruct (Hz T) as [-> _]; rewrite Hk; simpl; apply app_nil_r
    end.
  - intros f Hf Hne.
    assert (B : busy (cancelled (pendingJob s)) = false).
    { destruct (pendingJob s); reflexivity. }
    match goal with |- netlog (step ?x EvStart) = _ =>
      destruct (startAnalysis_sent x f HI) as (_ & N & _); auto;
        [cbn [lastFileId setLoading setError setPendingJob]; congruence|];
        rewrite N
    end.
    cbn [netlog setLoading setError setPendingJob]. rewrite F1. reflexivity.
Qed.

Lemma cancel_stops_polling_witness :
  timers (step polling_j1 EvCancel) = []
  /\ netlog (step (step polling_j1 EvCancel) EvStart)
     = [NetStatus "j1"; NetAnalyze "f1"].
Proof.
  destruct (cancel_stops_polling polling_j1 1)
    as (T & _ & _ & _ & _ & _ & _ & _ & S).
  - exists (Some "f1"), [EvPoll (Some "j1") 120]. reflexivity.
  - reflexivity.
  - split; [exact T|]. apply (S "f1"); [reflexivity|discriminate].
Defined.

(** *** From Start to the attached result *)

(** One round of a poll that goes on: the response is non-terminal and
    within the budget, then the interval fires. *)
Lemma round_state h job n c0 mnt k rid s now r :
  waiting h job n c0 mnt k rid s -> k < n -> non_terminal (now, r) ->
  step (step s (EvSettled rid now (Got r))) (EvTick h)
  = doPoll h job n
      (if mounted s
       then setPendingJob
              (Some (tick_pending job (status_of (r_body r)) now (r_body r)
                       (pendingJob s))) (settle rid s)
       else settle rid s).
Proof.
  intros (T & P & A & L & N & F & C & M) Hk Hg.
  unfold step at 2. rewrite L.
  rewrite (doPoll_status_nonterminal _ _ _ _ _ _ Hg).
  cbv zeta. change (attempts (settle rid s) h) with (attempts s h).
  rewrite A. apply Nat.leb_gt in Hk. rewrite Hk.
  change (mounted (settle rid s)) with (mounted s).
  destruct (mounted s); unfold step;
    cbn [timers setPendingJob settle setInflight];
    rewrite T; cbn [find t_handle]; rewrite Nat.eqb_refl; reflexivity.
Qed.

(** What a poll that is going well shows: no error, no result yet, the
    loading flag cleared, the tracked job is [job], and the requests sent
    since [base] are [k] status checks of [job]. *)
Definition on_track (job : string) (base : list net_call) (k : nat)
    (s : st) : Prop :=
  error s = None /\ analysis s = None /\ loading s = false
  /\ netlog s = (base ++ repeat (NetStatus job) k)%list
  /\ exists p, pendingJob s = Some p /\ jobId p = Some job.

Lemma rounds_on_track h job n c0 base resps :
  Forall non_terminal resps ->
  forall k rid s,
    waiting h job n c0 true k rid s -> on_track job base k s ->
    k + length resps <= n ->
    waiting h job n c0 true (k + length resps) (rid + length resps)
      (prompt_rounds resps h rid s)
    /\ on_track job base (k + length resps) (prompt_rounds resps h rid s).
Proof.
  induction 1 as [|[now r] rest Hg _ IH]; intros k rid s W O Hk.
  - cbn [length prompt_rounds]. rewrite !Nat.add_0_r. split; assumption.
  - cbn [length] in *. cbn [prompt_rounds].
    replace (k + S (length rest)) with (S k + length rest) by lia.
    replace (rid + S (length rest)) with (S rid + length rest) by lia.
    apply IH; [apply round_again; [assumption|lia|assumption]| |lia].
    rewrite (round_state h job n c0 true k rid s now r W) by (assumption || lia).
    destruct W as (_ & _ & _ & _ & _ & _ & _ & M). rewrite M.
    destruct O as (O1 & O2 & O3 & O4 & O5).
    unfold on_track, doPoll.
    cbn [error analysis loading netlog pendingJob send setAttempts
         setPendingJob settle setInflight].
    repeat (split; [assumption|]). split.
    + rewrite O4, <- app_assoc. f_equal.
      change (repeat (NetStatus job) (S k))
        with (NetStatus job :: repeat (NetStatus job) k).
      symmetry. apply repeat_cons.
    + eexists. split; reflexivity.
Qed.

(** The whole of a successful analysis.  Start is let through, the trigger
    is answered 202 with job [j], fewer than 120 status checks answer with a
    non-terminal status, each handled before the interval fires again, the
    next one answers [done] (or a synonym) and the result fetch answers
    2xx.  Then the result is attached, the tracked job is [j] and [done],
    there is no error, the loading flag is cleared, no interval is left, and
    the requests sent are the trigger, one status check per answer and the
    result fetch, in that order; the start guard is open again. *)
Lemma analysis_completes (s : st) (f j now0 nowd nowr : string)
    (r0 rd rr : http_resp) (resps : list (string * http_resp)) :
  reachable s ->
  lastFileId s = Some f -> f <> "" ->
  busy (pendingJob s) = false ->
  mounted s = true ->
  r_code r0 = 202 -> queued_job r0 = Some j ->
  Forall non_terminal resps -> length resps < 120 ->
  r_ok rd = true -> is_done (status_of (r_body rd)) = true ->
  r_ok rr = true ->
  let n0 := next_req s in
  let s1 := step (step s EvStart) (EvSettled n0 now0 (Got r0)) in
  let s2 := prompt_rounds resps (next_handle s) (S n0) s1 in
  let s3 := step s2 (EvSettled (S n0 + length resps) nowd (Got rd)) in
  let s4 := step s3 (EvSettled (S (S n0) + length resps) nowr (Got rr)) in
  analysis s4
  = Some match r_body rr with
         | Some b => ABody b
         | None => ASummary (r_text rr)
         end
  /\ (exists p, pendingJob s4 = Some p /\ jobId p = Some j
                /\ status p = Some "done")
  /\ busy (pendingJob s4) = false
  /\ error s4 = None /\ loading s4 = false
  /\ timers s4 = [] /\ pollRef s4 = None
  /\ netlog s4
     = (netlog s ++ NetAnalyze f :: repeat (NetStatus j) (S (length resps))
                 ++ [NetResult j])%list.
Proof.
  intros Hr Hf Hne Hb Hm Hc Hj Hg Hlen Hokd Hd Hokr n0 s1 s2 s3 s4.
  apply reachable_Inv in Hr.
  destruct (startAnalysis_sent s f Hr Hf Hne Hb)
    as (L0 & N0 & E0 & A0 & _ & _ & _ & _ & M0 & H0 & R0 & _ & I0).
  destruct (accepted_state (step s EvStart) n0 f now0 j r0 I0 L0 Hc Hj)
    as (T1 & P1 & N1 & L1 & R1 & A1 & Pj1 & Lo1 & E1 & An1 & M1 & _ & I1).
  fold s1 in T1, P1, N1, L1, R1, A1, Pj1, Lo1, E1, An1, M1, I1.
  rewrite H0 in T1, P1, L1, A1. rewrite R0 in L1, R1.
  rewrite N0 in N1. rewrite E0 in E1. rewrite A0 in An1.
  rewrite M0, Hm in M1.
  set (h := next_handle s) in *.
  set (base := (netlog s ++ [NetAnalyze f])%list) in *.
  assert (W1 : waiting h j 120 (length (status_calls s1) - 1) true 1
                 (S n0) s1).
  { repeat split; auto.
    - apply I1.
    - unfold status_calls. rewrite N1, filter_app, length_app. simpl. lia. }
  assert (O1 : on_track j base 1 s1).
  { repeat split; auto. eexists. split; [exact Pj1|reflexivity]. }
  clearbody s1.
  destruct (rounds_on_track h j 120 _ base resps Hg 1 (S n0) s1 W1 O1)
    as (W2 & O2); [lia|].
  fold s2 in W2, O2. clearbody s2.
  destruct W2 as (T2 & P2 & _ & L2 & R2 & F2 & _ & M2).
  destruct O2 as (E2 & A2 & Lo2 & N2 & p2 & Pj2 & Jp2).
  set (x := setPendingJob
              (Some (tick_pending j (status_of (r_body rd)) nowd (r_body rd)
                       (pendingJob s2)))
              (settle (S n0 + length resps) s2)).
  assert (E3 : s3 = send (NetResult j) (ReqResult j) x).
  { subst s3 x. unfold step. rewrite L2. unfold doPoll_status.
    rewrite Hokd. simpl negb. cbv iota.
    change (mounted (settle (S n0 + length resps) s2)) with (mounted s2).
    rewrite M2, Hd. reflexivity. }
  assert (Fx : Forall (fun p => fst p < next_req x) (inflight x)).
  { subst x. simpl. eapply filter_Forall_lt; [exact F2|lia]. }
  assert (L3 : lookup_req (S (S n0) + length resps) s3 = Some (ReqResult j)).
  { rewrite E3.
    replace (S (S n0) + length resps) with (next_req x)
      by (subst x; simpl; rewrite R2; reflexivity).
    apply lookup_req_sent. exact Fx. }
  set (y := settle (S (S n0) + length resps) s3).
  assert (Y : timers y = [{| t_handle := h; t_job := j; t_max := 120 |}]
              /\ pollRef y = Some h /\ mounted y = true
              /\ error y = None /\ loading y = false
              /\ netlog y = (base ++ repeat (NetStatus j) (1 + length resps)
                                  ++ [NetResult j])%list
              /\ exists p, pendingJob y = Some p /\ jobId p = Some j).
  { subst y. rewrite E3. subst x.
    cbn [timers pollRef mounted error loading netlog pendingJob settle
         setInflight send setPendingJob].
    repeat (split; [assumption|]). split.
    - rewrite N2, <- app_assoc. reflexivity.
    - eexists. split; reflexivity. }
  destruct Y as (Y1 & Y2 & Y3 & Y4 & Y5 & Y6 & py & Y7 & Y8).
  assert (E4 : s4 = doPoll_result j (Got rr) y).
  { subst s4 y. unfold step. rewrite L3. reflexivity. }
  clearbody y. rewrite E4. clear E4 s4.
  unfold doPoll_result. rewrite Hokr.
  set (z := match r_body rr with
            | Some b => setAnalysis (Some (ABody b)) y
            | None => setAnalysis (Some (ASummary (r_text rr))) y
            end).
  assert (Z : timers z = timers y /\ pollRef z = pollRef y
              /\ mounted z = mounted y /\ error z = error y
              /\ loading z = loading y /\ netlog z = netlog y
              /\ pendingJob z = pendingJob y
              /\ analysis z
                 = Some match r_body rr with
                        | Some b => ABody b
                        | None => ASummary (r_text rr)
                        end).
  { subst z. destruct (r_body rr); repeat split. }
  destruct Z as (Z1 & Z2 & Z3 & Z4 & Z5 & Z6 & Z7 & Z8). clearbody z.
  destruct (stopPolling_frame z) as (G1 & G2 & G3 & G4 & G5).
  assert (G : timers (stopPolling z) = [] /\ pollRef (stopPolling z) = None).
  { unfold stopPolling. rewrite Z2, Y2. simpl. rewrite Z1, Y1. simpl.
    rewrite Nat.eqb_refl. split; reflexivity. }
  destruct G as [G6 G7].
  rewrite G3, Z3, Y3.
  cbn [analysis pendingJob error loading timers pollRef netlog setLoading
       setPendingJob].
  rewrite G1, G2, G4, G5, G6, G7, Z4, Z6, Z7, Z8, Y4, Y6, Y7.
  split; [reflexivity|].
  split; [eexists; split; [reflexivity|split; [exact Y8|reflexivity]]|].
  split; [reflexivity|].
  do 4 (split; [reflexivity|]).
  subst base. rewrite <- app_assoc. reflexivity.
Qed.

Lemma analysis_completes_witness :
  netlog
    (step
       (step
          (prompt_rounds [("t1", status_resp "running")] 1 1
             (step (step (init (Some "f1")) EvStart)
                (EvSettled 0 "t0" (Got (accepted "j1")))))
          (EvSettled 2 "t2" (Got (status_resp "done"))))
       (EvSettled 3 "t3" (Got (status_resp "ignored"))))
  = [NetAnalyze "f1"; NetStatus "j1"; NetStatus "j1"; NetResult "j1"].
Proof.
  destruct (analysis_completes (init (Some "f1")) "f1" "j1" "t0" "t2" "t3"
              (accepted "j1") (status_resp "done") (status_resp "ignored")
              [("t1", status_resp "running")])
    as (_ & _ & _ & _ & _ & _ & _ & N).
  - exists (Some "f1"), []. reflexivity.
  - reflexivity.
  - discriminate.
  - reflexivity.
  - reflexivity.
  - reflexivity.
  - reflexivity.
  - repeat constructor.
  - simpl. lia.
  - reflexivity.
  - reflexivity.
  - reflexivity.
  - exact N.
Defined.

(** *** The Start button *)

(** [startDisabled], the [disabled] attribute of the Start button:
    [!lastFileId || loading || (pendingJob && pendingJob.status &&
    pendingJob.status !== "done" && pendingJob.status !== "cancelled")]. *)
Definition startDisabled (s : st) : bool :=
  negb (truthy (lastFileId s)) || loading s || busy (pendingJob s).



End PollerMore.

(** ** The buttons of the analysis page *)
Module Page.
Import Poller PollerFacts PollerMore.

#[local] Hint Resolve tame_refl tame_setError tame_setAnalysis tame_setLoading
  tame_setPendingJob tame_settle tame_stopPolling tame_send tame_if_mounted
  : tame.

Definition is_some {A : Type} (o : option A) : bool :=
  match o with
  | Some _ => true
  | None => false
  end.

(** The card "No uploads found" is rendered when
    [!lastFileId && !analysis && !loading && !pendingJob]. *)
Definition noUploadCard (s : st) : bool :=
  negb (truthy (lastFileId s)) && negb (is_some (analysis s))
  && negb (loading s) && negb (is_some (pendingJob s)).

(** The card with Poll status, Re-run and Cancel is rendered when
    [loading || (pendingJob && pendingJob.status &&
    pendingJob.status !== "done" && pendingJob.status !== "cancelled")]. *)
Definition queuedCard (s : st) : bool :=
  loading s || busy (pendingJob s).

Definition view_last_msg : string :=
  "Please upload a file first (redirecting to Uploads).".

(** The buttons of the page that reach the poller. *)
Inductive click :=
| StartAnalysis          (* onClick={startAnalysis} disabled={startDisabled} *)
| ViewLastUpload         (* on the card "No uploads found" *)
| PollStatus             (* pendingJob.jobId && pollJobStatus(pendingJob.jobId) *)
| ReRunQueued            (* runAnalysisForFile(lastFileId), beside Cancel *)
| CancelJob              (* onClick={cancelPoll} *)
| ReRunSummary.          (* runAnalysisForFile(lastFileId) disabled={loading} *)

(** What a click does: nothing when the button is not rendered or is
    disabled, else the call of its handler. *)
Definition on_click (c : click) (s : st) : st :=
  match c with
  | StartAnalysis => if startDisabled s then s else startAnalysis s
  | ViewLastUpload =>
      if noUploadCard s then setError (Some view_last_msg) s else s
  | PollStatus =>
      if queuedCard s then
        match pendingJob s with
        | Some p =>
            if truthy (jobId p) then pollJobStatus (jobId p) 120 s else s
        | None => s
        end
      else s
  | ReRunQueued =>
      if queuedCard s then runAnalysisForFile (lastFileId s) s else s
  | CancelJob => if queuedCard s then cancelPoll s else s
  | ReRunSummary =>
      if is_some (analysis s) && negb (loading s)
      then runAnalysisForFile (lastFileId s) s else s
  end.

(** What happens to the page: a click while it is mounted, its unmount,
    an interval firing, a request settling. *)
Inductive ui_event :=
| UClick (c : click)
| UUnmount
| UTick (h : nat)
| USettled (rid : nat) (now : string) (o : outcome).

Definition ui_step (s : st) (e : ui_event) : st :=
  match e with
  | UClick c => if mounted s then on_click c s else s
  | UUnmount => step s EvUnmount
  | UTick h => step s (EvTick h)
  | USettled rid now o => step s (EvSettled rid now o)
  end.

Definition ui_run (s : st) (es : list ui_event) : st := fold_left ui_step es s.

Definition ui_reachable (s : st) : Prop :=
  exists fid es, ui_run (init fid) es = s.

(** A job [j1] queued from the page: Start was clicked and the trigger
    answered 202. *)
Definition queued_j1 : st :=
  ui_run (init (Some "f1"))
         [UClick StartAnalysis; USettled 0 "t0" (Got (accepted "j1"))].

Lemma on_click_Inv (c : click) (s : st) : Inv s -> Inv (on_click c s).
Proof.
  intros HI. destruct c; unfold on_click.
  - destruct (startDisabled s); [exact HI|]. exact (step_Inv s EvStart HI).
  - destruct (noUploadCard s); [|exact HI].
    eapply tame_Inv; [exact HI|auto with tame].
  - destruct (queuedCard s); [|exact HI].
    destruct (pendingJob s) as [p|]; [|exact HI].
    destruct (truthy (jobId p)); [|exact HI].
    apply pollJobStatus_Inv. exact HI.
  - destruct (queuedCard s); [|exact HI].
    eapply tame_Inv; [exact HI|].
    apply runAnalysisForFile_tame; auto with tame.
  - destruct (queuedCard s); [|exact HI].
    eapply tame_Inv; [exact HI|apply cancelPoll_tame; exact HI].
  - destruct (_ && _); [|exact HI].
    eapply tame_Inv; [exact HI|].
    apply runAnalysisForFile_tame; auto with tame.
Qed.

Lemma ui_step_Inv (s : st) (e : ui_event) : Inv s -> Inv (ui_step s e).
Proof.
  intros HI. destruct e as [c| |h|rid now o]; unfold ui_step.
  - destruct (mounted s); [apply on_click_Inv|]; exact HI.
  - apply step_Inv. exact HI.
  - apply step_Inv. exact HI.
  - apply step_Inv. exact HI.
Qed.

Lemma ui_reachable_Inv (s : st) : ui_reachable s -> Inv s.
Proof.
  intros (fid & es & <-).
  assert (H : forall es x, Inv x -> Inv (ui_run x es)).
  { clear. induction es as [|e es IH]; intros x Hx; [exact Hx|].
    simpl. apply IH. apply ui_step_Inv. exact Hx. }
  apply H. split; [exact I|constructor].
Qed.

(** *** The Start button *)

(** The Start button is disabled exactly when no upload is known, or a
    request of the page is loading, or a job is tracked whose status is not
    empty and is neither [done] nor [cancelled].  A click on the disabled
    button does nothing: no message, no request.  A click on the enabled
    button is never stopped by the guard inside [startAnalysis]: the
    analyze request for the last upload is sent and no error is set. *)
Lemma start_button_guard (s : st) :
  let tracked :=
    exists pj x, pendingJob s = Some pj /\ status pj = Some x
                 /\ x <> "" /\ x <> "done" /\ x <> "cancelled" in
  (startDisabled s = true
   <-> (lastFileId s = None \/ lastFileId s = Some "")
       \/ loading s = true \/ tracked)
  /\ (startDisabled s = true -> on_click StartAnalysis s = s)
  /\ (startDisabled s = false ->
      exists f, lastFileId s = Some f /\ f <> ""
                /\ netlog (on_click StartAnalysis s)
                   = (netlog s ++ [NetAnalyze f])%list
                /\ error (on_click StartAnalysis s) = None).
Proof.
  intros tracked.
  assert (F : truthy (lastFileId s) = false
              <-> lastFileId s = None \/ lastFileId s = Some "").
  { destruct (lastFileId s) as [f|]; simpl.
    - destruct (String.eqb_spec f "") as [->|N]; simpl.
      + split; auto.
      + split; [discriminate|]. intros [H|H]; congruence.
    - split; auto. }
  split; [|split].
  - unfold startDisabled. rewrite !orb_true_iff, negb_true_iff, F.
    subst tracked. rewrite busy_spec. tauto.
  - intros H. unfold on_click. rewrite H. reflexivity.
  - intros H. unfold on_click. rewrite H. unfold startDisabled in H.
    apply orb_false_elim in H. destruct H as [H Hb].
    apply orb_false_elim in H. destruct H as [Hf _].
    apply negb_false_iff in Hf.
    destruct (lastFileId s) as [f|] eqn:Ef; [|discriminate].
    assert (Hne : f <> "").
    { simpl in Hf. destruct (String.eqb_spec f ""); [discriminate|assumption]. }
    exists f. split; [reflexivity|]. split; [exact Hne|].
    unfold startAnalysis. simpl lastFileId. simpl pendingJob.
    rewrite Ef, Hb, (truthy_some f Hne). simpl negb. cbv iota.
    unfold runAnalysisForFile. rewrite (truthy_some f Hne). simpl negb.
    cbv iota. rewrite (or_default_some f "" Hne). split; reflexivity.
Qed.

Lemma start_button_guard_witness :
  on_click StartAnalysis queued_j1 = queued_j1
  /\ netlog (on_click StartAnalysis (init (Some "f1"))) = [NetAnalyze "f1"].
Proof.
  split.
  - destruct (start_button_guard queued_j1) as (_ & D & _).
    apply D. reflexivity.
  - destruct (start_button_guard (init (Some "f1"))) as (_ & _ & E).
    destruct (E eq_refl) as (f & Hf & _ & N & _).
    injection Hf as <-. exact N.
Defined.

(** *** Without an upload *)

(** While no uploaded file is known and nothing is under way, the page
    sends no analyze, status or result request and starts no interval,
    whatever is clicked and whatever else happens: the Start button is
    disabled, of the cards only "No uploads found" can be rendered, and its
    View-last button only sets its message. *)
Lemma no_upload_no_request (s : st) (es : list ui_event) :
  truthy (lastFileId s) = false ->
  inflight s = [] -> timers s = [] ->
  pendingJob s = None -> analysis s = None -> loading s = false ->
  let s' := ui_run s es in
  netlog s' = netlog s /\ inflight s' = [] /\ timers s' = []
  /\ pendingJob s' = None /\ analysis s' = None /\ loading s' = false
  /\ lastFileId s' = lastFileId s
  /\ startDisabled s' = true
  /\ (error s' = error s \/ error s' = Some view_last_msg).
Proof.
  intros Hf HI0 HT0 HJ0 HA0 HL0 s'.
  set (P := fun x : st =>
              lastFileId x = lastFileId s /\ netlog x = netlog s
              /\ inflight x = []
              /\ timers x = [] /\ pendingJob x = None /\ analysis x = None
              /\ loading x = false
              /\ (error x = error s \/ error x = Some view_last_msg)).
  assert (K : forall l x, P x -> P (ui_run x l)).
  { clear s'. induction l as [|e es' IH]; intros x Hx; [exact Hx|].
    simpl. apply IH. destruct Hx as (L & N & I & T & J & A & Lo & E).
    assert (SD : startDisabled x = true).
    { unfold startDisabled. rewrite L, Hf. reflexivity. }
    assert (Q : queuedCard x = false).
    { unfold queuedCard. rewrite Lo, J. reflexivity. }
    destruct e as [c| |h|rid now o]; unfold ui_step.
    - destruct (mounted x); [|repeat split; assumption].
      destruct c; unfold on_click; rewrite ?SD, ?Q, ?A;
        try (repeat split; assumption).
      destruct (noUploadCard x); repeat split; auto.
    - unfold step, unmount, clearInterval. cbn [pollRef setMounted].
      destruct (pollRef x);
        cbn [lastFileId netlog inflight timers pendingJob analysis loading
             error setTimers setMounted];
        rewrite ?T; repeat split; simpl; auto.
    - unfold step. rewrite T. repeat split; assumption.
    - unfold step, lookup_req. rewrite I. repeat split; assumption. }
  assert (P0 : P s) by (repeat split; auto).
  destruct (K es s P0) as (L & N & I & T & J & A & Lo & E).
  fold s' in L, N, I, T, J, A, Lo, E.
  do 7 (split; [assumption|]). split; [|exact E].
  unfold startDisabled. rewrite L, Hf. reflexivity.
Qed.

Lemma no_upload_no_request_witness :
  netlog (ui_run (init None)
            [UClick StartAnalysis; UClick ViewLastUpload; UClick ReRunQueued;
             UTick 1])
  = netlog (init None).
Proof.
  destruct (no_upload_no_request (init None)
              [UClick StartAnalysis; UClick ViewLastUpload;
               UClick ReRunQueued; UTick 1]) as (N & _).
  - reflexivity.
  - reflexivity.
  - reflexivity.
  - reflexivity.
  - reflexivity.
  - reflexivity.
  - exact N.
Defined.

(** *** A failed job *)

(** C2, where the code departs from it.  When a status check of the job
    polled answers 2xx with the status [failed] or [error], the tracked job
    takes that status and polling has ended: no interval is live, nothing
    is loading and nothing was sent.  The job is in a terminal state, yet
    the Start button is disabled and a click on it does nothing: only
    [done] and [cancelled] open the guard.  Cancel does nothing either,
    because no interval is live. *)
Theorem C2_failed_job_blocks_start (s : st) (rid h max : nat)
    (job now x : string) (r : http_resp) (b : json_body) :
  ui_reachable s ->
  mounted s = true ->
  lookup_req rid s = Some (ReqStatus h job max) ->
  r_ok r = true ->
  r_body r = Some b -> b_status b = Some x ->
  x = "failed" \/ x = "error" ->
  let s' := ui_step s (USettled rid now (Got r)) in
  (exists pj, pendingJob s' = Some pj /\ status pj = Some x)
  /\ timers s' = [] /\ pollRef s' = None /\ loading s' = false
  /\ netlog s' = netlog s
  /\ startDisabled s' = true
  /\ on_click StartAnalysis s' = s'
  /\ on_click CancelJob s' = s'.
Proof.
  intros Hr Hm Hl Hok Hb Hs Hx s'. apply ui_reachable_Inv in Hr.
  assert (HS : Inv (settle rid s)) by (eapply tame_Inv; [exact Hr|auto with tame]).
  assert (Ex : status_of (r_body r) = x).
  { rewrite Hb. unfold status_of, or_else. rewrite Hs.
    destruct Hx as [-> | ->]; reflexivity. }
  assert (D : is_done x = false /\ is_failed x = true)
    by (destruct Hx as [-> | ->]; split; reflexivity).
  destruct D as [D1 D2].
  set (p := tick_pending job x now (r_body r) (pendingJob (settle rid s))).
  set (m := or_default
              (or_else match r_body r with Some b => b_error b | None => None end
                       match r_body r with Some b => b_message b | None => None end)
              job_failed_msg).
  set (y := setError (Some m) (setPendingJob (Some p) (settle rid s))).
  assert (E : s' = setLoading false (stopPolling y)).
  { subst s' y p m. unfold ui_step, step. rewrite Hl. unfold doPoll_status.
    rewrite Hok. simpl negb. cbv iota. rewrite Ex.
    change (mounted (settle rid s)) with (mounted s). rewrite Hm, D1, D2.
    match goal with |- context [stopPolling ?z] =>
      destruct (stopPolling_frame z) as (_ & _ & F3 & _) end.
    rewrite F3. cbn [mounted setError setPendingJob settle setInflight].
    rewrite Hm. reflexivity. }
  assert (Iy : Inv y) by (eapply tame_Inv; [exact HS|subst y; auto with tame]).
  destruct (stopPolling_timers y Iy) as [T P].
  destruct (stopPolling_frame y) as (F1 & _ & _ & F4 & _).
  assert (B : pendingJob s' = Some p /\ timers s' = [] /\ pollRef s' = None
              /\ loading s' = false /\ netlog s' = netlog s).
  { rewrite E. cbn [pendingJob timers pollRef loading netlog setLoading].
    rewrite F1, F4. subst y. simpl. auto. }
  destruct B as (B1 & B2 & B3 & B4 & B5). clearbody s'.
  assert (Bz : busy (pendingJob s') = true).
  { rewrite B1. destruct Hx as [-> | ->]; reflexivity. }
  assert (SD : startDisabled s' = true).
  { unfold startDisabled. rewrite Bz. apply orb_true_r. }
  split; [exists p; split; [exact B1|reflexivity]|].
  repeat (split; [assumption|]). split.
  - unfold on_click. rewrite SD. reflexivity.
  - unfold on_click, queuedCard, cancelPoll. rewrite Bz, B3, orb_true_r.
    reflexivity.
Qed.

(** An instance of C2: job [j1], queued from the page, fails. *)
Lemma C2_witness :
  startDisabled
    (ui_step queued_j1 (USettled 1 "t1" (Got (status_resp "failed"))))
  = true
  /\ on_click StartAnalysis
       (ui_step queued_j1 (USettled 1 "t1" (Got (status_resp "failed"))))
     = ui_step queued_j1 (USettled 1 "t1" (Got (status_resp "failed"))).
Proof.
  destruct (C2_failed_job_blocks_start queued_j1 1 1 120 "j1" "t1" "failed"
              (status_resp "failed") (body_with_status "failed"))
    as (_ & _ & _ & _ & _ & D & S & _).
  - exists (Some "f1"),
      [UClick StartAnalysis; USettled 0 "t0" (Got (accepted "j1"))].
    unfold queued_j1. reflexivity.
  - reflexivity.
  - reflexivity.
  - reflexivity.
  - reflexivity.
  - reflexivity.
  - left. reflexivity.
  - split; [exact D|exact S].
Defined.

(** *** A status answer that arrives after Cancel *)

(** Cancel does not reach a status check in flight.  When its answer
    arrives afterwards with a non-terminal status other than [cancelled],
    that status replaces the cancelled mark; no interval is live, so the
    job stays in that state: the Start button is disabled, a click on it
    does nothing, and Cancel, with no interval to clear, does nothing
    either. *)
Lemma late_status_after_cancel (s : st) (rid h h0 max : nat)
    (job now : string) (r : http_resp) :
  reachable s -> pollRef s = Some h0 -> mounted s = true ->
  lookup_req rid s = Some (ReqStatus h job max) ->
  non_terminal (now, r) ->
  status_of (r_body r) <> "cancelled" ->
  let s' := step (step s EvCancel) (EvSettled rid now (Got r)) in
  timers s' = []
  /\ (exists p, pendingJob s' = Some p
                /\ status p = Some (status_of (r_body r)))
  /\ busy (pendingJob s') = true
  /\ startDisabled s' = true
  /\ on_click StartAnalysis s' = s'
  /\ on_click CancelJob s' = s'.
Proof.
  intros Hr P M L Hn Hc s'. apply reachable_Inv in Hr.
  destruct (cancel_state s h0 Hr P) as (E & T & Q).
  destruct (stopPolling_frame s) as (F1 & _ & F3 & _).
  assert (A2 : inflight (stopPolling s) = inflight s)
    by (unfold stopPolling; destruct (pollRef s); reflexivity).
  set (c := step s EvCancel) in *.
  assert (C : timers c = [] /\ pollRef c = None /\ mounted c = true
              /\ lookup_req rid c = Some (ReqStatus h job max)).
  { rewrite E. unfold lookup_req.
    cbn [timers pollRef mounted inflight setLoading setError setPendingJob].
    rewrite F3, A2. unfold lookup_req in L. repeat split; assumption. }
  destruct C as (C1 & C2 & C3 & C4). clearbody c.
  set (p := tick_pending job (status_of (r_body r)) now (r_body r)
              (pendingJob c)).
  assert (B : busy (Some p) = true).
  { apply busy_spec. exists p, (status_of (r_body r)).
    destruct Hn as [_ Hn]. simpl in Hn. rewrite spec_class_code in Hn.
    repeat split; auto.
    - unfold status_of. destruct (r_body r) as [b|]; [|discriminate].
      unfold or_default. destruct (or_else _ _) as [x|]; [|discriminate].
      destruct (String.eqb_spec x ""); [discriminate|assumption].
    - intros D. rewrite D in Hn. discriminate. }
  assert (S' : timers s' = [] /\ pendingJob s' = Some p /\ pollRef s' = None).
  { subst s'. unfold step. rewrite C4.
    rewrite (doPoll_status_nonterminal h job max now r _ Hn).
    cbv zeta. cbn [mounted attempts settle setInflight]. rewrite C3.
    destruct (max <=? attempts c h)%nat.
    - set (x := setError _ _).
      destruct (stopPolling_frame x) as (_ & _ & _ & G4 & _).
      assert (G0 : timers (stopPolling x) = []
                   /\ pollRef (stopPolling x) = None)
        by (unfold stopPolling; subst x; simpl; rewrite C2; simpl;
            split; [exact C1|reflexivity]).
      destruct G0 as [G5 G6].
      rewrite G4, G5, G6. subst x. simpl. auto.
    - simpl. auto. }
  destruct S' as (S1 & S2 & S3). clearbody s'.
  assert (Bz : busy (pendingJob s') = true) by (rewrite S2; exact B).
  assert (SD : startDisabled s' = true).
  { unfold startDisabled. rewrite Bz. apply orb_true_r. }
  split; [exact S1|]. split; [exists p; split; [exact S2|reflexivity]|].
  split; [exact Bz|]. split; [exact SD|]. split.
  - unfold on_click. rewrite SD. reflexivity.
  - unfold on_click, queuedCard, cancelPoll. rewrite Bz, S3, orb_true_r.
    reflexivity.
Qed.

Lemma late_status_after_cancel_witness :
  startDisabled
    (step (step polling_j1 EvCancel)
          (EvSettled 0 "t1" (Got (status_resp "running"))))
  = true.
Proof.
  destruct (late_status_after_cancel polling_j1 0 1 1 120 "j1" "t1"
              (status_resp "running")) as (_ & _ & _ & D & _).
  - exists (Some "f1"), [EvPoll (Some "j1") 120]. reflexivity.
  - reflexivity.
  - reflexivity.
  - reflexivity.
  - split; reflexivity.
  - discriminate.
  - exact D.
Defined.

End Page.

(** ** Facts about the uploads page *)
Module UploadsFacts.
Import Uploads.

(** *** The preview *)

Fixpoint has_lf (s : string) : bool :=
  match s with
  | EmptyString => false
  | String c r => Ascii.eqb c LF || has_lf r
  end.

(** The text with every carriage return and line feed pair replaced by
    the line feed. *)
Fixpoint lf_only (t : string) : string :=
  match t with
  | EmptyString => ""
  | String c r =>
      match r with
      | String c2 r' =>
          if Ascii.eqb c CR && Ascii.eqb c2 LF then String LF (lf_only r')
          else String c (lf_only r)
      | EmptyString => String c ""
      end
  end.

Definition join_lines (ls : list string) : string :=
  String.concat (String LF "") ls.

Lemma split_lines_cons (t : string) :
  exists l ls, split_lines t = l :: ls.
Proof.
  destruct t as [|c r]; simpl; [eauto|].
  destruct (Ascii.eqb c LF); [eauto|].
  destruct r as [|c2 r']; [eauto|].
  destruct (_ && _); [eauto|].
  destruct (split_lines (String c2 r')); simpl; eauto.
Qed.

Lemma join_cons_first (c : Ascii.ascii) (l : string) (ls : list string) :
  join_lines (cons_first c (l :: ls)) = String c (join_lines (l :: ls)).
Proof. unfold join_lines. simpl. destruct ls; reflexivity. Qed.

Lemma join_empty_first (l : string) (ls : list string) :
  join_lines ("" :: l :: ls) = String LF (join_lines (l :: ls)).
Proof. reflexivity. Qed.

Lemma split_lines_eq (c c2 : Ascii.ascii) (r : string) :
  split_lines (String c (String c2 r))
  = if Ascii.eqb c LF then "" :: split_lines (String c2 r)
    else if Ascii.eqb c CR && Ascii.eqb c2 LF then "" :: split_lines r
    else cons_first c (split_lines (String c2 r)).
Proof. reflexivity. Qed.

Lemma lf_only_eq (c c2 : Ascii.ascii) (r : string) :
  lf_only (String c (String c2 r))
  = if Ascii.eqb c CR && Ascii.eqb c2 LF then String LF (lf_only r)
    else String c (lf_only (String c2 r)).
Proof. reflexivity. Qed.

(** Strong induction on the text, two characters at a time. *)
Lemma string_ind2 (P : string -> Prop) :
  P "" ->
  (forall c, P (String c "")) ->
  (forall c c2 r, P r -> P (String c2 r) -> P (String c (String c2 r))) ->
  forall t, P t.
Proof.
  intros H0 H1 H2.
  assert (H : forall t, P t /\ forall c, P (String c t)).
  { induction t as [|c2 r [IH1 IH2]].
    - split; [exact H0|exact H1].
    - split; [apply IH2|]. intros c. apply H2; [exact IH1|apply IH2]. }
  intros t. apply H.
Qed.

Lemma join_split (t : string) : join_lines (split_lines t) = lf_only t.
Proof.
  induction t as [|c|c c2 r IH1 IH2] using string_ind2.
  - reflexivity.
  - simpl. destruct (Ascii.eqb c LF) eqn:E; [|reflexivity].
    apply Ascii.eqb_eq in E. subst c. reflexivity.
  - rewrite split_lines_eq, lf_only_eq.
    destruct (Ascii.eqb c LF) eqn:E.
    + apply Ascii.eqb_eq in E. subst c.
      change (Ascii.eqb LF CR) with false. cbn [andb].
      destruct (split_lines_cons (String c2 r)) as (l & ls & Hs).
      rewrite Hs, join_empty_first, <- Hs, IH2. reflexivity.
    + destruct (Ascii.eqb c CR && Ascii.eqb c2 LF) eqn:E2.
      * destruct (split_lines_cons r) as (l & ls & Hs).
        rewrite Hs, join_empty_first, <- Hs, IH1. reflexivity.
      * destruct (split_lines_cons (String c2 r)) as (l & ls & Hs).
        rewrite Hs, join_cons_first, <- Hs, IH2. reflexivity.
Qed.

Lemma split_no_lf (t : string) :
  Forall (fun l => has_lf l = false) (split_lines t).
Proof.
  induction t as [|c|c c2 r IH1 IH2] using string_ind2.
  - repeat constructor.
  - simpl. destruct (Ascii.eqb c LF) eqn:E; repeat constructor.
    simpl. rewrite E. reflexivity.
  - rewrite split_lines_eq.
    destruct (Ascii.eqb c LF) eqn:E; [constructor; [reflexivity|exact IH2]|].
    destruct (_ && _); [constructor; [reflexivity|exact IH1]|].
    destruct (split_lines_cons (String c2 r)) as (l & ls & Hs).
    rewrite Hs in *. inversion IH2; subst. constructor; [|assumption].
    simpl. rewrite E. assumption.
Qed.

(** The preview shows at least one and at most 200 lines, none of which
    holds a line feed; they are the first lines of the text, and when the
    text has no more than 200 lines, joining them with line feeds gives the
    text back, with every carriage return and line feed pair turned into
    the line feed. *)
Lemma preview_lines (f : picked) :
  let p := previewFileLocally f in
  1 <= length (pv_lines p) <= 200
  /\ Forall (fun l => has_lf l = false) (pv_lines p)
  /\ (exists rest, split_lines (f_text f) = (pv_lines p ++ rest)%list)
  /\ (length (split_lines (f_text f)) <= 200 ->
      join_lines (pv_lines p) = lf_only (f_text f)).
Proof.
  intros p. subst p. cbn [pv_lines previewFileLocally].
  destruct (split_lines_cons (f_text f)) as (l & ls & Hs).
  split; [|split; [|split]].
  - rewrite length_firstn, Hs. cbn [length]. lia.
  - pose proof (split_no_lf (f_text f)) as H.
    rewrite <- (firstn_skipn 200 (split_lines (f_text f))) in H.
    apply Forall_app in H. apply H.
  - exists (skipn 200 (split_lines (f_text f))). symmetry.
    apply firstn_skipn.
  - intros H. rewrite firstn_all2 by exact H. apply join_split.
Qed.

(** *** One upload at a time *)

Definition OneXhr (s : st) : Prop :=
  length (xhrs s) <= 1 /\ (xhrs s <> [] -> uploading s = true).

Lemma remove_at_one {A : Type} (k : nat) (l : list A) (x : A) :
  length l <= 1 -> nth_error l k = Some x -> remove_at k l = [].
Proof.
  intros H N. destruct l as [|a [|b l]]; simpl in *; try lia.
  - destruct k; discriminate.
  - destruct k as [|k]; [reflexivity|]. destruct k; discriminate.
Qed.

Lemma OneXhr_same (s s' : st) :
  xhrs s' = xhrs s -> uploading s' = uploading s -> OneXhr s -> OneXhr s'.
Proof. unfold OneXhr. intros -> ->. auto. Qed.

Lemma OneXhr_idle (s' : st) : xhrs s' = [] -> OneXhr s'.
Proof. unfold OneXhr. intros ->. split; simpl; [lia|congruence]. Qed.

Lemma OneXhr_one (s' : st) (f : picked) :
  xhrs s' = [f] -> uploading s' = true -> OneXhr s'.
Proof. unfold OneXhr. intros -> ->. split; simpl; [lia|reflexivity]. Qed.

Lemma idle_when_not_uploading (s : st) :
  OneXhr s -> uploading s = false -> xhrs s = [].
Proof.
  intros [_ U] E. destruct (xhrs s) as [|x l] eqn:X; [reflexivity|].
  assert (Q : x :: l <> []) by discriminate.
  first [apply U in Q | rewrite <- X in Q; apply U in Q]. congruence.
Qed.

Lemma upload_step_Inv (s : st) (e : event) : OneXhr s -> OneXhr (step s e).
Proof.
  intros H.
  destruct e as [f|f| | | |k c pct|k code parsed|k|k| |]; unfold step.
  - destruct (uploading s); [exact H|]. apply (OneXhr_same s); auto.
  - destruct f; apply (OneXhr_same s); auto.
  - apply (OneXhr_same s); auto.
  - apply (OneXhr_same s); auto.
  - destruct (uploading s) eqn:E; [exact H|].
    destruct (file s) as [f|] eqn:F; [|exact H]. simpl.
    unfold startUpload. rewrite F. apply (OneXhr_one _ f); simpl;
      [rewrite (idle_when_not_uploading s H E)|]; reflexivity.
  - destruct (nth_error _ _); [|exact H].
    unfold onprogress. destruct c; [|exact H]. apply (OneXhr_same s); auto.
  - destruct (nth_error _ _) as [f|] eqn:N; [|exact H].
    apply OneXhr_idle. pose proof (remove_at_one k _ f (proj1 H) N) as R.
    unfold onload. destruct (_ && _); [|exact R].
    destruct (match parsed with Some j => j | None => VObj [] end);
      exact R.
  - destruct (nth_error _ _) as [f|] eqn:N; [|exact H].
    apply OneXhr_idle. exact (remove_at_one k _ f (proj1 H) N).
  - destruct (nth_error _ _); [|exact H]. apply (OneXhr_same s); auto.
  - unfold handleStartAnalysis. destruct (vtruthy _); apply (OneXhr_same s); auto.
  - destruct (err_timers s); [exact H|]. apply (OneXhr_same s); auto.
Qed.

Lemma upload_run_Inv (es : list event) (s : st) : OneXhr s -> OneXhr (run s es).
Proof.
  revert s. induction es as [|e es IH]; intros s H; [exact H|].
  simpl. apply IH. apply upload_step_Inv. exact H.
Qed.

Lemma upload_init_Inv : OneXhr init.
Proof. split; simpl; [lia|congruence]. Qed.

(** Whatever the user and the network do, at most one upload request is in
    flight, and while one is the page is in its uploading state; a new
    request is posted only by a click on Start Upload made with a file
    chosen and no upload going on, and it carries that file. *)
Lemma one_upload_at_a_time (es : list event) (e : event) :
  let s := run init es in
  length (xhrs s) <= 1
  /\ (xhrs s <> [] -> uploading s = true)
  /\ (posted (step s e) = posted s
      \/ exists f, e = EvStartUpload /\ uploading s = false
                   /\ file s = Some f /\ xhrs s = []
                   /\ posted (step s e) = (posted s ++ [f])%list
                   /\ xhrs (step s e) = [f]).
Proof.
  intros s. pose proof (upload_run_Inv es init upload_init_Inv) as HI. fold s in HI.
  split; [apply HI|]. split; [apply HI|].
  destruct e as [f|f| | | |k c pct|k code parsed|k|k| |]; simpl.
  - left. destruct (uploading s); reflexivity.
  - left. destruct f; reflexivity.
  - left. reflexivity.
  - left. reflexivity.
  - destruct (uploading s) eqn:E; [left; reflexivity|].
    destruct (file s) as [f|] eqn:F; simpl; [|left; reflexivity].
    right. exists f. unfold startUpload. rewrite F. simpl.
    pose proof (idle_when_not_uploading s HI E) as X.
    rewrite X. repeat split; reflexivity.
  - left. destruct (nth_error _ _); [|reflexivity].
    unfold onprogress. destruct c; reflexivity.
  - left. destruct (nth_error _ _); [|reflexivity].
    unfold onload. destruct (_ && _); [|reflexivity].
    destruct (match parsed with Some j => j | None => VObj [] end);
      reflexivity.
  - left. destruct (nth_error _ _); reflexivity.
  - left. destruct (nth_error _ _); reflexivity.
  - left. unfold handleStartAnalysis. destruct (vtruthy _); reflexivity.
  - left. destruct (err_timers s); reflexivity.
Qed.

(** *** How an upload ends *)

Definition ok_code (code : nat) : bool :=
  (200 <=? code)%nat && (code <? 300)%nat.

(** The end of the upload in flight.  A network error and a status outside
    2xx leave the uploading state with their error as the status line and
    the ids as they were; a 2xx whose body is an object (or is not JSON)
    completes the upload, queues the preview of the uploaded file and sets
    the ids from the body, preferring [upload_id] to [id]. *)
Lemma upload_settles (es : list event) (k code : nat) (f : picked)
    (parsed : option jsval) :
  let s := run init es in
  nth_error (xhrs s) k = Some f ->
  let failed := step s (EvLoad k code parsed) in
  let dropped := step s (EvError k) in
  (uploading dropped = false /\ status dropped = "Error: Network error"
   /\ serverIds dropped = serverIds s /\ xhrs dropped = [])
  /\ (ok_code code = false ->
      uploading failed = false /\ status failed = "Error: Upload failed"
      /\ serverIds failed = serverIds s /\ xhrs failed = []
      /\ readers failed = readers s)
  /\ (ok_code code = true ->
      forall fields, (parsed = Some (VObj fields) \/
                      (parsed = None /\ fields = [])) ->
        uploading failed = false /\ status failed = "Upload complete"
        /\ progress failed = 100 /\ xhrs failed = []
        /\ readers failed = (readers s ++ [f])%list
        /\ upload_id (serverIds failed)
           = vor (vor (field "upload_id" (VObj fields))
                      (field "id" (VObj fields))) VNull
        /\ job_id (serverIds failed)
           = vor (field "job_id" (VObj fields)) VNull).
Proof.
  intros s N failed dropped.
  destruct (upload_run_Inv es init upload_init_Inv) as [L U]. fold s in L, U.
  pose proof (remove_at_one k _ f L N) as R.
  subst failed dropped. unfold step. rewrite N, R.
  split; [repeat split|]. split.
  - intros C. unfold onload. fold (ok_code code). rewrite C. repeat split.
  - intros C fields [->|[-> ->]]; unfold onload; fold (ok_code code);
      rewrite C; repeat split.
Qed.

(** A 2xx upload response whose body is the JSON value [null]: the status
    line says the upload is complete, but the handler stops at the read of
    the ids from [null], so the page stays in its uploading state whatever
    happens next: the file input and the Start Upload button stay
    disabled, no request is posted again, and the ids stay as they were. *)
Lemma null_body_sticks (es es' : list event) (k code : nat) (f : picked) :
  let s := run init es in
  nth_error (xhrs s) k = Some f ->
  ok_code code = true ->
  let s' := step s (EvLoad k code (Some VNull)) in
  status s' = "Upload complete"
  /\ serverIds s' = serverIds s
  /\ uploading (run s' es') = true
  /\ xhrs (run s' es') = []
  /\ posted (run s' es') = posted s
  /\ forall g, step (run s' es') (EvChoose g) = run s' es'
               /\ step (run s' es') EvStartUpload = run s' es'.
Proof.
  intros s N C s'.
  destruct (upload_run_Inv es init upload_init_Inv) as [L U]. fold s in L, U.
  pose proof (remove_at_one k _ f L N) as R.
  assert (Up : uploading s = true).
  { apply U. intros E. rewrite E in N. destruct k; discriminate. }
  assert (S' : status s' = "Upload complete" /\ serverIds s' = serverIds s
               /\ uploading s' = true /\ xhrs s' = []
               /\ posted s' = posted s).
  { subst s'. unfold step. rewrite N, R. unfold onload. fold (ok_code code).
    rewrite C. simpl. auto. }
  destruct S' as (S1 & S2 & S3 & S4 & S5). clearbody s'.
  split; [exact S1|]. split; [exact S2|].
  assert (K : forall es' x, uploading x = true -> xhrs x = [] ->
                uploading (run x es') = true /\ xhrs (run x es') = []
                /\ posted (run x es') = posted x).
  { clear. induction es' as [|e es' IH]; intros x Hu Hx; [auto|].
    cbn [run fold_left].
    assert (P : uploading (step x e) = true /\ xhrs (step x e) = []
                /\ posted (step x e) = posted x).
    { destruct e as [g|g| | | |k c pct|k code parsed|k|k| |]; simpl;
        rewrite ?Hu, ?Hx; simpl; auto.
      - destruct g; simpl; auto.
      - destruct k; simpl; auto.
      - destruct k; simpl; auto.
      - destruct k; simpl; auto.
      - destruct (nth_error _ _); simpl; auto.
      - unfold handleStartAnalysis. destruct (vtruthy _); simpl; auto.
      - destruct (err_timers x); simpl; auto. }
    destruct P as (P1 & P2 & P3).
    destruct (IH (step x e) P1 P2) as (I1 & I2 & I3).
    unfold run in *. rewrite I1, I2, I3, P3. auto. }
  destruct (K es' s' S3 S4) as (K1 & K2 & K3).
  rewrite K1, K2, K3, S5. repeat split; simpl; rewrite K1; reflexivity.
Qed.

(** *** Start Analyzing *)

Definition ok_load (e : event) : bool :=
  match e with
  | EvLoad _ code _ => ok_code code
  | _ => false
  end.

(** Picking a file forgets the ids of the upload before, and as long as no
    2xx upload response arrives every click on Start Analyzing is refused:
    no navigation happens. *)
Lemma no_navigation_without_upload (s : st) (f : picked) (es : list event) :
  forallb (fun e => negb (ok_load e)) es = true ->
  let s0 := step s (EvDrop (Some f)) in
  serverIds s0 = no_ids
  /\ (uploading s = false -> step s (EvChoose (Some f)) = pick (Some f) s)
  /\ navigated (run s0 es) = navigated s
  /\ startErr (step (run s0 es) EvStartAnalyzing)
     = "Please upload a file first".
Proof.
  intros H s0.
  assert (K : forall es x, forallb (fun e => negb (ok_load e)) es = true ->
                serverIds x = no_ids ->
                serverIds (run x es) = no_ids
                /\ navigated (run x es) = navigated x).
  { clear. induction es as [|e es IH]; intros x H Hx; [auto|].
    simpl in H. apply andb_prop in H. destruct H as [H1 H2].
    cbn [run fold_left].
    assert (P : serverIds (step x e) = no_ids
                /\ navigated (step x e) = navigated x).
    { destruct e as [g|g| | | |k c pct|k code parsed|k|k| |]; simpl; auto.
      - destruct (uploading x); auto.
      - destruct g; auto.
      - destruct (uploading x || _); auto.
        unfold startUpload. destruct (file x); auto.
      - destruct (nth_error _ _); auto. unfold onprogress. destruct c; auto.
      - destruct (nth_error _ _); auto. unfold onload.
        simpl in H1. unfold ok_code in H1.
        apply negb_true_iff in H1. rewrite H1. auto.
      - destruct (nth_error _ _); auto.
      - destruct (nth_error _ _); auto.
      - unfold handleStartAnalysis. rewrite Hx. simpl. auto.
      - destruct (err_timers x); auto. }
    destruct P as [P1 P2]. destruct (IH (step x e) H2 P1) as [I1 I2].
    unfold run in *. rewrite I1, I2, P2. auto. }
  assert (S0 : serverIds s0 = no_ids /\ navigated s0 = navigated s)
    by (split; reflexivity).
  destruct S0 as [S1 S2]. destruct (K es s0 H S1) as [K1 K2].
  split; [exact S1|]. split.
  - intros Hu. simpl. rewrite Hu. reflexivity.
  - split; [rewrite K2; exact S2|].
    simpl. unfold handleStartAnalysis. rewrite K1. reflexivity.
Qed.

Lemma no_navigation_without_upload_witness :
  navigated (run (step init (EvDrop (Some two_lines)))
               [EvStartUpload; EvLoad 0 500 None; EvStartAnalyzing])
  = navigated init.
Proof.
  destruct (no_navigation_without_upload init two_lines
              [EvStartUpload; EvLoad 0 500 None; EvStartAnalyzing])
    as (_ & _ & N & _).
  - reflexivity.
  - exact N.
Defined.

(** The ids belong to the last upload response, not to the file chosen.
    When another file is dropped while an upload is in flight and the
    upload then completes with an id, the page holds the dropped file, which
    was never posted, together with the ids of the upload; the preview
    queued is the one of the uploaded file, and Start Analyzing
    navigates. *)
Lemma drop_during_upload (es : list event) (k code : nat) (f g : picked)
    (fields : list (string * jsval)) :
  let s := run init es in
  nth_error (xhrs s) k = Some f ->
  ok_code code = true ->
  vtruthy (field "upload_id" (VObj fields)) = true ->
  let s' := run s [EvDrop (Some g); EvLoad k code (Some (VObj fields))] in
  file s' = Some g
  /\ posted s' = posted s
  /\ upload_id (serverIds s') = field "upload_id" (VObj fields)
  /\ readers s' = (readers s ++ [f])%list
  /\ uploading s' = false
  /\ navigated (step s' EvStartAnalyzing)
     = (navigated s ++ ["/app/ai-analysis"])%list.
Proof.
  intros s N C T s'.
  pose proof (upload_run_Inv es init upload_init_Inv) as HI. fold s in HI.
  pose proof (remove_at_one k _ f (proj1 HI) N) as R.
  subst s'. cbn [run fold_left].
  set (s1 := step s (EvDrop (Some g))).
  assert (X : xhrs s1 = xhrs s /\ posted s1 = posted s
              /\ readers s1 = readers s /\ file s1 = Some g
              /\ navigated s1 = navigated s) by (repeat split).
  destruct X as (X1 & X2 & X3 & X4 & X5). clearbody s1.
  set (i := {| upload_id := field "upload_id" (VObj fields);
               job_id := vor (field "job_id" (VObj fields)) VNull |}).
  assert (E : step s1 (EvLoad k code (Some (VObj fields)))
              = setUploading false
                  (setServerIds i
                     (setReaders (readers s1 ++ [f])
                        (setStatus "Upload complete"
                           (setProgress 100 (setXhrs [] s1)))))).
  { unfold step. rewrite X1, N, R. unfold onload. fold (ok_code code).
    rewrite C. subst i. unfold vor at 2. rewrite T. unfold vor at 1.
    rewrite T. reflexivity. }
  rewrite E. unfold step, handleStartAnalysis.
  cbn [file posted serverIds readers uploading upload_id job_id navigated
       setUploading setServerIds setReaders setStatus setProgress setXhrs i].
  unfold vor at 1. rewrite T. cbv iota.
  rewrite ?T, ?X2, ?X3, ?X4, ?X5. cbn [navigated].
  rewrite ?X5. repeat split; reflexivity.
Qed.

Lemma drop_during_upload_witness :
  file (run (run init [EvDrop (Some two_lines); EvStartUpload])
            [EvDrop (Some other_file);
             EvLoad 0 200 (Some (VObj [("upload_id", VNum 7)]))])
  = Some other_file.
Proof.
  destruct (drop_during_upload [EvDrop (Some two_lines); EvStartUpload] 0 200
              two_lines other_file [("upload_id", VNum 7)]) as (F & _).
  - reflexivity.
  - reflexivity.
  - reflexivity.
  - exact F.
Defined.

Lemma upload_settles_witness :
  status (step (run init [EvDrop (Some two_lines); EvStartUpload]) (EvError 0))
  = "Error: Network error".
Proof.
  destruct (upload_settles [EvDrop (Some two_lines); EvStartUpload] 0 200
              two_lines None) as ((_ & S & _) & _).
  - reflexivity.
  - exact S.
Defined.

Lemma null_body_sticks_witness :
  uploading
    (run (step (run init [EvDrop (Some two_lines); EvStartUpload])
               (EvLoad 0 200 (Some VNull)))
         [EvStartUpload; EvChoose None])
  = true.
Proof.
  destruct (null_body_sticks [EvDrop (Some two_lines); EvStartUpload]
              [EvStartUpload; EvChoose None] 0 200 two_lines)
    as (_ & _ & U & _).
  - reflexivity.
  - reflexivity.
  - exact U.
Defined.

End UploadsFacts.

(** ** More about the logs page *)
Module LogsMore.
Import LogsPage DedupeFacts.

(** *** dedupeLogs *)

(** The rows the loop of [dedupeLogs] still keeps, given the keys seen. *)
Fixpoint kept (seen : list jsval) (arr : list jsval) : list jsval :=
  match arr with
  | [] => []
  | r :: rest =>
      if existsb (same_value_zero (dedupe_key r)) seen then kept seen rest
      else r :: kept (dedupe_key r :: seen) rest
  end.

Lemma dedupe_loop_kept (arr seen out : list jsval) :
  dedupe_loop arr seen out = (rev out ++ kept seen arr)%list.
Proof.
  revert seen out. induction arr as [|r arr IH]; intros seen out; simpl.
  - rewrite app_nil_r. reflexivity.
  - destruct (existsb _ _); [apply IH|].
    rewrite IH. simpl. rewrite <- app_assoc. reflexivity.
Qed.

Lemma dedupeLogs_kept (arr : list jsval) : dedupeLogs arr = kept [] arr.
Proof. unfold dedupeLogs. apply dedupe_loop_kept. Qed.

(** Only membership in [seen] matters. *)
Lemma kept_ext (arr : list jsval) :
  forall s1 s2,
    (forall k, existsb (same_value_zero k) s1
               = existsb (same_value_zero k) s2) ->
    kept s1 arr = kept s2 arr.
Proof.
  induction arr as [|r arr IH]; intros s1 s2 H; simpl; [reflexivity|].
  rewrite (H (dedupe_key r)). destruct (existsb _ s2); [apply IH; exact H|].
  f_equal. apply IH. intros k. simpl. rewrite (H k). reflexivity.
Qed.

(** [same_value_zero] is symmetric, and a key equal to one seen has been
    seen. *)
Lemma same_value_zero_sym (a b : jsval) :
  same_value_zero a b = same_value_zero b a.
Proof.
  destruct (same_value_zero a b) eqn:E; symmetry.
  - apply same_value_zero_spec in E. destruct E as [-> P].
    apply same_value_zero_spec. auto.
  - destruct (same_value_zero b a) eqn:E'; [|reflexivity].
    apply same_value_zero_spec in E'. destruct E' as [-> P].
    rewrite (proj2 (same_value_zero_spec a a)) in E by auto. discriminate.
Qed.

Lemma kept_filter (arr : list jsval) :
  forall s1 s2,
    kept (s1 ++ s2) arr
    = filter (fun r => negb (existsb (same_value_zero (dedupe_key r)) s1))
        (kept s2 arr).
Proof.
  induction arr as [|r arr IH]; intros s1 s2; simpl; [reflexivity|].
  rewrite existsb_app.
  destruct (existsb (same_value_zero (dedupe_key r)) s2) eqn:E2.
  - rewrite orb_true_r. apply IH.
  - rewrite orb_false_r. simpl.
    destruct (existsb (same_value_zero (dedupe_key r)) s1) eqn:E1; simpl.
    + rewrite <- (IH s1 (dedupe_key r :: s2)).
      apply kept_ext. intros k. rewrite !existsb_app. simpl.
      destruct (same_value_zero k (dedupe_key r)) eqn:E; [|reflexivity].
      apply same_value_zero_spec in E. destruct E as [-> _].
      rewrite E1. reflexivity.
    + f_equal. rewrite <- (IH s1 (dedupe_key r :: s2)).
      apply kept_ext. intros k. simpl. rewrite !existsb_app. simpl.
      destruct (same_value_zero k (dedupe_key r)),
        (existsb (same_value_zero k) s1), (existsb (same_value_zero k) s2);
        reflexivity.
Qed.

Lemma kept_app (a b : list jsval) :
  forall seen,
    kept seen (a ++ b)
    = (kept seen a ++ kept (map dedupe_key a ++ seen) b)%list.
Proof.
  induction a as [|r a IH]; intros seen; simpl; [reflexivity|].
  destruct (existsb (same_value_zero (dedupe_key r)) seen) eqn:E.
  - rewrite IH. f_equal. apply kept_ext. intros k.
    rewrite !existsb_app. simpl. rewrite existsb_app.
    destruct (same_value_zero k (dedupe_key r)) eqn:E'; [|reflexivity].
    apply same_value_zero_spec in E'. destruct E' as [-> _].
    rewrite E, orb_true_r. reflexivity.
  - simpl. f_equal. rewrite IH. f_equal. apply kept_ext. intros k.
    simpl. rewrite !existsb_app. simpl.
    destruct (same_value_zero k (dedupe_key r)),
      (existsb (same_value_zero k) (map dedupe_key a)),
      (existsb (same_value_zero k) seen); reflexivity.
Qed.

(** The first row of each key wins, and the rows kept stay in their
    order: deduplicating two batches in a row keeps what the first batch
    alone keeps, followed by what the second batch alone keeps minus the
    rows whose key the first batch already has.  In particular the first
    row of a list is always kept, and of the rows after it those with its
    key are dropped. *)
Lemma dedupe_first_wins (a b : list jsval) (r : jsval) :
  dedupeLogs (a ++ b)
  = (dedupeLogs a
     ++ filter (fun x => negb (existsb (same_value_zero (dedupe_key x))
                                 (map dedupe_key a)))
          (dedupeLogs b))%list
  /\ dedupeLogs (r :: b)
     = r :: filter (fun x => negb (same_value_zero (dedupe_key x)
                                     (dedupe_key r)))
             (dedupeLogs b).
Proof.
  assert (H : forall a b,
             dedupeLogs (a ++ b)
             = (dedupeLogs a
                ++ filter (fun x => negb (existsb
                                            (same_value_zero (dedupe_key x))
                                            (map dedupe_key a)))
                     (dedupeLogs b))%list).
  { intros a0 b0. rewrite !dedupeLogs_kept, kept_app. f_equal.
    rewrite <- (kept_filter b0 (map dedupe_key a0) []).
    reflexivity. }
  split; [apply H|].
  change (r :: b) with ([r] ++ b)%list. rewrite H. simpl. f_equal.
  apply filter_ext. intros x. rewrite orb_false_r. reflexivity.
Qed.

Lemma kept_idem (arr : list jsval) :
  forall seen, kept seen (kept seen arr) = kept seen arr.
Proof.
  induction arr as [|r arr IH]; intros seen; simpl; [reflexivity|].
  destruct (existsb (same_value_zero (dedupe_key r)) seen) eqn:E;
    [apply IH|].
  simpl. rewrite E. f_equal.
  rewrite <- (IH (dedupe_key r :: seen)) at 2.
  reflexivity.
Qed.

(** No row has the key of a row before it. *)
Definition distinct_keys (arr : list jsval) : Prop :=
  ForallOrdPairs
    (fun a b => same_value_zero (dedupe_key b) (dedupe_key a) = false) arr.

Lemma kept_length (arr : list jsval) :
  forall seen, length (kept seen arr) <= length arr.
Proof.
  induction arr as [|r arr IH]; intros seen; simpl; [lia|].
  destruct (existsb _ _); simpl;
    [specialize (IH seen)|specialize (IH (dedupe_key r :: seen))]; lia.
Qed.

Lemma kept_fixed (arr : list jsval) :
  forall seen,
    kept seen arr = arr
    <-> Forall (fun r => existsb (same_value_zero (dedupe_key r)) seen
                         = false) arr
        /\ distinct_keys arr.
Proof.
  induction arr as [|r arr IH]; intros seen; simpl.
  - split; [intros _; split; constructor|reflexivity].
  - destruct (existsb (same_value_zero (dedupe_key r)) seen) eqn:E.
    + split.
      * intros H. pose proof (kept_length arr seen) as L.
        rewrite H in L. simpl in L. lia.
      * intros [F _]. inversion F; subst. congruence.
    + split.
      * intros H. injection H as H. apply IH in H. destruct H as [F D].
        split.
        -- constructor; [exact E|]. eapply Forall_impl; [|exact F].
           simpl. intros x Hx. apply orb_false_elim in Hx. apply Hx.
        -- constructor; [|exact D]. eapply Forall_impl; [|exact F].
           simpl. intros x Hx. apply orb_false_elim in Hx. apply Hx.
      * intros [F D]. f_equal. apply IH.
        inversion F as [|? ? _ F']; subst.
        inversion D as [|? ? R D']; subst. split; [|exact D'].
        rewrite Forall_forall in *. intros x Hx. simpl.
        rewrite (R x Hx), (F' x Hx). reflexivity.
Qed.

Lemma kept_distinct (arr : list jsval) :
  forall seen,
    Forall (fun r => existsb (same_value_zero (dedupe_key r)) seen = false)
      (kept seen arr)
    /\ distinct_keys (kept seen arr).
Proof.
  intros seen. apply kept_fixed. apply kept_idem.
Qed.

(** What [dedupeLogs] returns has no two rows with the same key and is
    made of rows of the input; a list is left as it is exactly when no row
    has the key of a row before it, so deduplicating twice changes nothing
    more. *)
Lemma dedupe_idempotent (arr : list jsval) :
  distinct_keys (dedupeLogs arr)
  /\ incl (dedupeLogs arr) arr
  /\ (dedupeLogs arr = arr <-> distinct_keys arr)
  /\ dedupeLogs (dedupeLogs arr) = dedupeLogs arr.
Proof.
  rewrite !dedupeLogs_kept.
  assert (I : forall arr seen, incl (kept seen arr) arr).
  { clear. induction arr as [|r arr IH]; intros seen; simpl;
      [apply incl_refl|].
    destruct (existsb _ _).
    - apply incl_tl. apply IH.
    - apply incl_cons; [left; reflexivity|]. apply incl_tl. apply IH. }
  split; [apply kept_distinct|]. split; [apply I|]. split; [|apply kept_idem].
  rewrite kept_fixed. split; [intros [_ D]; exact D|].
  intros D. split; [|exact D]. apply Forall_forall. reflexivity.
Qed.

(** *** The debounced search *)

(** The call the filter effect makes for the filters of the current
    render. *)
Definition current_call (s : st) : call :=
  {| useServerFiltering := serverFilteringSupported s;
     p_limit := limit s;
     p_upload_id :=
       if selectedUploadId s =? "" then None else Some (selectedUploadId s);
     p_q := if trim (q s) =? "" then None else Some (trim (q s)) |}.

(** A live debounce timer was armed for the current filters, and the
    search text is not empty. *)
Definition timer_current (s : st) : Prop :=
  forall c, searchTimeout s = Some c ->
    c = current_call s /\ q s <> "".

(** The part of the state the filter effect reads, and the timer. *)
Definition same_filters (s s' : st) : Prop :=
  serverFilteringSupported s' = serverFilteringSupported s
  /\ limit s' = limit s /\ selectedUploadId s' = selectedUploadId s
  /\ q s' = q s /\ searchTimeout s' = searchTimeout s.

Lemma same_filters_current (s s' : st) :
  same_filters s s' -> timer_current s -> timer_current s'.
Proof.
  intros (A & B & C & D & E) H c Hc. unfold current_call.
  rewrite A, B, C, D. rewrite E in Hc. exact (H c Hc).
Qed.

Lemma same_filters_refl (s : st) : same_filters s s.
Proof. repeat split. Qed.

Lemma same_filters_trans (s s1 s2 : st) :
  same_filters s s1 -> same_filters s1 s2 -> same_filters s s2.
Proof.
  intros (A & B & C & D & E) (A' & B' & C' & D' & E').
  repeat split; congruence.
Qed.

Lemma abort_inflight_same (s : st) : same_filters s (abort_inflight s).
Proof. unfold abort_inflight. destruct (inflightController s); repeat split. Qed.

Lemma fetch_same (c : call) (s : st) :
  same_filters s (fetchLogsFromServer c s).
Proof.
  destruct (abort_inflight_same s) as (A & B & C & D & E).
  unfold fetchLogsFromServer. repeat split; assumption.
Qed.

Lemma finally_same (id : nat) (s : st) : same_filters s (finally_ id s).
Proof. unfold finally_. destruct (id =? fetchIdRef s)%nat; repeat split. Qed.

Lemma catch_same (e : js_error) (s : st) : same_filters s (catch_ e s).
Proof. unfold catch_. destruct (e_name e =? "AbortError"); repeat split. Qed.

(** What the filter effect leaves: no timer and a request for the current
    filters when the search text is empty, else the timer for them and no
    request. *)
Lemma filter_effect_timer (s : st) :
  let s' := filter_effect s in
  serverFilteringSupported s' = serverFilteringSupported s
  /\ limit s' = limit s /\ selectedUploadId s' = selectedUploadId s
  /\ q s' = q s
  /\ (if q s =? ""
      then searchTimeout s' = None
           /\ sent s' = (sent s ++ [(S (fetchIdRef s),
                                     query_of (current_call s))])%list
      else searchTimeout s' = Some (current_call s) /\ sent s' = sent s).
Proof.
  unfold filter_effect.
  set (s1 := abort_inflight (with_searchTimeout None s)).
  assert (A : same_filters (with_searchTimeout None s) s1
              /\ sent s1 = sent s /\ fetchIdRef s1 = fetchIdRef s).
  { subst s1. split; [apply abort_inflight_same|].
    unfold abort_inflight. destruct (inflightController _); split; reflexivity. }
  destruct A as ((A & B & C & D & E) & F & G). simpl in A, B, C, D, E.
  rewrite A, B, C, D.
  fold (current_call s).
  destruct (q s =? "") eqn:Q; cbv zeta.
  - match goal with |- context [fetchLogsFromServer ?c s1] =>
      destruct (fetch_same c s1) as (A' & B' & C' & D' & E');
      destruct (LogsFacts.fetchLogsFromServer_token c s1) as (_ & S' & _)
    end.
    rewrite A', B', C', D', E', S', A, B, C, D, E, F, G.
    repeat split; reflexivity.
  - simpl. rewrite A, B, C, D, F. repeat split; reflexivity.
Qed.

Lemma abort_inflight_keeps (s : st) (ctl : nat) :
  In ctl (aborted s) -> In ctl (aborted (abort_inflight s)).
Proof.
  unfold abort_inflight. destruct (inflightController s); simpl; [|auto].
  intros H. apply in_or_app. left. exact H.
Qed.

Lemma filter_effect_aborts (s : st) (ctl : nat) :
  inflightController s = Some ctl -> In ctl (aborted (filter_effect s)).
Proof.
  intros H. unfold filter_effect.
  set (s1 := abort_inflight (with_searchTimeout None s)).
  assert (A : In ctl (aborted s1)).
  { subst s1.
    destruct (LogsFacts.abort_inflight_frame (with_searchTimeout None s))
      as (_ & _ & _ & _ & _ & A).
    apply A. exact H. }
  clearbody s1. destruct (q s1 =? ""); [|exact A].
  unfold fetchLogsFromServer. cbn [aborted].
  apply abort_inflight_keeps. exact A.
Qed.

Lemma filter_effect_current (s : st) : timer_current (filter_effect s).
Proof.
  destruct (filter_effect_timer s) as (A & B & C & D & E).
  intros c Hc. unfold current_call. rewrite A, B, C, D.
  destruct (q s =? "") eqn:Q.
  - destruct E as [E _]. rewrite E in Hc. discriminate.
  - destruct E as [E _]. rewrite E in Hc. injection Hc as <-.
    split; [reflexivity|]. apply String.eqb_neq. exact Q.
Qed.

Lemma step_timer_current (s : st) (e : event) :
  timer_current s -> timer_current (step s e).
Proof.
  intros H.
  destruct e as [v|v|v|n| |id f|id|id body|u|k threw]; unfold step.
  - destruct (v =? q s); [exact H|apply filter_effect_current].
  - apply (same_filters_current s); [repeat split|exact H].
  - destruct (v =? selectedUploadId s); [exact H|apply filter_effect_current].
  - destruct (n =? limit s)%nat; [exact H|apply filter_effect_current].
  - destruct (searchTimeout s) as [c|]; [|exact H].
    intros c' Hc'.
    destruct (fetch_same c (with_searchTimeout None s)) as (_ & _ & _ & _ & E).
    rewrite E in Hc'. discriminate.
  - destruct (find_request _ _ _) as [p|]; [|exact H].
    unfold on_fetched. destruct f as [er|code].
    + apply (same_filters_current s); [|exact H].
      eapply same_filters_trans; [apply catch_same|].
      eapply same_filters_trans; [apply finally_same|]. repeat split.
    + destruct (_ && withFiltering p).
      * unfold downgrade.
        match goal with |- context [if ?b then _ else _] => destruct b end;
          [apply filter_effect_current|].
        apply (same_filters_current s); [|exact H].
        eapply same_filters_trans; [apply finally_same|].
        eapply same_filters_trans; [apply finally_same|]. repeat split.
      * destruct (negb _); apply (same_filters_current s);
          solve [repeat split|exact H].
  - destruct (find_request _ _ _) as [p|]; [|exact H].
    unfold on_text. apply (same_filters_current s); [|exact H].
    eapply same_filters_trans; [apply catch_same|].
    eapply same_filters_trans; [apply finally_same|]. repeat split.
  - destruct (find_request _ _ _) as [p|]; [|exact H].
    unfold on_json. destruct (negb _); apply (same_filters_current s);
      try exact H.
    + eapply same_filters_trans; [apply finally_same|]. repeat split.
    + match goal with |- same_filters s (drop_request _ (finally_ _ ?x)) =>
        apply (same_filters_trans s x); [repeat split|] end.
      eapply same_filters_trans; [apply finally_same|]. repeat split.
  - unfold handleDeleteUpload.
    match goal with |- context [if ?b then _ else _] => destruct b end;
      [apply filter_effect_current|].
    apply (same_filters_current s); [repeat split|exact H].
  - destruct (nth_error _ _) as [r|]; [|exact H].
    destruct threw; apply (same_filters_current s); try exact H;
      [repeat split|].
    unfold refresh_logs.
    eapply same_filters_trans; [|apply fetch_same]. repeat split.
Qed.

Lemma run_timer_current (es : list event) (s : st) :
  timer_current s -> timer_current (run s es).
Proof.
  revert s. induction es as [|e es IH]; intros s H; [exact H|].
  simpl. apply IH. apply step_timer_current. exact H.
Qed.

(** The debounced search never uses stale filters.  On the page as
    mounted, whatever has happened, a live 300 ms timer was armed for the
    filters of the current render: when it fires, one request is sent, for
    the current limit, upload and trimmed search text, and the timer is
    gone.  While the search text stays non-empty a change of it sends
    nothing; it aborts the request in flight and arms the timer anew. *)
Lemma debounced_search (es : list event) (c : call) :
  let s := run mounted_page es in
  searchTimeout s = Some c ->
  q s <> ""
  /\ sent (step s EvDebounce)
     = (sent s ++ [(S (fetchIdRef s), query_of (current_call s))])%list
  /\ searchTimeout (step s EvDebounce) = None
  /\ forall v, v <> "" -> v <> q s ->
       sent (step s (EvSetQ v)) = sent s
       /\ (exists c', searchTimeout (step s (EvSetQ v)) = Some c'
                      /\ p_q c' = if trim v =? "" then None
                                  else Some (trim v))
       /\ forall ctl, inflightController s = Some ctl ->
            In ctl (aborted (step s (EvSetQ v))).
Proof.
  intros s Hc.
  assert (H : timer_current s).
  { apply run_timer_current. apply filter_effect_current. }
  destruct (H c Hc) as [-> Hq]. split; [exact Hq|].
  split; [|split].
  - unfold step. rewrite Hc.
    match goal with |- context [fetchLogsFromServer ?c ?x] =>
      destruct (LogsFacts.fetchLogsFromServer_token c x) as (_ & S' & _)
    end.
    rewrite S'. reflexivity.
  - unfold step. rewrite Hc.
    match goal with |- context [fetchLogsFromServer ?c ?x] =>
      destruct (fetch_same c x) as (_ & _ & _ & _ & E)
    end.
    rewrite E. reflexivity.
  - intros v Hv Hne. unfold step.
    apply String.eqb_neq in Hne. rewrite Hne.
    set (x := with_filters v (levelFilter s) (selectedUploadId s) (limit s) s).
    destruct (filter_effect_timer x) as (_ & _ & _ & _ & E).
    change (q x) with v in E. apply String.eqb_neq in Hv. rewrite Hv in E.
    destruct E as [E1 E2]. split; [rewrite E2; reflexivity|]. split.
    + eexists. split; [exact E1|]. reflexivity.
    + intros ctl Hctl. apply filter_effect_aborts. exact Hctl.
Qed.

Lemma debounced_search_witness :
  sent (step (run mounted_page [EvSetQ "err "]) EvDebounce)
  = (sent (run mounted_page [EvSetQ "err "])
     ++ [(S (fetchIdRef (run mounted_page [EvSetQ "err "])),
          query_of (current_call (run mounted_page [EvSetQ "err "])))])%list.
Proof.
  destruct (debounced_search [EvSetQ "err "]
              {| useServerFiltering := true; p_limit := 500;
                 p_upload_id := None; p_q := Some "err" |}) as (_ & S & _).
  - reflexivity.
  - exact S.
Defined.

(** *** The loading flag *)

(** The latest request is still waiting for its continuation. *)
Definition latest_pending (s : st) : bool :=
  existsb (fun p => (thisFetchId p =? fetchIdRef s)%nat) (requests s).

Definition spinner_ok (s : st) : Prop := loadingLogs s = latest_pending s.

Lemma spinner_same (s s' : st) :
  loadingLogs s' = loadingLogs s -> requests s' = requests s ->
  fetchIdRef s' = fetchIdRef s -> spinner_ok s -> spinner_ok s'.
Proof.
  unfold spinner_ok, latest_pending. intros -> -> ->. auto.
Qed.

Lemma fetch_spinner (c : call) (s : st) :
  spinner_ok (fetchLogsFromServer c s).
Proof.
  unfold spinner_ok, latest_pending, fetchLogsFromServer.
  cbn [loadingLogs requests fetchIdRef]. rewrite existsb_app. simpl.
  rewrite Nat.eqb_refl, orb_true_r. reflexivity.
Qed.

Lemma filter_effect_spinner (s : st) :
  spinner_ok s -> spinner_ok (filter_effect s).
Proof.
  intros H. unfold filter_effect.
  match goal with |- context [if ?b then _ else _] => destruct b end;
    [apply fetch_spinner|].
  apply (spinner_same s); auto;
    unfold abort_inflight; cbn [inflightController with_searchTimeout];
    destruct (inflightController s); reflexivity.
Qed.

(** A request that settles: its [finally] and the end of its
    continuation. *)
Lemma settled_spinner (id : nat) (s : st) :
  spinner_ok s -> spinner_ok (drop_request id (finally_ id s)).
Proof.
  unfold spinner_ok, latest_pending, drop_request, finally_. intros H.
  destruct (Nat.eqb_spec id (fetchIdRef s)) as [->|Hne];
    cbn [loadingLogs requests fetchIdRef with_requests with_loading].
  - symmetry. apply not_true_is_false. intros E.
    apply existsb_exists in E. destruct E as (p & Hin & Hp).
    apply filter_In in Hin. destruct Hin as [_ Hn].
    rewrite Hp in Hn. discriminate.
  - rewrite H. clear H. induction (requests s) as [|p l IH]; [reflexivity|].
    simpl. destruct (Nat.eqb_spec (thisFetchId p) id) as [E|E]; simpl.
    + destruct (Nat.eqb_spec (thisFetchId p) (fetchIdRef s)); [lia|].
      exact IH.
    + rewrite IH. reflexivity.
Qed.

Lemma finally_idem (id : nat) (s : st) :
  finally_ id (finally_ id s) = finally_ id s.
Proof.
  unfold finally_. destruct (id =? fetchIdRef s)%nat eqn:E; [|rewrite E; reflexivity].
  cbn [fetchIdRef with_loading]. rewrite E. reflexivity.
Qed.

Lemma set_phase_spinner (id : nat) (ph : phase) (s : st) :
  spinner_ok s -> spinner_ok (set_phase id ph s).
Proof.
  unfold spinner_ok, latest_pending, set_phase. intros H.
  cbn [loadingLogs requests fetchIdRef with_requests]. rewrite H. clear H.
  induction (requests s) as [|p l IH]; [reflexivity|]. simpl.
  rewrite IH. f_equal.
  destruct (Nat.eqb_spec (thisFetchId p) id) as [E|E]; [|reflexivity].
  simpl. rewrite E. reflexivity.
Qed.

Lemma step_spinner (s : st) (e : event) : spinner_ok s -> spinner_ok (step s e).
Proof.
  intros H.
  destruct e as [v|v|v|n| |id f|id|id body|u|k threw]; unfold step.
  - destruct (v =? q s); [exact H|].
    apply filter_effect_spinner. apply (spinner_same s); auto.
  - apply (spinner_same s); auto.
  - destruct (v =? selectedUploadId s); [exact H|].
    apply filter_effect_spinner. apply (spinner_same s); auto.
  - destruct (n =? limit s)%nat; [exact H|].
    apply filter_effect_spinner. apply (spinner_same s); auto.
  - destruct (searchTimeout s); [apply fetch_spinner|exact H].
  - destruct (find_request _ _ _) as [p|]; [|exact H].
    unfold on_fetched. destruct f as [er|code].
    + apply settled_spinner. apply (spinner_same s); auto;
        unfold catch_; destruct (e_name er =? "AbortError"); reflexivity.
    + destruct (_ && withFiltering p).
      * unfold downgrade.
        match goal with |- context [if ?b then _ else _] => destruct b end.
        -- apply filter_effect_spinner.
           match goal with |- spinner_ok (with_supported _ ?x) =>
             apply (spinner_same x); auto end.
           rewrite finally_idem. apply settled_spinner. exact H.
        -- rewrite finally_idem. apply settled_spinner. exact H.
      * destruct (negb _); apply set_phase_spinner; exact H.
  - destruct (find_request _ _ _) as [p|]; [|exact H].
    unfold on_text. apply settled_spinner.
    apply (spinner_same s); auto; unfold catch_;
      destruct (e_name _ =? "AbortError"); reflexivity.
  - destruct (find_request _ _ _) as [p|]; [|exact H].
    unfold on_json. destruct (negb _); apply settled_spinner; [exact H|].
    apply (spinner_same s); auto.
  - unfold handleDeleteUpload.
    match goal with |- context [if ?b then _ else _] => destruct b end.
    + apply filter_effect_spinner. apply (spinner_same s); auto.
    + apply (spinner_same s); auto.
  - destruct (nth_error _ _) as [r|]; [|exact H].
    destruct threw; [apply (spinner_same s); auto|].
    unfold refresh_logs. apply fetch_spinner.
Qed.

(** The loading flag follows the latest request.  On the page as mounted,
    whatever has happened, the logs are shown as loading exactly while the
    request that was sent last has not settled; requests sent before it
    settle without touching the flag. *)
Lemma spinner_tracks_latest (es : list event) :
  let s := run mounted_page es in
  loadingLogs s = true
  <-> exists p, In p (requests s) /\ thisFetchId p = fetchIdRef s.
Proof.
  intros s.
  assert (H : spinner_ok s).
  { subst s. assert (H0 : spinner_ok mounted_page) by reflexivity.
    revert H0. generalize mounted_page.
    induction es as [|e es IH]; intros x Hx; [exact Hx|].
    simpl. apply IH. apply step_spinner. exact Hx. }
  unfold spinner_ok, latest_pending in H. rewrite H, existsb_exists.
  split; intros (p & Hin & Hp); exists p; split; auto.
  - apply Nat.eqb_eq. exact Hp.
  - apply Nat.eqb_eq. exact Hp.
Qed.

End LogsMore.

(** ** The cache of the dashboard between polls *)
Module CacheFacts.
Import Dashboard MergeFacts.

Section WithDate.
Variable date_parse : string -> option Z.
Variable stringify : jsval -> string.

Abbreviation key := (stableLogKey date_parse stringify).
Abbreviation stime := (sort_time date_parse).
Abbreviation earlier := (fun a b => (stime a <= stime b)%Z).

Lemma map_set_fresh (k : option string) (v : jsval) m :
  ~ In k (map fst m) -> map_set k v m = (m ++ [(k, v)])%list.
Proof.
  induction m as [|[k0 v0] m IH]; simpl; intros H; [reflexivity|].
  destruct (key_eqb_spec k k0) as [->|Hne]; [tauto|].
  f_equal. apply IH. tauto.
Qed.

(** Rows with distinct keys, none of them in the map yet, are appended in
    their order. *)
Lemma set_all_fresh (l : list jsval) :
  forall m,
    NoDup (map key l) ->
    (forall x, In x l -> ~ In (key x) (map fst m)) ->
    set_all date_parse stringify m l
    = (m ++ map (fun x => (key x, x)) l)%list.
Proof.
  induction l as [|x l IH]; intros m Hn Hf.
  - simpl. rewrite app_nil_r. reflexivity.
  - inversion Hn as [|? ? Hx Hn']; subst.
    change (set_all date_parse stringify m (x :: l))
      with (set_all date_parse stringify (map_set (key x) x m) l).
    rewrite map_set_fresh by (apply Hf; left; reflexivity).
    rewrite IH; [simpl; rewrite <- app_assoc; reflexivity| |].
    + exact Hn'.
    + intros y Hy. rewrite map_app, in_app_iff. simpl.
      intros [H|[H|[]]].
      * exact (Hf y (or_intror Hy) H).
      * apply Hx. rewrite H. apply in_map. exact Hy.
Qed.

Lemma insert_row_last (x : jsval) (acc : list jsval) :
  Forall (fun y => earlier y x) acc ->
  insert_row date_parse x acc = (acc ++ [x])%list.
Proof.
  induction 1 as [|y acc Hy _ IH]; simpl; [reflexivity|].
  destruct (Z.ltb_spec (stime x) (stime y)); [lia|]. f_equal. exact IH.
Qed.

Lemma sorted_app_inv (l1 l2 : list jsval) (x : jsval) :
  StronglySorted earlier (l1 ++ x :: l2) -> Forall (fun y => earlier y x) l1.
Proof.
  induction l1 as [|y l1 IH]; simpl; intros H; [constructor|].
  inversion H as [|? ? Hs Hf]; subst. constructor.
  - rewrite Forall_forall in Hf. apply Hf. apply in_or_app. right. left.
    reflexivity.
  - apply IH. exact Hs.
Qed.

(** Sorting rows that are in ascending order leaves them as they are. *)
Lemma sort_rows_fixed (l : list jsval) :
  StronglySorted earlier l -> sort_rows date_parse l = l.
Proof.
  unfold sort_rows.
  assert (H : forall l acc, StronglySorted earlier (acc ++ l) ->
                fold_left (fun a x => insert_row date_parse x a) l acc
                = (acc ++ l)%list).
  { clear. induction l as [|x l IH]; intros acc Hs; simpl.
    - rewrite app_nil_r. reflexivity.
    - rewrite (insert_row_last x acc (sorted_app_inv acc l x Hs)).
      rewrite IH; rewrite <- app_assoc; [reflexivity|exact Hs]. }
  intros Hs. apply (H l []). exact Hs.
Qed.

Lemma skipn_sorted (n : nat) (l : list jsval) :
  StronglySorted earlier l -> StronglySorted earlier (skipn n l).
Proof.
  revert l. induction n as [|n IH]; intros l H; [exact H|].
  destruct l as [|x l]; [exact H|]. simpl. apply IH.
  inversion H; assumption.
Qed.

Lemma skipn_NoDup {A : Type} (n : nat) (l : list A) :
  NoDup l -> NoDup (skipn n l).
Proof.
  revert l. induction n as [|n IH]; intros l H; [exact H|].
  destruct l as [|x l]; [exact H|]. simpl. apply IH.
  inversion H; assumption.
Qed.

Lemma filter_sorted (f : jsval -> bool) (l : list jsval) :
  StronglySorted earlier l -> StronglySorted earlier (filter f l).
Proof.
  induction 1 as [|x l Hs IH Hf]; simpl; [constructor|].
  destruct (f x); [|exact IH]. constructor; [exact IH|].
  rewrite Forall_forall in *. intros y Hy. apply Hf.
  apply filter_In in Hy. apply Hy.
Qed.

Lemma filter_NoDup_keys (f : jsval -> bool) (l : list jsval) :
  NoDup (map key l) -> NoDup (map key (filter f l)).
Proof.
  induction l as [|x l IH]; simpl; intros H; [constructor|].
  inversion H as [|? ? Hx Hn]; subst.
  destruct (f x); simpl; [|auto]. constructor; [|auto].
  intros Hin. apply Hx. apply in_map_iff in Hin.
  destruct Hin as (y & Hy & Hin). apply filter_In in Hin.
  rewrite <- Hy. apply in_map. apply Hin.
Qed.

(** Merging rows that are sorted and have distinct keys with nothing
    gives the same rows. *)
Lemma merge_nothing (c : list jsval) :
  StronglySorted earlier c -> NoDup (map key c) ->
  merge_poll date_parse stringify c [] = c.
Proof.
  intros Hs Hn. unfold merge_poll. simpl.
  rewrite (set_all_fresh c []); [|exact Hn|intros x _ []].
  simpl. rewrite map_map. simpl. rewrite map_id. apply sort_rows_fixed.
  exact Hs.
Qed.

(** *** Fetching the same rows again *)

(** The last row of [rows] under key [k]. *)
Definition last_with (k : option string) (rows : list jsval) : option jsval :=
  find (fun y => key_eqb (key y) k) (rev rows).

Lemma last_with_snoc (k : option string) (rows : list jsval) (y : jsval) :
  last_with k (rows ++ [y])
  = if key_eqb (key y) k then Some y else last_with k rows.
Proof. unfold last_with. rewrite rev_unit. reflexivity. Qed.

Lemma find_app_some {A : Type} (f : A -> bool) (l l' : list A) :
  find f (l ++ l')
  = match find f l with Some x => Some x | None => find f l' end.
Proof.
  induction l as [|a l IH]; simpl; [reflexivity|].
  destruct (f a); [reflexivity|exact IH].
Qed.

Lemma last_with_cons (k : option string) (rows : list jsval) (y : jsval) :
  last_with k (y :: rows)
  = match last_with k rows with
    | Some z => Some z
    | None => if key_eqb (key y) k then Some y else None
    end.
Proof. unfold last_with. simpl. rewrite find_app_some. reflexivity. Qed.

Lemma last_with_key (k : option string) (rows : list jsval) (z : jsval) :
  last_with k rows = Some z -> In z rows /\ key z = k.
Proof.
  unfold last_with. intros H. apply find_some in H. destruct H as [Hin Hk].
  split; [apply in_rev; exact Hin|].
  destruct (key_eqb_spec (key z) k); [assumption|discriminate].
Qed.

Lemma set_all_snoc m (rows : list jsval) (y : jsval) :
  set_all date_parse stringify m (rows ++ [y])
  = map_set (key y) y (set_all date_parse stringify m rows).
Proof. unfold set_all. rewrite fold_left_app. reflexivity. Qed.

(** After the loop, a key of [rows] holds the last row of [rows] under
    it. *)
Lemma set_all_last (rows : list jsval) :
  forall m, keyed date_parse stringify m ->
    forall k v, In (k, v) (set_all date_parse stringify m rows) ->
      In k (map key rows) -> last_with k rows = Some v.
Proof.
  induction rows as [|y rows IH] using rev_ind; intros m Hm k v Hin Hk.
  - destruct Hk.
  - rewrite set_all_snoc in Hin. rewrite last_with_snoc.
    destruct (set_all_spec date_parse stringify rows m Hm) as (K & _ & _).
    destruct (map_set_lookup _ _ _ _ _ (proj1 K) Hin) as [[-> ->]|[Hne Hold]].
    + destruct (key_eqb_spec (key y) (key y)); [reflexivity|congruence].
    + destruct (key_eqb_spec (key y) k) as [E|_]; [congruence|].
      apply (IH m Hm k v Hold).
      rewrite map_app, in_app_iff in Hk. destruct Hk as [Hk|[Hk|[]]];
        [exact Hk|congruence].
Qed.

Lemma map_set_present (k : option string) (v : jsval) m :
  NoDup (map fst m) -> In k (map fst m) ->
  map_set k v m
  = map (fun p => if key_eqb (fst p) k then (k, v) else p) m.
Proof.
  induction m as [|[k0 v0] m IH]; simpl; intros Hn Hin; [destruct Hin|].
  inversion Hn as [|? ? Hnot Hn']; subst.
  destruct (key_eqb_spec k k0) as [->|Hne].
  - destruct (key_eqb_spec k0 k0); [|congruence]. f_equal.
    rewrite <- (map_id m) at 1. apply map_ext_in. intros [k1 v1] H1. simpl.
    destruct (key_eqb_spec k1 k0) as [->|]; [|reflexivity].
    exfalso. apply Hnot. apply (in_map fst) in H1. exact H1.
  - destruct (key_eqb_spec k0 k); [congruence|]. f_equal.
    apply IH; [exact Hn'|]. destruct Hin; [congruence|assumption].
Qed.

(** When every key of [rows] is in the map already, the loop only
    replaces rows in place: each key holds the last row of [rows] under it,
    or its old row. *)
Lemma set_all_update (rows : list jsval) :
  forall m,
    NoDup (map fst m) ->
    (forall y, In y rows -> In (key y) (map fst m)) ->
    set_all date_parse stringify m rows
    = map (fun p => (fst p, match last_with (fst p) rows with
                            | Some z => z
                            | None => snd p
                            end)) m.
Proof.
  induction rows as [|y rows IH]; intros m Hn Hk.
  - simpl. rewrite <- (map_id m) at 1. apply map_ext. intros [k v].
    reflexivity.
  - change (set_all date_parse stringify m (y :: rows))
      with (set_all date_parse stringify (map_set (key y) y m) rows).
    pose proof (map_set_present (key y) y m Hn (Hk y (or_introl eq_refl)))
      as E.
    assert (F : map fst (map_set (key y) y m) = map fst m).
    { rewrite E, map_map. apply map_ext. intros [k v]. simpl.
      destruct (key_eqb_spec k (key y)) as [->|]; reflexivity. }
    rewrite IH.
    + rewrite E, map_map. apply map_ext. intros [k v]. simpl.
      rewrite last_with_cons.
      destruct (key_eqb_spec k (key y)) as [->|Hne]; simpl.
      * destruct (last_with (key y) rows); [reflexivity|].
        destruct (key_eqb_spec (key y) (key y)); [reflexivity|congruence].
      * destruct (last_with k rows); [reflexivity|].
        destruct (key_eqb_spec (key y) k); [congruence|reflexivity].
    + rewrite F. exact Hn.
    + intros z Hz. rewrite F. apply Hk. right. exact Hz.
Qed.

(** Merging what a merge has produced with the same fetch again gives the
    same rows. *)
Lemma merge_again (cur newest : list jsval) :
  merge_poll date_parse stringify
    (merge_poll date_parse stringify cur newest) newest
  = merge_poll date_parse stringify cur newest.
Proof.
  destruct (merged_spec date_parse stringify cur newest) as (N & C & _ & S).
  fold (merge_poll date_parse stringify cur newest) in N, C, S.
  set (M := merge_poll date_parse stringify cur newest) in *.
  destruct (set_all_spec date_parse stringify cur [] (keyed_nil _ _))
    as (K1 & _ & _).
  destruct (set_all_spec date_parse stringify newest _ K1) as (K2 & _ & _).
  assert (L : forall x, In x M -> In (key x) (map key newest) ->
                last_with (key x) newest = Some x).
  { intros x Hx Hk.
    assert (Hin : In x (map snd (set_all date_parse stringify
                                   (set_all date_parse stringify [] cur)
                                   newest))).
    { eapply Permutation_in; [apply sort_rows_perm|exact Hx]. }
    apply in_map_iff in Hin. destruct Hin as ([k v] & Ev & Hin).
    simpl in Ev. subst v.
    assert (Ek : key x = k) by (apply K2; exact Hin). subst k.
    exact (set_all_last newest _ K1 _ _ Hin Hk). }
  unfold merge_poll at 1.
  rewrite (set_all_fresh M []);
    [|exact N|intros x _ []].
  rewrite app_nil_l, set_all_update.
  - rewrite !map_map. simpl.
    replace (map _ M) with M; [apply sort_rows_fixed; exact S|].
    rewrite <- (map_id M) at 1. apply map_ext_in. intros x Hx.
    destruct (last_with (key x) newest) as [z|] eqn:E; [|reflexivity].
    destruct (last_with_key _ _ _ E) as [Hz Kz].
    rewrite (L x Hx) in E; [congruence|].
    rewrite <- Kz. apply in_map. exact Hz.
  - rewrite map_map. simpl. exact N.
  - intros y Hy. rewrite map_map. simpl.
    destruct (C y (in_or_app _ _ _ (or_intror Hy))) as (x & Hx & Ex).
    rewrite <- Ex. apply in_map. exact Hx.
Qed.

End WithDate.

(** The cache survives a fetch that brings nothing.  What a poll writes to
    the cache has at most 5000 rows, in ascending order of event time and
    with distinct keys.  A later poll whose fetch returns no rows writes
    the same cache back and shows exactly its rows, and a reload whose
    fetch returns no rows shows the cached rows whose key is not empty. *)
Lemma empty_poll_keeps_cache (date_parse : string -> option Z)
    (stringify : jsval -> string) (cur newest : list jsval) :
  let key := stableLogKey date_parse stringify in
  let c := fst (poll date_parse stringify cur newest) in
  length c <= 5000
  /\ NoDup (map key c)
  /\ StronglySorted
       (fun a b => (sort_time date_parse a <= sort_time date_parse b)%Z) c
  /\ poll date_parse stringify c [] = (c, c)
  /\ merge_initial date_parse stringify c []
     = filter (fun e => truthy (key e)) c.
Proof.
  intros key c.
  destruct (merged_spec date_parse stringify cur newest) as (N & _ & _ & S).
  fold (merge_poll date_parse stringify cur newest) in N, S.
  set (M := merge_poll date_parse stringify cur newest) in *.
  assert (Ec : c = skipn (length M - 5000) M) by reflexivity.
  assert (L : length c <= 5000) by (rewrite Ec, length_skipn; lia).
  assert (Nc : NoDup (map key c)).
  { rewrite Ec. unfold key. rewrite <- skipn_map. apply skipn_NoDup. exact N. }
  assert (Sc : StronglySorted
                 (fun a b => (sort_time date_parse a
                              <= sort_time date_parse b)%Z) c).
  { rewrite Ec. apply skipn_sorted. exact S. }
  clearbody c. repeat (split; [assumption|]). split.
  - unfold poll. rewrite (merge_nothing date_parse stringify c Sc Nc).
    unfold writeCache. replace (length c - 5000) with 0 by lia. reflexivity.
  - unfold merge_initial. rewrite !set_truthy_filter. simpl.
    fold key.
    pose proof (merge_nothing date_parse stringify
                  (filter (fun e => truthy (key e)) c)
                  (filter_sorted date_parse _ c Sc)
                  (filter_NoDup_keys date_parse stringify _ c Nc)) as Q.
    unfold merge_poll in Q. simpl in Q. exact Q.
Qed.

(** Steady polling is stable.  When the merged rows fit the cache (at most
    5000), a second poll that fetches the same rows again shows the same
    rows as the first, whether or not either cache write succeeded.  After
    a write that succeeded the cache holds exactly the rows shown; after
    one that failed the cache is the one the poll started from. *)
Lemma same_fetch_is_stable (date_parse : string -> option Z)
    (stringify : jsval -> string) (stored1 stored2 : bool)
    (cur newest : list jsval) :
  length (merge_poll date_parse stringify cur newest) <= 5000 ->
  let first := poll_stored date_parse stringify stored1 cur newest in
  let second := poll_stored date_parse stringify stored2 (fst first) newest in
  snd second = snd first
  /\ fst first = (if stored1 then snd first else cur)
  /\ fst second = (if stored2 then snd second else fst first).
Proof.
  intros L first second. subst first second. unfold poll_stored.
  cbn [fst snd]. unfold writeCache_stored.
  assert (W : writeCache (merge_poll date_parse stringify cur newest)
              = merge_poll date_parse stringify cur newest).
  { unfold writeCache.
    replace (length (merge_poll date_parse stringify cur newest) - 5000)
      with 0 by lia.
    reflexivity. }
  destruct stored1.
  - rewrite W, merge_again. destruct stored2; rewrite ?W; auto.
  - destruct stored2; rewrite ?W; auto.
Qed.

Lemma same_fetch_is_stable_witness :
  snd (poll_stored no_date_string flat_json true
         (fst (poll_stored no_date_string flat_json false
                 [row_1a; row_untimed] [row_1b]))
         [row_1b])
  = snd (poll_stored no_date_string flat_json false
           [row_1a; row_untimed] [row_1b]).
Proof.
  destruct (same_fetch_is_stable no_date_string flat_json false true
              [row_1a; row_untimed] [row_1b]) as [P _].
  - vm_compute. lia.
  - exact P.
Defined.

End CacheFacts.

(** ** The unit of a numeric timestamp *)
Module TimeFacts.
Import Dashboard.

Lemma digit_not_space (c : Ascii.ascii) : is_digit c = true -> is_space c = false.
Proof.
  unfold is_digit, is_space. cbv zeta. intros H.
  apply andb_prop in H. destruct H as [H1 H2].
  apply Nat.leb_le in H1. apply Nat.leb_le in H2.
  apply orb_false_intro.
  - apply Nat.eqb_neq. lia.
  - apply andb_false_intro2. apply Nat.leb_gt. lia.
Qed.

Lemma trim_start_digits (s : string) : all_digits s = true -> trim_start s = s.
Proof.
  destruct s as [|c r]; simpl; [reflexivity|]. intros H.
  apply andb_prop in H. destruct H as [H _].
  rewrite (digit_not_space c H). reflexivity.
Qed.

Lemma rev_string_digits (s : string) :
  forall acc, all_digits (rev_string s acc) = all_digits s && all_digits acc.
Proof.
  induction s as [|c r IH]; intros acc; simpl; [reflexivity|].
  rewrite IH. simpl. destruct (is_digit c), (all_digits r); reflexivity.
Qed.

Lemma rev_string_rev (s : string) :
  forall acc acc', rev_string (rev_string s acc) acc'
                   = rev_string acc (s ++ acc').
Proof.
  induction s as [|c r IH]; intros acc acc'; simpl; [reflexivity|].
  rewrite IH. reflexivity.
Qed.

Lemma append_empty (s : string) : s ++ "" = s.
Proof. induction s as [|c r IH]; simpl; [reflexivity|]. rewrite IH. reflexivity. Qed.

(** A string of digits has nothing to trim. *)
Lemma trim_digits (s : string) : all_digits s = true -> trim s = s.
Proof.
  intros H. unfold trim. rewrite (trim_start_digits s H).
  rewrite trim_start_digits by (rewrite rev_string_digits, H; reflexivity).
  rewrite rev_string_rev. simpl. apply append_empty.
Qed.

Lemma digit_value_range (c : Ascii.ascii) :
  is_digit c = true ->
  (0 <= Z.of_nat (Ascii.nat_of_ascii c - 48) <= 9)%Z.
Proof.
  unfold is_digit. cbv zeta. intros H. apply andb_prop in H.
  destruct H as [H1 H2]. apply Nat.leb_le in H1. apply Nat.leb_le in H2. lia.
Qed.

(** The value of a string of [k] digits is below [10^k]. *)
Lemma digits_value_range (s : string) :
  all_digits s = true ->
  forall acc, (0 <= acc)%Z ->
    (acc * 10 ^ Z.of_nat (String.length s) <= digits_value s acc
     < (acc + 1) * 10 ^ Z.of_nat (String.length s))%Z.
Proof.
  induction s as [|c r IH]; intros H acc Ha.
  - simpl. lia.
  - simpl in H. apply andb_prop in H. destruct H as [Hc Hr].
    pose proof (digit_value_range c Hc) as Hd.
    cbn [digits_value String.length].
    specialize (IH Hr (10 * acc + Z.of_nat (Ascii.nat_of_ascii c - 48))%Z).
    rewrite Nat2Z.inj_succ, Z.pow_succ_r by lia.
    assert (P : (0 < 10 ^ Z.of_nat (String.length r))%Z)
      by (apply Z.pow_pos_nonneg; lia).
    nia.
Qed.

Section WithDate.
Variable date_parse : string -> option Z.

Lemma first_candidate (r : jsval) (t : Z) :
  field "timestamp" r <> VUndef ->
  time_of_candidate date_parse (field "timestamp" r) = Some t ->
  getTimestampFromLog date_parse r = Some t.
Proof.
  intros Hf Ht. unfold getTimestampFromLog.
  assert (Hr : vtruthy r = true).
  { destruct r; simpl in *; congruence. }
  rewrite Hr. unfold candidates. simpl. rewrite Ht. reflexivity.
Qed.

(** Seconds or milliseconds.  A row whose [timestamp] is a string of
    digits and a row whose [timestamp] is the number with those digits are
    not always given the same time.  Ten digits are read as seconds in the
    string form, and in the number form only above 1e9; eleven and twelve
    digits are read as milliseconds in the string form and as seconds in the
    number form; thirteen digits above 1e12 are milliseconds in both. *)
Lemma timestamp_units (rs rn : jsval) (s : string) :
  field "timestamp" rs = VStr s ->
  field "timestamp" rn = VNum (digits_value s 0) ->
  is_digits s = true ->
  let n := digits_value s 0 in
  let ts := getTimestampFromLog date_parse rs in
  let tn := getTimestampFromLog date_parse rn in
  (String.length s = 10 ->
     ts = Some (n * 1000)%Z
     /\ tn = Some (if (n >? 1000000000)%Z then n * 1000 else n)%Z)
  /\ (String.length s = 11 \/ String.length s = 12 ->
      (n > 1000000000)%Z ->
      ts = Some n /\ tn = Some (n * 1000)%Z)
  /\ (String.length s = 13 -> (n > 1000000000000)%Z ->
      ts = Some n /\ tn = Some n).
Proof.
  intros Hs Hn Hd n ts tn.
  unfold is_digits in Hd. apply andb_prop in Hd. destruct Hd as [Hne Hd].
  pose proof (digits_value_range s Hd 0 (Z.le_refl 0)) as R. fold n in R.
  assert (Es : forall t,
             time_of_candidate date_parse (VStr s) = Some t -> ts = Some t).
  { intros t Ht. apply first_candidate; rewrite Hs; [discriminate|exact Ht]. }
  assert (En : forall t,
             time_of_candidate date_parse (VNum n) = Some t -> tn = Some t).
  { intros t Ht. apply first_candidate; rewrite Hn; [discriminate|exact Ht]. }
  assert (Vs : time_of_candidate date_parse (VStr s)
               = match (if (String.length s =? 10)%nat
                        then date_of_number (n * 1000)
                        else date_of_number n) with
                 | Some t => Some t
                 | None => date_parse s
                 end).
  { unfold time_of_candidate. rewrite (trim_digits s Hd).
    unfold is_digits. rewrite Hne, Hd. reflexivity. }
  assert (V : forall x, (0 <= x <= 8640000000000000)%Z ->
                date_of_number x = Some x).
  { intros x Hx. unfold date_of_number.
    destruct (Z.leb_spec (Z.abs x) 8640000000000000); [reflexivity|lia]. }
  split; [|split].
  - intros L. rewrite L in R. change (10 ^ Z.of_nat 10)%Z with 10000000000%Z in R.
    split.
    + apply Es. rewrite Vs, L. simpl Nat.eqb. cbv iota. rewrite V by lia.
      reflexivity.
    + apply En. unfold time_of_candidate.
      destruct (Z.gtb_spec n 1000000000000); [lia|].
      destruct (Z.gtb_spec n 1000000000); rewrite V by lia; reflexivity.
  - intros L G.
    assert (B : (n < 1000000000000)%Z).
    { destruct L as [L|L]; rewrite L in R;
        [change (10 ^ Z.of_nat 11)%Z with 100000000000%Z in R
        |change (10 ^ Z.of_nat 12)%Z with 1000000000000%Z in R]; lia. }
    split.
    + apply Es. rewrite Vs.
      replace (String.length s =? 10)%nat with false
        by (symmetry; apply Nat.eqb_neq; lia).
      rewrite V by lia. reflexivity.
    + apply En. unfold time_of_candidate.
      destruct (Z.gtb_spec n 1000000000000); [lia|].
      destruct (Z.gtb_spec n 1000000000); [|lia]. rewrite V by lia.
      reflexivity.
  - intros L G. rewrite L in R.
    change (10 ^ Z.of_nat 13)%Z with 10000000000000%Z in R. split.
    + apply Es. rewrite Vs, L. simpl Nat.eqb. cbv iota. rewrite V by lia.
      reflexivity.
    + apply En. unfold time_of_candidate.
      destruct (Z.gtb_spec n 1000000000000); [|lia]. rewrite V by lia.
      reflexivity.
Qed.

End WithDate.

Lemma timestamp_units_witness :
  getTimestampFromLog no_date_string
    (VObj [("timestamp", VStr "17000000000")])
  = Some 17000000000%Z
  /\ getTimestampFromLog no_date_string
       (VObj [("timestamp", VNum 17000000000)])
     = Some 17000000000000%Z.
Proof.
  destruct (timestamp_units no_date_string
              (VObj [("timestamp", VStr "17000000000")])
              (VObj [("timestamp", VNum 17000000000)]) "17000000000")
    as (_ & H & _).
  - reflexivity.
  - reflexivity.
  - reflexivity.
  - apply H; [left; reflexivity|reflexivity].
Defined.

End TimeFacts.
